(** * PURReaderControl: the reader host protocol of [purreader]

  A shallow embedding of [purreader/message.py] (class [PURPacket] and the
  lookup tables) and of the protocol part of [purreader/reader.py]
  (class [PURReader]: [send], [checkResp], [getParam], [parseTagreports]),
  followed by the properties of the framing, of the response splitting, of
  the return-code convention and of the tag-report decoder.

  Python [bytes] are lists of integers in [0, 256); indexing a [bytes]
  object yields an [int], slicing never raises and indexing out of range
  raises [IndexError].  Exceptions are the [Raise] results of an error
  monad.  The serial device is represented by the bytes it delivers. *)

From Stdlib Require Import ZArith String Ascii DecimalString Bool Lia List.
Import ListNotations.

Open Scope Z_scope.

(* ================================================================== *)
(** ** The Python run-time the code relies on *)

Module Py.

(** The exceptions the modelled code can raise.  [SyntaxError],
    [ValueError], [IOError] and the first [AttributeError] carry the
    message the source gives them; [IndexError] (indexing an empty
    [bytes]) and [StructError] ([struct.error]) come from the run-time. *)
Inductive exn : Type :=
| SyntaxError (msg : string)
| ValueError (msg : string)
| IOError (msg : string)
| AttributeError (msg : string)
| IndexError
| StructError.

Inductive result (A : Type) : Type :=
| Ok (a : A)
| Raise (e : exn).
Arguments Ok {A} a.
Arguments Raise {A} e.

Definition bind {A B : Type} (m : result A) (k : A -> result B) : result B :=
  match m with
  | Ok a => k a
  | Raise e => Raise e
  end.

(** [for x in l: f x], stopping at the first exception. *)
Fixpoint forM_ {A : Type} (f : A -> result unit) (l : list A) : result unit :=
  match l with
  | [] => Ok tt
  | x :: l' => bind (f x) (fun _ => forM_ f l')
  end.

(** [[f x for x in l]], evaluated left to right. *)
Fixpoint mapM {A B : Type} (f : A -> result B) (l : list A) : result (list B) :=
  match l with
  | [] => Ok []
  | x :: l' => bind (f x) (fun y => bind (mapM f l') (fun ys => Ok (y :: ys)))
  end.

Definition bytes : Type := list Z.

Definition is_byte (b : Z) : Prop := 0 <= b < 256.
Definition is_bytes (s : bytes) : Prop := Forall is_byte s.

Definition is_byteb (b : Z) : bool := (0 <=? b) && (b <? 256).

(** [len(s)] *)
Definition len (s : bytes) : Z := Z.of_nat (length s).

(** [bytes([n])]: a [ValueError] unless [n] is in [range(0, 256)]. *)
Definition bytes1 (n : Z) : result bytes :=
  if is_byteb n then Ok [n]
  else Raise (ValueError "bytes must be in range(0, 256)").

(** [s[0]] *)
Definition head (s : bytes) : result Z :=
  match s with
  | [] => Raise IndexError
  | b :: _ => Ok b
  end.

(** [s[i]] for a literal [i >= 0] *)
Definition index (s : bytes) (i : nat) : result Z :=
  match nth_error s i with
  | Some b => Ok b
  | None => Raise IndexError
  end.

(** [s[:n]] and [s[n:]] for [n >= 0]; for a negative [n] taken from the
    data, [Z.to_nat] would not be Python's meaning, and the code never
    slices with one. *)
Definition upto (n : Z) (s : bytes) : bytes := firstn (Z.to_nat n) s.
Definition from (n : Z) (s : bytes) : bytes := skipn (Z.to_nat n) s.

(** [a == b] on [bytes] *)
Fixpoint bytes_eqb (a b : bytes) : bool :=
  match a, b with
  | [], [] => true
  | x :: a', y :: b' => (x =? y) && bytes_eqb a' b'
  | _, _ => false
  end.

(** [bool(s)]: a [bytes] object or a list is true when it is not empty. *)
Definition truthy {A : Type} (s : list A) : bool :=
  match s with [] => false | _ :: _ => true end.

(** [s.startswith(p)] *)
Fixpoint startswith (p s : bytes) : bool :=
  match p, s with
  | [], _ => true
  | x :: p', y :: s' => (x =? y) && startswith p' s'
  | _ :: _, [] => false
  end.

(** [s.find(sub)]: the lowest index where [sub] occurs, as an offset added
    to [i]; [None] stands for Python's [-1]. *)
Fixpoint find_from (sub s : bytes) (i : nat) : option nat :=
  if startswith sub s then Some i
  else match s with
       | [] => None
       | _ :: s' => find_from sub s' (S i)
       end.

Definition find (sub s : bytes) : option nat := find_from sub s 0.

(** [s.split(sep)] for a separator that is not empty: cut at the first
    occurrence, go on behind it.  [fuel] bounds the number of cuts. *)
Fixpoint split_fuel (fuel : nat) (sep s : bytes) : list bytes :=
  match fuel with
  | O => [s]
  | S fuel' =>
      match find sep s with
      | None => [s]
      | Some i => firstn i s :: split_fuel fuel' sep (skipn (i + length sep) s)
      end
  end.

(** [s.split(sep)]: [ValueError] on an empty separator.  Every cut removes
    at least one byte, so [length s] cuts are enough. *)
Definition split (sep s : bytes) : result (list bytes) :=
  match sep with
  | [] => Raise (ValueError "empty separator")
  | _ :: _ => Ok (split_fuel (length s) sep s)
  end.

(** [s.find(b)] for an integer [b]: the index of the first byte equal to
    [b], or [-1]. *)
Fixpoint find_byte (b : Z) (s : bytes) : Z :=
  match s with
  | [] => -1
  | x :: s' => if x =? b then 0
               else let r := find_byte b s' in
                    if r <? 0 then -1 else r + 1
  end.

(** ['{:02X}'.format(b)] for a byte [b]: two upper-case hex digits. *)
Definition hexDigit (d : Z) : ascii :=
  match String.get (Z.to_nat d) "0123456789ABCDEF" with
  | Some c => c
  | None => "?"%char
  end.

Definition fmt02X (b : Z) : string :=
  String (hexDigit (b / 16)) (String (hexDigit (b mod 16)) EmptyString).

(** ['{}'.format(n)] for an integer [n] *)
Definition fmt_int (n : Z) : string := NilZero.string_of_int (Z.to_int n).

(** [sep.join(l)] *)
Fixpoint join (sep : string) (l : list string) : string :=
  match l with
  | [] => EmptyString
  | [x] => x
  | x :: l' => (x ++ sep ++ join sep l')%string
  end.

(** [struct.unpack('!BB', s)]: two unsigned bytes, [struct.error] unless
    [s] holds exactly two. *)
Definition unpack_BB (s : bytes) : result (Z * Z) :=
  match s with
  | [a; b] => Ok (a, b)
  | _ => Raise StructError
  end.

(** [struct.pack('!H', n)]: big-endian unsigned 16 bit, [struct.error]
    out of range. *)
Definition pack_H (n : Z) : result bytes :=
  if (0 <=? n) && (n <? 65536) then Ok [n / 256; n mod 256]
  else Raise StructError.

End Py.

Import Py.

Declare Scope py_scope.
Delimit Scope py_scope with py.
Notation "x <- m ;; k" := (bind m (fun x => k))
(at level 61, m at next level, right associativity) : py_scope.
Notation "' pat <- m ;; k" := (bind m (fun x => match x with pat => k end))
(at level 61, pat pattern, m at next level, right associativity) : py_scope.
Open Scope py_scope.

(* ================================================================== *)
(** ** purreader/message.py *)

Module Message.

(** [retCodeDescr]: the return code a payload may begin with. *)
Definition retCodeDescr_table : list (Z * string) :=
  [ (0x00, "Everything went fine.");
    (0x01, "The operation is pending, the result will be sent later on.");
    (0x50, "Operation is not supported on this reader.");
    (0x51, "Unkown error.");
    (0x52, "The operation could not be executed.");
    (0x53, "The reader could not write the value.");
    (0x54, "The function was called with the wrong parameter count.");
    (0x55, "The function was called with the wrong parameter.");
    (0xA0, "The reader could not reach the tag.");
    (0xA1, "The specified memory space is not valid.");
    (0xA2, "The specified memory space is locked.");
    (0xA3, "The tag has too less power.");
    (0xA4, "The specified password is wrong.") ]%string.

Fixpoint lookupZ {V : Type} (k : Z) (t : list (Z * V)) : option V :=
  match t with
  | [] => None
  | (k', v) :: t' => if k =? k' then Some v else lookupZ k t'
  end.

(** [retCodeDescr[code]], [None] when [code not in retCodeDescr]. *)
Definition retCodeDescr (code : Z) : option string :=
  lookupZ code retCodeDescr_table.

(** [cmdDescr]: the description of the command bytes. *)
Definition cmdDescr_table : list (bytes * string) :=
  [ ([0x01; 0x01], "Get-Serial Number");
    ([0x01; 0x02], "Get-Reader Type");
    ([0x01; 0x03], "Get-Hardware Revision");
    ([0x01; 0x04], "Get-Software Revision");
    ([0x01; 0x05], "Get-Bootloader Revision");
    ([0x01; 0x06], "Get-Current-System");
    ([0x01; 0x07], "Get-Current-State");
    ([0x01; 0x08], "Get-Status-Register");
    ([0x01; 0x10], "Get-Antenna-Count");
    ([0x02; 0x01], "Get-Attenuation");
    ([0x02; 0x02], "Get-Frequency");
    ([0x02; 0x03], "Get-Sensitivity");
    ([0x02; 0x04], "Get-LBT-Params");
    ([0x02; 0x81], "Set-Attenuation");
    ([0x02; 0x82], "Set-Frequency");
    ([0x02; 0x83], "Set-Sensitivity");
    ([0x02; 0x84], "Set-LBT-Params");
    ([0x03; 0x01], "Reboot");
    ([0x03; 0x02], "Set-Heart-Beat");
    ([0x03; 0x03], "Set-Antenna-Power");
    ([0x03; 0x20], "Restore-Factory-Settings");
    ([0x03; 0x21], "Save-Settings-Permanent");
    ([0x03; 0x30], "Set-Param");
    ([0x03; 0x31], "Get-Param");
    ([0x03; 0x32], "Set-Device-Name");
    ([0x03; 0x33], "Get-Device-Name");
    ([0x03; 0x34], "Set-Device-Location");
    ([0x03; 0x35], "Get-Device-Location");
    ([0x04; 0x01], "Set-Tag-Mode");
    ([0x04; 0x02], "Get-Current-Tag-Mode");
    ([0x04; 0x03], "Get-Tag-Function-List");
    ([0x05; 0x01], "Get-GPIO-Caps");
    ([0x05; 0x02], "Get-GPIO-Direction");
    ([0x05; 0x03], "Set-GPIO-Direction");
    ([0x05; 0x04], "Get-GPIO");
    ([0x05; 0x05], "Set-GPIO");
    ([0x05; 0x06], "Clear-GPIO");
    ([0x06; 0x01], "Set-Antenna-Sequence");
    ([0x06; 0x02], "Get-Antenna-Sequence");
    ([0x06; 0x03], "Set-Working-Antenna");
    ([0x06; 0x04], "Get-Working-Antenna");
    ([0x10; 0x01], "Activate-Notifications");
    ([0x10; 0x02], "Deactivate-Notifications");
    ([0x10; 0x03], "Get-Active-Notifications");
    ([0x50; 0x01], "Inventory-Single");
    ([0x50; 0x02], "Inventory-Cyclic");
    ([0x50; 0x03], "Read-From-Tag");
    ([0x50; 0x04], "Write-To-Tag");
    ([0x50; 0x05], "Lock-Tag");
    ([0x50; 0x06], "Kill-Tag");
    ([0x50; 0x10], "Custom-Tag-Command");
    ([0x50; 0x20], "Read-Multiple-From-Tag");
    ([0x90; 0x01], "Heart-Beat-Interrupt");
    ([0x90; 0x02], "Inventory-Cyclic-Interrupt");
    ([0x90; 0x03], "State-Changed-Interrupt");
    ([0x90; 0x04], "Status-Reg-Changed-Interrupt");
    ([0x90; 0x05], "Boot-Up-Finished");
    ([0x90; 0x06], "Notification-Interrupt");
    ([0x90; 0x08], "Operation-Result-Interrupt");
    ([0x90; 0x09], "GPIO-Values-Changed-Interrupt") ]%string.

Fixpoint lookupB {V : Type} (k : bytes) (t : list (bytes * V)) : option V :=
  match t with
  | [] => None
  | (k', v) :: t' => if bytes_eqb k k' then Some v else lookupB k t'
  end.

Definition cmdDescr (cmd : bytes) : option string := lookupB cmd cmdDescr_table.

(** The markers of a frame. *)
Definition RFE : bytes := [0x52; 0x46; 0x45].
Definition RFE01 : bytes := [0x52; 0x46; 0x45; 0x01].

(** [PURPacket.calcChecksum]: the first byte, then every further byte
    XOR-ed onto it. *)
Definition calcChecksum (msgBytes : bytes) : result Z :=
  checksum <- head msgBytes ;;
  Ok (fold_left Z.lxor (skipn 1 msgBytes) checksum).

(** [PURPacket.createMsg] *)
Definition createMsg (cmdBytes pldBytes : bytes) : result bytes :=
  let msgBytes := RFE in
  let msgBytes := msgBytes ++ [0x01] in
  let msgBytes := msgBytes ++ cmdBytes in
  let msgBytes := msgBytes ++ [0x02] in
  lenByte <- bytes1 (len pldBytes) ;;
  let msgBytes := msgBytes ++ lenByte in
  let msgBytes :=
    if truthy pldBytes then (msgBytes ++ [0x03]) ++ pldBytes else msgBytes in
  let msgBytes := msgBytes ++ [0x04] in
  checksum <- calcChecksum msgBytes ;;
  checksumBytes <- bytes1 checksum ;;
  Ok (msgBytes ++ checksumBytes).

(** [PURPacket.parseMsg] *)
Definition parseMsg (msgBytes : bytes) : result (bytes * bytes) :=
  if len msgBytes <? 8 then Raise (SyntaxError "Message too short") else
  checksum <- calcChecksum msgBytes ;;
  if negb (checksum =? 0) then Raise (ValueError "Wrong checksum") else
  if negb (bytes_eqb (upto 4 msgBytes) RFE01)
  then Raise (SyntaxError "Wrong message start") else
  let msgBytes := from 4 msgBytes in
  let cmdBytes := upto 2 msgBytes in
  let msgBytes := from 2 msgBytes in
  marker <- head msgBytes ;;
  if negb (marker =? 0x02)
  then Raise (SyntaxError "Wrong payload length start") else
  let msgBytes := from 1 msgBytes in
  payloadLen <- head msgBytes ;;
  let msgBytes := from 1 msgBytes in
  if payloadLen >? 0 then
    marker <- head msgBytes ;;
    if negb (marker =? 0x03)
    then Raise (SyntaxError "Wrong payload start") else
    let msgBytes := from 1 msgBytes in
    let pldBytes := upto payloadLen msgBytes in
    Ok (cmdBytes, pldBytes)
  else
    Ok (cmdBytes, []).

(** An object of class [PURPacket]. *)
Record PURPacket : Type := mkPURPacket {
  cmdBytes : bytes;
  pldBytes : bytes;
  msgBytes : bytes
}.

(** [PURPacket.__init__]: from command and payload when there are command
    bytes, else from the message bytes. *)
Definition PURPacket_init (cmd pld msg : bytes) : result PURPacket :=
  if truthy cmd then
    m <- createMsg cmd pld ;;
    Ok (mkPURPacket cmd pld m)
  else if truthy msg then
    '(c, p) <- parseMsg msg ;;
    Ok (mkPURPacket c p msg)
  else
    Raise (AttributeError
             "Either command bytes or message bytes must be passed").

(** [PURPacket._prettyBytes] *)
Definition prettyBytes (byteArr : bytes) : string :=
  join " " (map fmt02X byteArr).

Definition dquote : string := String (ascii_of_nat 34) EmptyString.

(** [PURPacket.__str__] *)
Definition str (p : PURPacket) : string :=
  (if truthy (cmdBytes p) then
     "command: " ++ prettyBytes (cmdBytes p)
     ++ (match cmdDescr (cmdBytes p) with
         | Some d => " (" ++ dquote ++ d ++ dquote ++ ")"
         | None => EmptyString
         end)
     ++ (if truthy (pldBytes p)
         then ", payload: " ++ prettyBytes (pldBytes p) else EmptyString)
   else
     "message: " ++ prettyBytes (msgBytes p))%string.

End Message.

Import Message.

(* ================================================================== *)
(** ** purreader/reader.py *)

Module Reader.

(** What [send] returns: the packet itself when there is exactly one, the
    list of packets otherwise. *)
Inductive response : Type :=
| One (p : PURPacket)
| Many (ps : list PURPacket).

(** [PURReader.checkResp] *)
Definition checkResp (respPkg : PURPacket) : result unit :=
  if truthy (pldBytes respPkg) then
    code <- head (pldBytes respPkg) ;;
    if negb (code =? 0) then
      match retCodeDescr code with
      | Some descr =>
          Raise (IOError ("Problem with packet " ++ str respPkg
                          ++ ": " ++ descr)%string)
      | None => Ok tt
      end
    else Ok tt
  else Ok tt.

(** The comprehension of [send]: the packets related to the command of
    [pkg] in the received bytes [respBytes]. *)
Definition respPkgs_of (pkg : PURPacket) (respBytes : bytes)
  : result (list PURPacket) :=
  let start := upto 6 (msgBytes pkg) in
  parts <- split start respBytes ;;
  mapM (fun part => PURPacket_init [] [] (start ++ part)) (skipn 1 parts).

(** [PURReader.send].  [respBytes] is what the two reads of the device
    deliver after [pkg.msgBytes] was written; the debug log has no effect on
    the result. *)
Definition send (pkg : PURPacket) (respBytes : bytes) (check : bool)
  : result response :=
  respPkgs <- respPkgs_of pkg respBytes ;;
  _ <- (if check then forM_ checkResp respPkgs else Ok tt) ;;
  if Nat.eqb (length respPkgs) 1 then
    match respPkgs with
    | p :: _ => Ok (One p)
    | [] => Raise IndexError
    end
  else Ok (Many respPkgs).

(** [s[a:b]] for [0 <= a] and [0 <= b] *)
Definition slice (a b : Z) (s : bytes) : bytes := upto (b - a) (from a s).

(** The part of [getParam] behind [send]. *)
Definition getParam_resp (resp : response) : result bytes :=
  match resp with
  | One p =>
      size <- index (pldBytes p) 1 ;;
      Ok (slice 2 (2 + size) (pldBytes p))
  | Many _ =>
      Raise (AttributeError "'list' object has no attribute 'pldBytes'")
  end.

(** [PURReader.getParam] *)
Definition getParam (addr : Z) (respBytes : bytes) : result bytes :=
  payload <- pack_H addr ;;
  pkg <- PURPacket_init [0x03; 0x31] payload [] ;;
  resp <- send pkg respBytes true ;;
  getParam_resp resp.

(** The dictionary [{tagID: {'rssiI': rssiI, 'rssiQ': rssiQ}}] of one tag. *)
Record rssi : Type := mkRssi { rssiI : Z; rssiQ : Z }.
Definition tagData : Type := (string * rssi)%type.

(** One pass through the body of the inner loop of [parseTagreports]: the
    tag parsed from the front of [tagsBytes], and the bytes left. *)
Definition parseTag (tagsBytes : bytes) : result (tagData * bytes) :=
  let iStart := find_byte 0x01 tagsBytes in
  let tagsBytes := from (iStart + 1) tagsBytes in
  idLen <- head tagsBytes ;;
  let tagsBytes := from 1 tagsBytes in
  let tagID := join EmptyString (map fmt02X (upto idLen tagsBytes)) in
  let tagsBytes := from idLen tagsBytes in
  marker <- head tagsBytes ;;
  if negb (marker =? 0x02) then Raise (SyntaxError "Wrong RSSI start") else
  let tagsBytes := from 1 tagsBytes in
  '(q, i) <- unpack_BB (upto 2 tagsBytes) ;;
  let tagsBytes := from 2 tagsBytes in
  Ok ((tagID, mkRssi i q), tagsBytes).

(** [for _ in range(pkgIdCount)]: the list [tags] grows by one tag a pass. *)
Fixpoint parseTags (count : nat) (tags : list tagData) (tagsBytes : bytes)
  : result (list tagData) :=
  match count with
  | O => Ok tags
  | S count' =>
      '(tag, rest) <- parseTag tagsBytes ;;
      parseTags count' (tags ++ [tag]) rest
  end.

(** The variables of [parseTagreports] that live across the packets. *)
Record tagState : Type := mkTagState {
  tags : list tagData;
  collectedIds : Z;
  idCount : Z
}.

(** [for pkg in recPkgs] *)
Fixpoint parsePkgs (recPkgs : list PURPacket) (st : tagState)
  : result tagState :=
  match recPkgs with
  | [] => Ok st
  | pkg :: recPkgs' =>
      '(idCount', pkgIdCount) <- unpack_BB (slice 1 3 (pldBytes pkg)) ;;
      let collectedIds' := collectedIds st + pkgIdCount in
      let tagsBytes := from 3 (pldBytes pkg) in
      tags' <- parseTags (Z.to_nat pkgIdCount) (tags st) tagsBytes ;;
      parsePkgs recPkgs' (mkTagState tags' collectedIds' idCount')
  end.

Definition incomplete_msg (collected expected : Z) : string :=
  ("Only packets for " ++ fmt_int collected ++ " out of "
   ++ fmt_int expected ++ " tags where received")%string.

(** [PURReader.parseTagreports] *)
Definition parseTagreports (recPkgs : response) : result (list tagData) :=
  let recPkgs := match recPkgs with One p => [p] | Many ps => ps end in
  st <- parsePkgs recPkgs (mkTagState [] 0 0) ;;
  if negb (collectedIds st =? idCount st)
  then Raise (IOError (incomplete_msg (collectedIds st) (idCount st)))
  else Ok (tags st).

End Reader.

Import Reader.

(* ================================================================== *)
(** ** The layouts the properties speak about *)

(** The frame of the wire format up to the checksum section: start marker,
    command section, length section and, for a payload that is not empty,
    the payload section. *)
Definition frame_body (cmd pld : bytes) : bytes :=
  RFE ++ [0x01] ++ cmd ++ [0x02; len pld]
  ++ (match pld with [] => [] | _ :: _ => 0x03 :: pld end).

(** XOR of all the bytes of a sequence. *)
Definition xor_all (s : bytes) : Z := fold_right Z.lxor 0 s.

(** One tag structure of an inventory payload: bytes before the tag-id
    marker, the marker 0x01, the id length, the id, the RSSI marker 0x02,
    RSSI-Q and RSSI-I. *)
Record tagStruct : Type := mkTagStruct {
  ts_skip : bytes;
  ts_id : bytes;
  ts_rssiQ : Z;
  ts_rssiI : Z
}.

Definition tagStruct_bytes (t : tagStruct) : bytes :=
  ts_skip t ++ [0x01; len (ts_id t)] ++ ts_id t
  ++ [0x02; ts_rssiQ t; ts_rssiI t].

Definition tagStruct_entry (t : tagStruct) : tagData :=
  (join EmptyString (map fmt02X (ts_id t)), mkRssi (ts_rssiI t) (ts_rssiQ t)).

(** An inventory message: return code, total tag count, the tag structures
    of this packet (their number is the packet tag count) and the bytes
    behind them. *)
Record invMsg : Type := mkInvMsg {
  im_code : Z;
  im_total : Z;
  im_structs : list tagStruct;
  im_rest : bytes
}.

Definition invMsg_payload (m : invMsg) : bytes :=
  [im_code m; im_total m; Z.of_nat (length (im_structs m))]
  ++ concat (map tagStruct_bytes (im_structs m)) ++ im_rest m.

(** The tag structures are well formed when no byte before a tag-id marker
    is itself the marker value. *)
Definition invMsg_wf (m : invMsg) : Prop :=
  Forall (fun t => ~ In 0x01 (ts_skip t)) (im_structs m).

Definition sum_counts (ms : list invMsg) : Z :=
  fold_right (fun m acc => Z.of_nat (length (im_structs m)) + acc) 0 ms.

Definition first_total (ms : list invMsg) : Z :=
  match ms with [] => 0 | m :: _ => im_total m end.

Definition last_total (ms : list invMsg) : Z :=
  im_total (last ms (mkInvMsg 0 0 [] [])).

(** [sep] occurs in [s] at offset [i]. *)
Definition occurs_at (sep s : bytes) (i : nat) : Prop :=
  firstn (length sep) (skipn i s) = sep.

(** The offsets at which the frames [sep ++ r] for [r] in [rs] begin in
    their concatenation, when the first begins at [o]. *)
Fixpoint offsets (sep : bytes) (o : nat) (rs : list bytes) : list nat :=
  match rs with
  | [] => []
  | r :: rs' => o :: offsets sep (o + length sep + length r) rs'
  end.

(** The return codes of the catalog that are not 0. *)
Definition error_code (c : Z) : Prop :=
  c = 0x01 \/ 0x50 <= c <= 0x55 \/ 0xA0 <= c <= 0xA4.

(** The message of the [IOError] that [checkResp] raises for [pkt]. *)
Definition problem_msg (pkt : PURPacket) (descr : string) : string :=
  ("Problem with packet " ++ str pkt ++ ": " ++ descr)%string.

(** [p] is the packet made from the message bytes [frame]. *)
Definition decodes_to (frame : bytes) (p : PURPacket) : Prop :=
  parseMsg frame = Ok (cmdBytes p, pldBytes p) /\ msgBytes p = frame.

(** The packets of a response of [send]. *)
Definition packets_of (r : response) : list PURPacket :=
  match r with One p => [p] | Many ps => ps end.

(** What [send] returns for the packets [ps]. *)
Definition response_of (ps : list PURPacket) : response :=
  match ps with [p] => One p | _ => Many ps end.

(** The tag entries of an inventory message, in the order of its
    structures. *)
Definition invMsg_entries (m : invMsg) : list tagData :=
  map tagStruct_entry (im_structs m).

(** All the offsets at which [sep] occurs in [s], counted from [i]. *)
Fixpoint occurrences_from (sep s : bytes) (i : nat) : list nat :=
  (if startswith sep s then [i] else [])
  ++ match s with
     | [] => []
     | _ :: s' => occurrences_from sep s' (S i)
     end.

Definition occurrences (sep s : bytes) : list nat := occurrences_from sep s 0.

(* ================================================================== *)
(** ** Sample packets *)

(** [PURPacket(b'\x50\x01')], the command Inventory-Single. *)
Definition inventory_pkg : PURPacket :=
  mkPURPacket [0x50; 0x01] []
    [0x52; 0x46; 0x45; 0x01; 0x50; 0x01; 0x02; 0x00; 0x04; 0x07].

(** Two response frames of that command, without their first six bytes. *)
Definition inventory_rest1 : bytes :=
  [0x02; 0x0A; 0x03; 0x00; 0x02; 0x01; 0x01; 0x02; 0xAB; 0xCD; 0x02; 0x05;
   0x06; 0x04; 0x69].
Definition inventory_rest2 : bytes :=
  [0x02; 0x09; 0x03; 0x00; 0x02; 0x01; 0x01; 0x01; 0xEF; 0x02; 0x07; 0x08;
   0x04; 0xEC].

Definition inventory_pkt1 : PURPacket :=
  mkPURPacket [0x50; 0x01]
    [0x00; 0x02; 0x01; 0x01; 0x02; 0xAB; 0xCD; 0x02; 0x05; 0x06]
    ([0x52; 0x46; 0x45; 0x01; 0x50; 0x01] ++ inventory_rest1).
Definition inventory_pkt2 : PURPacket :=
  mkPURPacket [0x50; 0x01]
    [0x00; 0x02; 0x01; 0x01; 0x01; 0xEF; 0x02; 0x07; 0x08]
    ([0x52; 0x46; 0x45; 0x01; 0x50; 0x01] ++ inventory_rest2).

(** [PURPacket(b'\x03\x31', struct.pack('!H', 0x0028))], the command
    Get-Param for the inventory session. *)
Definition getparam_pkg : PURPacket :=
  mkPURPacket [0x03; 0x31] [0x00; 0x28]
    [0x52; 0x46; 0x45; 0x01; 0x03; 0x31; 0x02; 0x02; 0x03; 0x00; 0x28; 0x04;
     0x4D].

(** The response frame of Get-Param with the one payload byte [code]. *)
Definition getparam_frame (code : Z) : bytes :=
  [0x52; 0x46; 0x45; 0x01; 0x03; 0x31; 0x02; 0x01; 0x03; code; 0x04;
   Z.lxor 0x66 code].

Definition getparam_pkt (code : Z) : PURPacket :=
  mkPURPacket [0x03; 0x31] [code] (getparam_frame code).

(** Inventory messages: one tag structure each, the first announcing two
    tags in total and the second three; and one with two tag structures. *)
Definition inventory_msg1 : invMsg :=
  mkInvMsg 0x00 0x02 [mkTagStruct [] [0xAB; 0xCD] 0x05 0x06] [].
Definition inventory_msg2 : invMsg :=
  mkInvMsg 0x00 0x03 [mkTagStruct [] [0xEF] 0x07 0x08] [].
Definition inventory_msg_two (total : Z) : invMsg :=
  mkInvMsg 0x00 total
    [mkTagStruct [] [0xAB; 0xCD] 0x05 0x06; mkTagStruct [] [0xEF] 0x07 0x08]
    [].

(** A packet of the command Inventory-Single with the payload of [m]; the
    decoder of the tag reports reads the payload only. *)
Definition inventory_pkt_of (m : invMsg) : PURPacket :=
  mkPURPacket [0x50; 0x01] (invMsg_payload m) [].

(* ================================================================== *)
(** ** The [struct] formats of purreader/reader.py *)

Module Struct.

(** The formats are big-endian ('!'): 'B' an unsigned byte, 'H' an unsigned
    and 'h' a signed 16-bit integer, 'I' an unsigned 32-bit integer.
    [struct.pack] raises [struct.error] for an integer out of the range of
    its format, [struct.unpack] for a buffer of another size than the format
    asks for. *)

Definition in_range (lo n hi : Z) : bool := (lo <=? n) && (n <? hi).

(** [struct.pack('!B', n)] *)
Definition pack_B (n : Z) : result bytes :=
  if in_range 0 n 256 then Ok [n] else Raise StructError.

(** [struct.pack('!BB', a, b)] *)
Definition pack_BB (a b : Z) : result bytes :=
  if in_range 0 a 256 && in_range 0 b 256 then Ok [a; b]
  else Raise StructError.

(** [struct.pack('!HB', a, b)] *)
Definition pack_HB (a b : Z) : result bytes :=
  if in_range 0 a 65536 && in_range 0 b 256
  then Ok [a / 256; a mod 256; b]
  else Raise StructError.

(** [struct.pack('!h', n)]: two's complement. *)
Definition pack_h (n : Z) : result bytes :=
  if in_range (-32768) n 32768
  then Ok [(n mod 65536) / 256; (n mod 65536) mod 256]
  else Raise StructError.

(** [struct.pack('!I', n)] *)
Definition pack_I (n : Z) : result bytes :=
  if in_range 0 n 4294967296
  then Ok [n / 16777216; (n / 65536) mod 256; (n / 256) mod 256; n mod 256]
  else Raise StructError.

(** [struct.unpack('!HH', s)] *)
Definition unpack_HH (s : bytes) : result (Z * Z) :=
  match s with
  | [a1; a0; b1; b0] => Ok (a1 * 256 + a0, b1 * 256 + b0)
  | _ => Raise StructError
  end.

(** [struct.unpack('!BBB', s)] *)
Definition unpack_BBB (s : bytes) : result (Z * Z * Z) :=
  match s with
  | [a; b; c] => Ok (a, b, c)
  | _ => Raise StructError
  end.

(** [struct.unpack('!I', s)[0]] *)
Definition unpack_I (s : bytes) : result Z :=
  match s with
  | [b3; b2; b1; b0] => Ok (b3 * 16777216 + b2 * 65536 + b1 * 256 + b0)
  | _ => Raise StructError
  end.

(** The value of two bytes read as a signed 16-bit integer. *)
Definition signed16 (hi lo : Z) : Z :=
  let u := hi * 256 + lo in
  if u <? 32768 then u else u - 65536.

(** [struct.unpack('!hhh', s)] *)
Definition unpack_hhh (s : bytes) : result (Z * Z * Z) :=
  match s with
  | [a1; a0; b1; b0; c1; c0] =>
      Ok (signed16 a1 a0, signed16 b1 b0, signed16 c1 c0)
  | _ => Raise StructError
  end.

End Struct.

Import Struct.

(* ================================================================== *)
(** ** The tag tables of purreader/message.py *)

Module Tables.

(** [tagFreqsKHz]: tag backscatter link frequencies, in the order of the
    dictionary. *)
Definition tagFreqsKHz : list (Z * Z) :=
  [ (0x00, 40); (0x01, 80); (0x02, 160); (0x03, 213); (0x04, 256);
    (0x05, 320) ].

(** [tagEncodings]: tag encoding. *)
Definition tagEncodings : list (Z * string) :=
  [ (0x00, "FM0"); (0x01, "M2"); (0x02, "M4"); (0x03, "M8") ]%string.

End Tables.

Import Tables.

(* ================================================================== *)
(** ** purreader/reader.py on a device *)

Module Dev.

(** The serial device as the reader uses it: [rx] holds, for every exchange
    still to come, the bytes its two reads deliver (nothing when the device
    stays silent until the timeout), [tx] the messages written so far. *)
Record device : Type := mkDevice {
  rx : list bytes;
  tx : list bytes
}.

(** What a method of [PURReader] can raise: the exceptions of the codec,
    the [KeyError] of a dictionary lookup and the [OverflowError] of [int]
    on an infinite float. *)
Inductive raised : Type :=
| Exn (e : exn)
| KeyError (key : Z)
| OverflowError (msg : string).

(** A method of [PURReader]: it returns or raises, and leaves the device in
    a new state either way. *)
Definition io (A : Type) : Type := device -> (A + raised) * device.

Definition ret {A : Type} (a : A) : io A := fun dev => (inl a, dev).

Definition throw {A : Type} (e : raised) : io A := fun dev => (inr e, dev).

Definition bind {A B : Type} (m : io A) (k : A -> io B) : io B :=
  fun dev =>
    match m dev with
    | (inl a, dev') => k a dev'
    | (inr e, dev') => (inr e, dev')
    end.

(** A computation that does not touch the device. *)
Definition lift {A : Type} (r : result A) : io A :=
  match r with
  | Ok a => ret a
  | Raise e => throw (Exn e)
  end.

Declare Scope io_scope.
Delimit Scope io_scope with io.
Notation "x <- m ;; k" := (bind m (fun x => k))
  (at level 61, m at next level, right associativity) : io_scope.

(** A Python [float]: a finite float is the rational [num / den] it
    stands for, the others are the infinities and NaN. *)
Inductive pyfloat : Type :=
| Finite (num : Z) (den : positive)
| Infinity (negative : bool)
| NaN.

(** A number as the setters take it: an [int] or a [float]. *)
Inductive number : Type :=
| PyInt (z : Z)
| PyFloat (x : pyfloat).

(** [int(x)] for a float: the fraction is cut off toward zero; an infinity
    raises [OverflowError] and NaN [ValueError]. *)
Definition int_of_float (x : pyfloat) : io Z :=
  match x with
  | Finite num den => ret (Z.quot num (Z.pos den))
  | Infinity _ => throw (OverflowError "cannot convert float infinity to integer")
  | NaN => throw (Exn (ValueError "cannot convert float NaN to integer"))
  end.

(** [int(n)] *)
Definition int (n : number) : io Z :=
  match n with
  | PyInt z => ret z
  | PyFloat x => int_of_float x
  end.

(** [[int(f) for f in val]] *)
Fixpoint ints (val : list number) : io (list Z) :=
  match val with
  | [] => ret []
  | f :: val' => bind (int f) (fun z => bind (ints val') (fun zs => ret (z :: zs)))
  end.

(** [PURReader.send] with its device: the message is written, the response
    is read, then the bytes are split, decoded and checked. *)
Definition send (pkg : PURPacket) (check : bool) : io response :=
  fun dev =>
    let dev := mkDevice (rx dev) (tx dev ++ [msgBytes pkg]) in
    let respBytes := hd [] (rx dev) in
    let dev := mkDevice (tl (rx dev)) (tx dev) in
    lift (Reader.send pkg respBytes check) dev.

(** [PURPacket(cmdBytes, pldBytes)] *)
Definition packet (cmd pld : bytes) : io PURPacket :=
  lift (PURPacket_init cmd pld []).

(** [resp.pldBytes] for what [send] returned: a list has no such
    attribute. *)
Definition pldBytes_of (resp : response) : result bytes :=
  match resp with
  | One p => Ok (pldBytes p)
  | Many _ => Raise (AttributeError "'list' object has no attribute 'pldBytes'")
  end.

(** [PURReader.antCount] *)
Definition antCount : io Z :=
  (pkg <- packet [0x01; 0x10] [] ;;
   resp <- send pkg false ;;
   pld <- lift (pldBytes_of resp) ;;
   lift (index pld 1))%io.

(** [PURReader.attnDB], the getter *)
Definition attnDB : io Z :=
  (pkg <- packet [0x02; 0x01] [] ;;
   resp <- send pkg true ;;
   pld <- lift (pldBytes_of resp) ;;
   r <- lift (unpack_HH (from 1 pld)) ;;
   ret (snd r))%io.

(** [PURReader.attnDB], the setter *)
Definition attnDB_set (val : Z) : io unit :=
  (payload <- lift (pack_H val) ;;
   pkg <- packet [0x02; 0x81] payload ;;
   _ <- send pkg true ;;
   ret tt)%io.

(** What the getter of [freqKHz] returns: the list of the frequencies when
    there are several, the frequency itself otherwise. *)
Inductive freqs : Type :=
| OneFreq (f : Z)
| ManyFreqs (fs : list Z).

(** [range(n)] *)
Definition range (n : Z) : list Z := map Z.of_nat (seq 0 (Z.to_nat n)).

(** [PURReader.freqKHz], the getter *)
Definition freqKHz : io freqs :=
  (pkg <- packet [0x02; 0x02] [] ;;
   resp <- send pkg true ;;
   pld <- lift (pldBytes_of resp) ;;
   r <- lift (unpack_BBB (slice 1 4 pld)) ;;
   let numFreqs := snd r in
   fs <- lift (mapM (fun iF =>
                       unpack_I (0x00 :: slice (4 + iF * 3) (4 + iF * 3 + 3) pld))
                    (range numFreqs)) ;;
   if len fs >? 1 then ret (ManyFreqs fs)
   else f <- lift (head fs) ;; ret (OneFreq f))%io.

(** The argument of the setter of [freqKHz]: a list (or tuple) of
    frequencies, one frequency, or a value of another type.  [FreqList] and
    [FreqOne] are the arguments made of integers, on which [int] changes
    nothing; [FreqNums] is a list with floats among its elements and
    [FreqOneFloat] a single float. *)
Inductive freqArg : Type :=
| FreqList (fs : list Z)
| FreqOne (f : Z)
| FreqOther
| FreqNums (fs : list number)
| FreqOneFloat (x : pyfloat).

(** [payload += struct.pack('!I', freq)[1:]] for every frequency *)
Fixpoint add_freqs (payload : bytes) (fs : list Z) : result bytes :=
  match fs with
  | [] => Ok payload
  | f :: fs' =>
      (b <- pack_I f ;;
       add_freqs (payload ++ from 1 b) fs')%py
  end.

(** The payload for a list of frequencies and for one frequency, once
    they are integers. *)
Definition freqs_payload (freqs : list Z) : result bytes :=
  (payload <- pack_BB 1 (len freqs) ;;
   add_freqs payload freqs)%py.

Definition freq_payload (freq : Z) : result bytes :=
  (payload <- pack_BB 0 1 ;;
   b <- pack_I freq ;;
   Ok (payload ++ from 1 b))%py.

(** [PURReader.freqKHz], the setter *)
Definition freqKHz_set (val : freqArg) : io unit :=
  (payload <- match val with
              | FreqList fs => lift (freqs_payload fs)
              | FreqNums ns => (freqs <- ints ns ;; lift (freqs_payload freqs))
              | FreqOne f => lift (freq_payload f)
              | FreqOneFloat x => (freq <- int_of_float x ;; lift (freq_payload freq))
              | FreqOther =>
                  lift (Raise (SyntaxError
                    "freqKHz must be either a single frequency or a list of frequencies"))
              end ;;
   pkg <- packet [0x02; 0x82] payload ;;
   _ <- send pkg true ;;
   ret tt)%io.

(** [PURReader.sensDBm], the getter *)
Definition sensDBm : io Z :=
  (pkg <- packet [0x02; 0x03] [] ;;
   resp <- send pkg true ;;
   pld <- lift (pldBytes_of resp) ;;
   r <- lift (unpack_hhh (from 1 pld)) ;;
   ret (snd r))%io.

(** [PURReader.sensDBm], the setter *)
Definition sensDBm_set (val : Z) : io unit :=
  (payload <- lift (pack_h val) ;;
   pkg <- packet [0x02; 0x83] payload ;;
   _ <- send pkg true ;;
   ret tt)%io.

(** [PURReader.setParam] *)
Definition setParam (addr : Z) (valBytes : bytes) : io unit :=
  (payload <- lift (pack_HB addr (len valBytes)) ;;
   let payload := payload ++ valBytes in
   pkg <- packet [0x03; 0x30] payload ;;
   _ <- send pkg true ;;
   ret tt)%io.

(** [PURReader.getParam] *)
Definition getParam (addr : Z) : io bytes :=
  (payload <- lift (pack_H addr) ;;
   pkg <- packet [0x03; 0x31] payload ;;
   resp <- send pkg true ;;
   lift (getParam_resp resp))%io.

(** [PURReader.session], getter and setter *)
Definition session : io Z :=
  (v <- getParam 0x0028 ;; lift (head v))%io.

Definition session_set (val : Z) : io unit :=
  (b <- lift (pack_B val) ;; setParam 0x0028 b)%io.

(** [PURReader.modDepth], getter and setter *)
Definition modDepth : io Z :=
  (v <- getParam 0x0022 ;; lift (head v))%io.

Definition modDepth_set (val : Z) : io unit :=
  (b <- lift (pack_B val) ;; setParam 0x0022 b)%io.

(** [d[key]] for a dictionary with integer keys *)
Definition getitem {V : Type} (d : list (Z * V)) (key : Z) : io V :=
  match lookupZ key d with
  | Some v => ret v
  | None => throw (KeyError key)
  end.

(** [PURReader.blfKHz], the getter *)
Definition blfKHz : io Z :=
  (blfKey <- getParam 0x0020 ;;
   k <- lift (head blfKey) ;;
   getitem tagFreqsKHz k)%io.

(** [for blfKey, blfVal in items: if val == blfVal: setParam(...); return],
    and what is raised behind the loop. *)
Fixpoint blfKHz_loop (val : Z) (items : list (Z * Z)) (otherwise : io unit)
  : io unit :=
  match items with
  | [] => otherwise
  | (blfKey, blfVal) :: items' =>
      if val =? blfVal
      then (b <- lift (pack_B blfKey) ;; setParam 0x0020 b)%io
      else blfKHz_loop val items' otherwise
  end.

(** [PURReader.blfKHz], the setter *)
Definition blfKHz_set (val : number) : io unit :=
  (val <- int val ;;
   blfKHz_loop val tagFreqsKHz
     (throw (Exn (ValueError
        ("Invalid backscatter frequency. Can be: "
         ++ join ", " (map (fun kv => fmt_int (snd kv) ++ " kHz") tagFreqsKHz))%string))))%io.

(** [PURReader.encoding], the getter *)
Definition encoding : io string :=
  (encKey <- getParam 0x0021 ;;
   k <- lift (head encKey) ;;
   getitem tagEncodings k)%io.

Fixpoint encoding_loop (val : string) (items : list (Z * string))
         (otherwise : io unit) : io unit :=
  match items with
  | [] => otherwise
  | (encKey, encVal) :: items' =>
      if String.eqb val encVal
      then (b <- lift (pack_B encKey) ;; setParam 0x0021 b)%io
      else encoding_loop val items' otherwise
  end.

(** [PURReader.encoding], the setter (for a string [val]) *)
Definition encoding_set (val : string) : io unit :=
  encoding_loop val tagEncodings
    (throw (Exn (ValueError
       ("Invalid backscatter encoding. Can be: "
        ++ join ", " (map snd tagEncodings))%string))).

(** [PURReader.enableOutput] *)
Definition enableOutput (enable : bool) : io unit :=
  (let state := if enable then 1 else 0 in
   payload <- lift (pack_B state) ;;
   pkg <- packet [0x03; 0x03] payload ;;
   _ <- send pkg true ;;
   ret tt)%io.

(** [PURReader.reportRSSI] *)
Definition reportRSSI (enable : bool) : io unit :=
  (let state := if enable then 1 else 0 in
   b <- lift (pack_B state) ;;
   setParam 0x0002 b)%io.

(** [PURReader.singleInventory] *)
Definition singleInventory : io (list tagData) :=
  (_ <- reportRSSI true ;;
   pkg <- packet [0x50; 0x01] [] ;;
   resp <- send pkg true ;;
   lift (parseTagreports resp))%io.

(** A device that never answers. *)
Definition silent : device := mkDevice [] [].

End Dev.

(* ================================================================== *)
(** ** Requests and outcomes *)

(** The frame of a command and a payload: the frame body, the checksum
    marker and the XOR of both. *)
Definition frame_of (cmd pld : bytes) : bytes :=
  frame_body cmd pld ++ [0x04; xor_all (frame_body cmd pld ++ [0x04])].

(** The packet of a command and a payload, with its frame. *)
Definition request (cmd pld : bytes) : PURPacket :=
  mkPURPacket cmd pld (frame_of cmd pld).

(** A result as a method leaves it. *)
Definition outcome {A : Type} (r : result A) : A + Dev.raised :=
  match r with
  | Ok a => inl a
  | Raise e => inr (Dev.Exn e)
  end.

(** The device after one exchange in which [frame] was written. *)
Definition exchanged (dev : Dev.device) (frame : bytes) : Dev.device :=
  Dev.mkDevice (tl (Dev.rx dev)) (Dev.tx dev ++ [frame]).

(** The bytes the next exchange of the device delivers. *)
Definition next_rx (dev : Dev.device) : bytes := hd [] (Dev.rx dev).

(** The integer that [int] makes of a number, when it makes one. *)
Definition int_value (n : Dev.number) : option Z :=
  match n with
  | Dev.PyInt z => Some z
  | Dev.PyFloat (Dev.Finite num den) => Some (Z.quot num (Z.pos den))
  | Dev.PyFloat (Dev.Infinity _) => None
  | Dev.PyFloat Dev.NaN => None
  end.

(** The three bytes the frequency setter writes for [f] and the value the
    frequency getter reads from three bytes. *)
Definition freq_bytes (f : Z) : bytes :=
  [(f / 65536) mod 256; (f / 256) mod 256; f mod 256].

Definition freq_value (b2 b1 b0 : Z) : Z := b2 * 65536 + b1 * 256 + b0.

(* ================================================================== *)
(** ** Bytes and the checksum *)

Lemma is_byteb_true (b : Z) : is_byte b -> is_byteb b = true.
Proof.
  unfold is_byte, is_byteb. intros [H0 H1].
  apply andb_true_intro. split; [apply Z.leb_le | apply Z.ltb_lt]; assumption.
Qed.

Lemma bytes1_byte (b : Z) : is_byte b -> bytes1 b = Ok [b].
Proof. intros H. unfold bytes1. rewrite (is_byteb_true b H). reflexivity. Qed.

Lemma lxor_byte (a b : Z) : is_byte a -> is_byte b -> is_byte (Z.lxor a b).
Proof.
  unfold is_byte. intros [Ha0 Ha1] [Hb0 Hb1].
  assert (Hnn : 0 <= Z.lxor a b) by (apply Z.lxor_nonneg; tauto).
  split; [exact Hnn|].
  destruct (Z.eq_dec (Z.lxor a b) 0) as [E|E]; [rewrite E; lia|].
  apply (Z.log2_lt_pow2 _ 8); [lia|].
  pose proof (Z.log2_lxor a b Ha0 Hb0) as Hmax.
  assert (La : Z.log2 a < 8).
  { destruct (Z.eq_dec a 0) as [->|Na]; [reflexivity|].
    apply Z.log2_lt_pow2; lia. }
  assert (Lb : Z.log2 b < 8).
  { destruct (Z.eq_dec b 0) as [->|Nb]; [reflexivity|].
    apply Z.log2_lt_pow2; lia. }
  lia.
Qed.

Lemma xor_all_app (a b : bytes) :
  xor_all (a ++ b) = Z.lxor (xor_all a) (xor_all b).
Proof.
  unfold xor_all. induction a as [|x a IH]; simpl.
  - reflexivity.
  - rewrite IH. symmetry. apply Z.lxor_assoc.
Qed.

Lemma xor_all_byte (s : bytes) : is_bytes s -> is_byte (xor_all s).
Proof.
  induction 1 as [|x s Hx _ IH]; simpl.
  - unfold is_byte. lia.
  - apply lxor_byte; assumption.
Qed.

Lemma fold_left_lxor (s : bytes) (acc : Z) :
  fold_left Z.lxor s acc = Z.lxor acc (xor_all s).
Proof.
  revert acc. induction s as [|x s IH]; intros acc; simpl.
  - symmetry. apply Z.lxor_0_r.
  - rewrite IH. apply Z.lxor_assoc.
Qed.

(** On a sequence that is not empty [calcChecksum] is the XOR of all its
    bytes. *)
Lemma calcChecksum_cons (b : Z) (s : bytes) :
  calcChecksum (b :: s) = Ok (xor_all (b :: s)).
Proof.
  unfold calcChecksum. simpl. rewrite fold_left_lxor. reflexivity.
Qed.

Lemma calcChecksum_xor (s : bytes) :
  s <> [] -> calcChecksum s = Ok (xor_all s).
Proof.
  destruct s as [|b s]; [congruence|]. intros _. apply calcChecksum_cons.
Qed.

Lemma is_bytes_app (a b : bytes) : is_bytes a -> is_bytes b -> is_bytes (a ++ b).
Proof. unfold is_bytes. intros Ha Hb. apply Forall_app. split; assumption. Qed.

Lemma len_byte (s : bytes) : (length s <= 255)%nat -> is_byte (len s).
Proof. unfold is_byte, len. lia. Qed.

Lemma frame_body_bytes (cmd pld : bytes) :
  is_bytes cmd -> is_bytes pld -> (length pld <= 255)%nat ->
  is_bytes (frame_body cmd pld).
Proof.
  intros Hc Hp Hl. unfold frame_body, RFE.
  repeat apply is_bytes_app; try assumption.
  - repeat constructor; unfold is_byte; lia.
  - repeat constructor; unfold is_byte; lia.
  - constructor; [unfold is_byte; lia|]. constructor; [|constructor].
    apply len_byte. assumption.
  - destruct pld; [constructor|]. constructor; [unfold is_byte; lia|assumption].
Qed.

Lemma frame_body_cons (cmd pld : bytes) :
  frame_body cmd pld
  = 0x52 :: 0x46 :: 0x45 :: 0x01 :: cmd ++ 0x02 :: len pld ::
    (match pld with [] => [] | _ :: _ => 0x03 :: pld end).
Proof. reflexivity. Qed.

(** [createMsg] on a payload of at most 255 bytes: the frame body, the
    checksum marker and the XOR of both. *)
Lemma createMsg_ok (cmd pld : bytes) :
  is_bytes cmd -> is_bytes pld -> (length pld <= 255)%nat ->
  createMsg cmd pld
  = Ok (frame_body cmd pld ++ [0x04; xor_all (frame_body cmd pld ++ [0x04])]).
Proof.
  intros Hc Hp Hl. unfold createMsg.
  rewrite (bytes1_byte _ (len_byte _ Hl)). cbn [bind].
  assert (E : (if truthy pld
               then (((RFE ++ [0x01]) ++ cmd) ++ [0x02]) ++ [len pld]
                    ++ [0x03] ++ pld
               else (((RFE ++ [0x01]) ++ cmd) ++ [0x02]) ++ [len pld])
              = frame_body cmd pld).
  { unfold frame_body. destruct pld; cbn [truthy];
      repeat rewrite <- app_assoc; reflexivity. }
  replace (if truthy pld
           then (((((RFE ++ [0x01]) ++ cmd) ++ [0x02]) ++ [len pld]) ++ [0x03])
                ++ pld
           else (((RFE ++ [0x01]) ++ cmd) ++ [0x02]) ++ [len pld])
    with (frame_body cmd pld).
  2:{ rewrite <- E. destruct pld; cbn [truthy];
        repeat rewrite <- app_assoc; reflexivity. }
  rewrite calcChecksum_xor.
  2:{ rewrite frame_body_cons. discriminate. }
  cbn [bind]. rewrite bytes1_byte.
  2:{ apply xor_all_byte. apply is_bytes_app.
      - apply frame_body_bytes; assumption.
      - repeat constructor; unfold is_byte; lia. }
  cbn [bind]. rewrite <- app_assoc. reflexivity.
Qed.

Lemma xor_all_closed (s : bytes) : xor_all (s ++ [xor_all s]) = 0.
Proof.
  rewrite xor_all_app. simpl. rewrite Z.lxor_0_r. apply Z.lxor_nilpotent.
Qed.

(* ================================================================== *)
(** ** The cases of [parseMsg] *)

Lemma parseMsg_short (msg : bytes) :
  (length msg < 8)%nat -> parseMsg msg = Raise (SyntaxError "Message too short").
Proof.
  intros H. unfold parseMsg.
  replace (len msg <? 8) with true; [reflexivity|].
  symmetry. apply Z.ltb_lt. unfold len. lia.
Qed.

(** What [parseMsg] does with its checks is decided by the first nine
    bytes. *)
Lemma parseMsg_long (b0 b1 b2 b3 b4 b5 b6 b7 : Z) (rest : bytes) :
  parseMsg (b0 :: b1 :: b2 :: b3 :: b4 :: b5 :: b6 :: b7 :: rest)
  = if negb (xor_all (b0 :: b1 :: b2 :: b3 :: b4 :: b5 :: b6 :: b7 :: rest) =? 0)
    then Raise (ValueError "Wrong checksum")
    else if negb (bytes_eqb [b0; b1; b2; b3] RFE01)
    then Raise (SyntaxError "Wrong message start")
    else if negb (b6 =? 0x02)
    then Raise (SyntaxError "Wrong payload length start")
    else if b7 >? 0 then
      match rest with
      | [] => Raise IndexError
      | m :: rest' =>
          if negb (m =? 0x03) then Raise (SyntaxError "Wrong payload start")
          else Ok ([b4; b5], upto b7 rest')
      end
    else Ok ([b4; b5], []).
Proof.
  unfold parseMsg.
  replace (len (b0 :: b1 :: b2 :: b3 :: b4 :: b5 :: b6 :: b7 :: rest) <? 8)
    with false.
  2:{ symmetry. apply Z.ltb_ge. unfold len. cbn [length]. lia. }
  rewrite calcChecksum_cons. cbn [bind].
  destruct (negb (xor_all _ =? 0)); [reflexivity|].
  change (upto 4 (b0 :: b1 :: b2 :: b3 :: b4 :: b5 :: b6 :: b7 :: rest))
    with [b0; b1; b2; b3].
  destruct (negb (bytes_eqb [b0; b1; b2; b3] RFE01)); [reflexivity|].
  change (from 4 (b0 :: b1 :: b2 :: b3 :: b4 :: b5 :: b6 :: b7 :: rest))
    with (b4 :: b5 :: b6 :: b7 :: rest).
  change (from 2 (b4 :: b5 :: b6 :: b7 :: rest)) with (b6 :: b7 :: rest).
  change (upto 2 (b4 :: b5 :: b6 :: b7 :: rest)) with [b4; b5].
  cbn [head bind].
  destruct (negb (b6 =? 2)); [reflexivity|].
  change (from 1 (b6 :: b7 :: rest)) with (b7 :: rest).
  cbn [head bind].
  change (from 1 (b7 :: rest)) with rest.
  destruct (b7 >? 0); [|reflexivity].
  destruct rest as [|m rest']; [reflexivity|].
  cbn [head bind]. reflexivity.
Qed.

(** A sequence of 8 bytes or more shows its first eight. *)
Lemma long_inv (msg : bytes) :
  (8 <= length msg)%nat ->
  exists b0 b1 b2 b3 b4 b5 b6 b7 rest,
    msg = b0 :: b1 :: b2 :: b3 :: b4 :: b5 :: b6 :: b7 :: rest.
Proof.
  intros H.
  do 8 (destruct msg as [|? msg]; [cbn [length] in H; lia|]).
  repeat eexists.
Qed.

Lemma bytes_eqb_eq (a b : bytes) : bytes_eqb a b = true <-> a = b.
Proof.
  revert b. induction a as [|x a IH]; intros [|y b]; simpl;
    try (split; [discriminate|discriminate]); try tauto.
  rewrite andb_true_iff, Z.eqb_eq, IH. split.
  - intros [-> ->]. reflexivity.
  - intros E. injection E. tauto.
Qed.

Lemma upto_len_app (p t : bytes) : upto (len p) (p ++ t) = p.
Proof.
  unfold upto, len. rewrite Nat2Z.id.
  rewrite firstn_app, Nat.sub_diag, firstn_all. cbn [firstn]. apply app_nil_r.
Qed.

(** A frame body with two command bytes, followed by anything that brings
    the XOR of the whole to 0, parses to its command and payload. *)
Lemma parseMsg_body (cmd pld tail : bytes) :
  length cmd = 2%nat ->
  xor_all (frame_body cmd pld ++ tail) = 0 ->
  parseMsg (frame_body cmd pld ++ tail) = Ok (cmd, pld).
Proof.
  intros Hc Hx.
  destruct cmd as [|c1 [|c2 [|? ?]]]; try discriminate Hc.
  rewrite frame_body_cons in *. cbn [app] in *.
  rewrite parseMsg_long, Hx. cbn [Z.eqb negb bytes_eqb RFE01 andb].
  destruct pld as [|p pld].
  - reflexivity.
  - replace (len (p :: pld) >? 0) with true.
    2:{ symmetry. apply Z.gtb_lt. unfold len. cbn [length]. lia. }
    cbn [app Z.eqb negb Pos.eqb].
    change (p :: pld ++ tail) with ((p :: pld) ++ tail).
    rewrite upto_len_app. reflexivity.
Qed.

(* ================================================================== *)
(** ** Properties of the message codec *)

Lemma byte_list_ok (s : bytes) :
  forallb is_byteb s = true -> is_bytes s.
Proof.
  intros H. apply Forall_forall. intros b Hb.
  rewrite forallb_forall in H. specialize (H b Hb).
  unfold is_byteb in H. apply andb_true_iff in H. destruct H as [H0 H1].
  apply Z.leb_le in H0. apply Z.ltb_lt in H1. split; assumption.
Qed.

(** C8: for every 2-byte command and every payload of at most 255 bytes,
    [createMsg] emits 'RFE', 0x01, the command bytes, 0x02, the length byte,
    then 0x03 and the payload exactly when the payload is not empty, then
    0x04 and a checksum byte, and the XOR of all bytes of that frame is 0;
    for command 01 01 and the empty payload the frame is
    52 46 45 01 01 01 02 00 04 56. *)
Theorem createMsg_reference :
  (forall cmd pld : bytes,
      is_bytes cmd -> length cmd = 2%nat ->
      is_bytes pld -> (length pld <= 255)%nat ->
      exists ck : Z,
        is_byte ck
        /\ createMsg cmd pld = Ok (frame_body cmd pld ++ [0x04; ck])
        /\ calcChecksum (frame_body cmd pld ++ [0x04; ck]) = Ok 0)
  /\ createMsg [0x01; 0x01] []
     = Ok [0x52; 0x46; 0x45; 0x01; 0x01; 0x01; 0x02; 0x00; 0x04; 0x56].
Proof.
  split; [|reflexivity].
  intros cmd pld Hc _ Hp Hl.
  exists (xor_all (frame_body cmd pld ++ [0x04])). split; [|split].
  - apply xor_all_byte. apply is_bytes_app.
    + apply frame_body_bytes; assumption.
    + repeat constructor; unfold is_byte; lia.
  - apply createMsg_ok; assumption.
  - rewrite calcChecksum_xor.
    2:{ rewrite frame_body_cons. discriminate. }
    change [0x04; xor_all (frame_body cmd pld ++ [0x04])]
      with ([0x04] ++ [xor_all (frame_body cmd pld ++ [0x04])]).
    rewrite app_assoc, xor_all_closed. reflexivity.
Qed.

Lemma createMsg_reference_witness :
  exists ck : Z,
    is_byte ck
    /\ createMsg [0x50; 0x01] [0x00; 0x07]
       = Ok (frame_body [0x50; 0x01] [0x00; 0x07] ++ [0x04; ck])
    /\ calcChecksum (frame_body [0x50; 0x01] [0x00; 0x07] ++ [0x04; ck]) = Ok 0.
Proof.
  apply (proj1 createMsg_reference).
  - apply byte_list_ok. reflexivity.
  - reflexivity.
  - apply byte_list_ok. reflexivity.
  - simpl. lia.
Defined.

(** C1: for every 2-byte command and every payload of 0 to 255 bytes,
    [parseMsg] of the frame that [createMsg] produces is the original
    (command, payload) pair. *)
Theorem parseMsg_createMsg (cmd pld : bytes) :
  is_bytes cmd -> length cmd = 2%nat ->
  is_bytes pld -> (length pld <= 255)%nat ->
  (frame <- createMsg cmd pld ;; parseMsg frame) = Ok (cmd, pld).
Proof.
  intros Hc H2 Hp Hl.
  rewrite createMsg_ok by assumption. cbn [bind].
  apply parseMsg_body; [assumption|].
  change [0x04; xor_all (frame_body cmd pld ++ [0x04])]
    with ([0x04] ++ [xor_all (frame_body cmd pld ++ [0x04])]).
  rewrite app_assoc. apply xor_all_closed.
Qed.

Lemma parseMsg_createMsg_witness :
  (frame <- createMsg [0x03; 0x31] [0x00; 0x01; 0x02] ;; parseMsg frame)
  = Ok ([0x03; 0x31], [0x00; 0x01; 0x02]).
Proof.
  apply parseMsg_createMsg.
  - apply byte_list_ok. reflexivity.
  - reflexivity.
  - apply byte_list_ok. reflexivity.
  - simpl. lia.
Defined.

Lemma createMsg_length (cmd pld frame : bytes) :
  createMsg cmd pld = Ok frame ->
  length frame
  = (8 + length cmd + match pld with [] => 0 | _ :: _ => 1 + length pld end)%nat.
Proof.
  unfold createMsg, bytes1.
  destruct (is_byteb (len pld)); [|discriminate]. cbn [bind].
  destruct (calcChecksum _) as [ck|e]; [|discriminate]. cbn [bind].
  destruct (is_byteb ck); [|discriminate]. cbn [bind].
  intros E. injection E as <-.
  destruct pld as [|p pld]; cbn [truthy];
    cbn [RFE app]; cbn [length]; repeat rewrite length_app; cbn [length]; lia.
Qed.

(** C10: [parseMsg] does not look at the position of the checksum marker:
    the 8-byte input 52 46 45 01 52 00 02 00, which holds neither the
    payload marker 0x03 nor the checksum marker 0x04, parses to command 52 00
    with the empty payload, although no frame that [createMsg] makes for a
    2-byte command is shorter than 10 bytes; and a frame whose checksum
    marker is replaced by any value [m], with the checksum byte that brings
    the XOR to 0, parses like the original one. *)
Theorem parseMsg_ignores_checksum_marker :
  parseMsg [0x52; 0x46; 0x45; 0x01; 0x52; 0x00; 0x02; 0x00] = Ok ([0x52; 0x00], [])
  /\ ~ In 0x03 [0x52; 0x46; 0x45; 0x01; 0x52; 0x00; 0x02; 0x00]
  /\ ~ In 0x04 [0x52; 0x46; 0x45; 0x01; 0x52; 0x00; 0x02; 0x00]
  /\ (forall cmd pld frame : bytes,
         length cmd = 2%nat -> createMsg cmd pld = Ok frame ->
         (10 <= length frame)%nat)
  /\ (exists frame, createMsg [0x52; 0x00] [] = Ok frame /\ length frame = 10%nat)
  /\ (forall (cmd pld : bytes) (m : Z),
         length cmd = 2%nat ->
         parseMsg (frame_body cmd pld
                   ++ [m; xor_all (frame_body cmd pld ++ [m])])
         = Ok (cmd, pld)).
Proof.
  split; [reflexivity|]. split; [|split; [|split; [|split]]].
  - cbn [In]. intros H. repeat (destruct H as [H|H]; [discriminate H|]). exact H.
  - cbn [In]. intros H. repeat (destruct H as [H|H]; [discriminate H|]). exact H.
  - intros cmd pld frame Hc E. rewrite (createMsg_length _ _ _ E), Hc. lia.
  - eexists. split; reflexivity.
  - intros cmd pld m Hc. apply parseMsg_body; [assumption|].
    change [m; xor_all (frame_body cmd pld ++ [m])]
      with ([m] ++ [xor_all (frame_body cmd pld ++ [m])]).
    rewrite app_assoc. apply xor_all_closed.
Qed.

Lemma parseMsg_ignores_checksum_marker_witness :
  Nat.le 10 (length [0x52; 0x46; 0x45; 0x01; 0x01; 0x01; 0x02; 0x00; 0x04; 0x56])
  /\ parseMsg (frame_body [0x01; 0x01] [0x09]
               ++ [0xFF; xor_all (frame_body [0x01; 0x01] [0x09] ++ [0xFF])])
     = Ok ([0x01; 0x01], [0x09]).
Proof.
  destruct parseMsg_ignores_checksum_marker as (_ & _ & _ & Hmin & _ & Hany).
  split.
  - apply (Hmin [0x01; 0x01] []); reflexivity.
  - apply Hany. reflexivity.
Defined.

(** C9: [parseMsg] checks in a fixed order and stops at the first failure:
    an input of fewer than 8 bytes is "Message too short" whatever it holds;
    an input of 8 bytes or more whose XOR is not 0 is "Wrong checksum" even
    with a wrong start; with XOR 0, a wrong start is reported before the
    length marker is looked at, a wrong length marker before the payload
    marker, and a wrong payload marker last. *)
Theorem parseMsg_check_order (msg : bytes) :
  ((length msg < 8)%nat ->
   parseMsg msg = Raise (SyntaxError "Message too short"))
  /\ ((8 <= length msg)%nat -> xor_all msg <> 0 ->
      parseMsg msg = Raise (ValueError "Wrong checksum"))
  /\ ((8 <= length msg)%nat -> xor_all msg = 0 ->
      upto 4 msg <> RFE01 ->
      parseMsg msg = Raise (SyntaxError "Wrong message start"))
  /\ ((8 <= length msg)%nat -> xor_all msg = 0 ->
      upto 4 msg = RFE01 -> nth 6 msg 0 <> 0x02 ->
      parseMsg msg = Raise (SyntaxError "Wrong payload length start"))
  /\ ((9 <= length msg)%nat -> xor_all msg = 0 ->
      upto 4 msg = RFE01 -> nth 6 msg 0 = 0x02 ->
      0 < nth 7 msg 0 -> nth 8 msg 0 <> 0x03 ->
      parseMsg msg = Raise (SyntaxError "Wrong payload start")).
Proof.
  split; [apply parseMsg_short|].
  assert (Hstart : forall b0 b1 b2 b3 : Z,
             [b0; b1; b2; b3] <> RFE01 -> bytes_eqb [b0; b1; b2; b3] RFE01 = false).
  { intros b0 b1 b2 b3 N. destruct (bytes_eqb _ RFE01) eqn:E; [|reflexivity].
    apply bytes_eqb_eq in E. contradiction. }
  split; [|split; [|split]].
  - intros Hl Hx. destruct (long_inv msg Hl) as (b0&b1&b2&b3&b4&b5&b6&b7&r&->).
    rewrite parseMsg_long.
    apply Z.eqb_neq in Hx. rewrite Hx. reflexivity.
  - intros Hl Hx Hs. destruct (long_inv msg Hl) as (b0&b1&b2&b3&b4&b5&b6&b7&r&->).
    rewrite parseMsg_long, Hx. cbn [Z.eqb negb].
    rewrite (Hstart _ _ _ _ Hs). reflexivity.
  - intros Hl Hx Hs H6. destruct (long_inv msg Hl) as (b0&b1&b2&b3&b4&b5&b6&b7&r&->).
    rewrite parseMsg_long, Hx. cbn [Z.eqb negb].
    change (upto 4 (b0 :: b1 :: b2 :: b3 :: b4 :: b5 :: b6 :: b7 :: r))
      with [b0; b1; b2; b3] in Hs.
    rewrite Hs. cbn [nth] in H6. apply Z.eqb_neq in H6. rewrite H6. reflexivity.
  - intros Hl Hx Hs H6 H7 H8.
    assert (Hl8 : (8 <= length msg)%nat) by lia.
    destruct (long_inv msg Hl8) as (b0&b1&b2&b3&b4&b5&b6&b7&r&->).
    destruct r as [|m r]; [cbn [length] in Hl; lia|].
    rewrite parseMsg_long, Hx. cbn [Z.eqb negb].
    change (upto 4 (b0 :: b1 :: b2 :: b3 :: b4 :: b5 :: b6 :: b7 :: m :: r))
      with [b0; b1; b2; b3] in Hs.
    rewrite Hs. cbn [nth] in H6, H7, H8. rewrite H6.
    apply Z.gtb_lt in H7. rewrite H7.
    apply Z.eqb_neq in H8. rewrite H8. reflexivity.
Qed.

Lemma parseMsg_check_order_witness :
  parseMsg [0x52; 0x46; 0x45; 0x01; 0x01; 0x01; 0x02]
  = Raise (SyntaxError "Message too short")
  /\ parseMsg [0x00; 0x46; 0x45; 0x01; 0x01; 0x01; 0x07; 0x00; 0x04; 0x56]
     = Raise (ValueError "Wrong checksum")
  /\ parseMsg [0x51; 0x46; 0x45; 0x01; 0x01; 0x01; 0x07; 0x01; 0x09; 0x5C]
     = Raise (SyntaxError "Wrong message start")
  /\ parseMsg [0x52; 0x46; 0x45; 0x01; 0x01; 0x01; 0x07; 0x01; 0x09; 0x5F]
     = Raise (SyntaxError "Wrong payload length start")
  /\ parseMsg [0x52; 0x46; 0x45; 0x01; 0x01; 0x01; 0x02; 0x01; 0x09; 0x5A]
     = Raise (SyntaxError "Wrong payload start").
Proof.
  split; [|split; [|split; [|split]]].
  - apply (proj1 (parseMsg_check_order _)). simpl. lia.
  - apply (proj1 (proj2 (parseMsg_check_order _))).
    + simpl. lia.
    + vm_compute. discriminate.
  - apply (proj1 (proj2 (proj2 (parseMsg_check_order _)))).
    + simpl. lia.
    + reflexivity.
    + vm_compute. discriminate.
  - apply (proj1 (proj2 (proj2 (proj2 (parseMsg_check_order _))))).
    + simpl. lia.
    + reflexivity.
    + reflexivity.
    + vm_compute. discriminate.
  - apply (proj2 (proj2 (proj2 (proj2 (parseMsg_check_order _))))).
    + simpl. lia.
    + reflexivity.
    + reflexivity.
    + reflexivity.
    + reflexivity.
    + vm_compute. discriminate.
Defined.

(** C6: the 8-byte input 52 46 45 01 53 00 02 01 passes the length, checksum,
    start and length-marker checks and declares one payload byte; [parseMsg]
    then indexes the empty rest and raises [IndexError], which is none of
    the five errors of a malformed frame.  This is the only way to another
    failure: every input either parses, or raises one of the five errors,
    or is an 8-byte input of that shape. *)
Theorem parseMsg_index_error :
  parseMsg [0x52; 0x46; 0x45; 0x01; 0x53; 0x00; 0x02; 0x01] = Raise IndexError
  /\ forall msg : bytes,
      (exists cmd pld, parseMsg msg = Ok (cmd, pld))
      \/ parseMsg msg = Raise (SyntaxError "Message too short")
      \/ parseMsg msg = Raise (ValueError "Wrong checksum")
      \/ parseMsg msg = Raise (SyntaxError "Wrong message start")
      \/ parseMsg msg = Raise (SyntaxError "Wrong payload length start")
      \/ parseMsg msg = Raise (SyntaxError "Wrong payload start")
      \/ (parseMsg msg = Raise IndexError
          /\ length msg = 8%nat /\ xor_all msg = 0 /\ upto 4 msg = RFE01
          /\ nth 6 msg 0 = 0x02 /\ 0 < nth 7 msg 0).
Proof.
  split; [reflexivity|]. intros msg.
  destruct (Nat.lt_ge_cases (length msg) 8) as [Hs|Hl].
  { right. left. apply parseMsg_short. assumption. }
  destruct (long_inv msg Hl) as (b0&b1&b2&b3&b4&b5&b6&b7&r&->).
  rewrite parseMsg_long.
  destruct (xor_all _ =? 0) eqn:Hx; cbn [negb]; [|tauto].
  destruct (bytes_eqb [b0; b1; b2; b3] RFE01) eqn:Hst; cbn [negb]; [|tauto].
  destruct (b6 =? 2) eqn:H6; cbn [negb]; [|tauto].
  destruct (b7 >? 0) eqn:H7; [|left; eauto].
  destruct r as [|m r].
  - do 6 right. apply Z.eqb_eq in Hx, H6. apply bytes_eqb_eq in Hst.
    apply Z.gtb_lt in H7. cbn [nth]. repeat split; assumption.
  - destruct (m =? 3); cbn [negb]; [left; eauto|tauto].
Qed.

(** C5, as the code has it: the payload that [parseMsg] returns is the
    slice of at most [payload_len] bytes behind the payload marker; its
    length is the smaller of the declared length byte and the number of
    bytes that follow the marker, so it is the declared length when that
    many bytes follow and is never more. *)
Theorem parseMsg_payload_length (msg cmd pld : bytes) :
  is_bytes msg ->
  parseMsg msg = Ok (cmd, pld) ->
  pld = upto (nth 7 msg 0) (from 9 msg)
  /\ len pld = Z.min (nth 7 msg 0) (Z.max 0 (len msg - 9))
  /\ len pld <= nth 7 msg 0
  /\ (nth 7 msg 0 <= len msg - 9 -> len pld = nth 7 msg 0).
Proof.
  intros Hb H.
  assert (Hl : (8 <= length msg)%nat).
  { destruct (Nat.lt_ge_cases (length msg) 8) as [Hs|Hl]; [|exact Hl].
    rewrite (parseMsg_short msg Hs) in H. discriminate H. }
  destruct (long_inv msg Hl) as (b0&b1&b2&b3&b4&b5&b6&b7&r&->).
  assert (H7 : 0 <= b7).
  { unfold is_bytes in Hb. rewrite Forall_forall in Hb.
    apply (Hb b7). cbn [In]. tauto. }
  rewrite parseMsg_long in H. cbn [nth].
  destruct (negb (xor_all _ =? 0)); [discriminate H|].
  destruct (negb (bytes_eqb _ RFE01)); [discriminate H|].
  destruct (negb (b6 =? 2)); [discriminate H|].
  assert (Epld : pld = upto b7 (from 9 (b0 :: b1 :: b2 :: b3 :: b4 :: b5 :: b6 :: b7 :: r))).
  { destruct (b7 >? 0) eqn:G.
    - destruct r as [|m r]; [discriminate H|].
      destruct (negb (m =? 3)); [discriminate H|].
      injection H as _ <-. reflexivity.
    - injection H as _ <-. rewrite Z.gtb_ltb, Z.ltb_ge in G.
      replace b7 with 0 by lia. reflexivity. }
  split; [exact Epld|].
  assert (Elen : len pld
                 = Z.min b7 (Z.max 0 (len (b0 :: b1 :: b2 :: b3 :: b4 :: b5 :: b6 :: b7 :: r) - 9))).
  { rewrite Epld. unfold len, upto, from.
    rewrite length_firstn, length_skipn. lia. }
  split; [exact Elen|]. split; lia.
Qed.

Lemma parseMsg_payload_length_witness :
  [0x07; 0x08; 0x08]
  = upto (nth 7 [0x52; 0x46; 0x45; 0x01; 0x53; 0x00; 0x02; 0x05; 0x03;
                 0x07; 0x08; 0x08] 0)
         (from 9 [0x52; 0x46; 0x45; 0x01; 0x53; 0x00; 0x02; 0x05; 0x03;
                  0x07; 0x08; 0x08])
  /\ len [0x07; 0x08; 0x08]
     = Z.min (nth 7 [0x52; 0x46; 0x45; 0x01; 0x53; 0x00; 0x02; 0x05; 0x03;
                     0x07; 0x08; 0x08] 0)
             (Z.max 0 (len [0x52; 0x46; 0x45; 0x01; 0x53; 0x00; 0x02; 0x05;
                            0x03; 0x07; 0x08; 0x08] - 9))
  /\ len [0x07; 0x08; 0x08]
     <= nth 7 [0x52; 0x46; 0x45; 0x01; 0x53; 0x00; 0x02; 0x05; 0x03;
               0x07; 0x08; 0x08] 0
  /\ (nth 7 [0x52; 0x46; 0x45; 0x01; 0x53; 0x00; 0x02; 0x05; 0x03;
             0x07; 0x08; 0x08] 0
      <= len [0x52; 0x46; 0x45; 0x01; 0x53; 0x00; 0x02; 0x05; 0x03;
              0x07; 0x08; 0x08] - 9
      -> len [0x07; 0x08; 0x08]
         = nth 7 [0x52; 0x46; 0x45; 0x01; 0x53; 0x00; 0x02; 0x05; 0x03;
                  0x07; 0x08; 0x08] 0).
Proof.
  apply (parseMsg_payload_length _ [0x53; 0x00]).
  - apply byte_list_ok. reflexivity.
  - reflexivity.
Defined.

(* ================================================================== *)
(** ** Searching and splitting *)

Lemma startswith_firstn (p s : bytes) :
  startswith p s = true <-> firstn (length p) s = p.
Proof.
  revert s. induction p as [|x p IH]; intros s.
  - simpl. tauto.
  - destruct s as [|y s]; simpl.
    + split; discriminate.
    + rewrite andb_true_iff, Z.eqb_eq, IH. split.
      * intros [-> ->]. reflexivity.
      * intros E. injection E. intros -> ->. tauto.
Qed.

Lemma occurs_at_0 (sep s : bytes) :
  occurs_at sep s 0 <-> startswith sep s = true.
Proof. unfold occurs_at. cbn [skipn]. symmetry. apply startswith_firstn. Qed.

Lemma occurs_at_S (sep s : bytes) (x : Z) (i : nat) :
  occurs_at sep (x :: s) (S i) <-> occurs_at sep s i.
Proof. unfold occurs_at. cbn [skipn]. tauto. Qed.

Lemma occurs_at_nil (sep : bytes) (i : nat) :
  occurs_at sep [] i -> occurs_at sep [] 0.
Proof. unfold occurs_at. rewrite skipn_nil. cbn [skipn]. tauto. Qed.

Lemma find_from_first (sub : bytes) (i : nat) :
  forall (s : bytes) (k : nat),
    occurs_at sub s i ->
    (forall j, (j < i)%nat -> ~ occurs_at sub s j) ->
    find_from sub s k = Some (k + i)%nat.
Proof.
  induction i as [|i IH]; intros s k Hi Hlt.
  - apply occurs_at_0 in Hi.
    destruct s; cbn [find_from]; rewrite Hi, Nat.add_0_r; reflexivity.
  - assert (H0 : startswith sub s = false).
    { destruct (startswith sub s) eqn:E; [|reflexivity].
      exfalso. apply (Hlt 0%nat); [lia|]. apply occurs_at_0. exact E. }
    destruct s as [|x s].
    + exfalso. apply (Hlt 0%nat); [lia|]. apply (occurs_at_nil _ _ Hi).
    + cbn [find_from]. rewrite H0.
      rewrite (IH s (S k)).
      * f_equal. lia.
      * apply (occurs_at_S sub s x i). exact Hi.
      * intros j Hj Hocc. apply (Hlt (S j)); [lia|].
        apply occurs_at_S. exact Hocc.
Qed.

Lemma find_from_none (sub : bytes) :
  forall (s : bytes) (k : nat),
    (forall i, ~ occurs_at sub s i) -> find_from sub s k = None.
Proof.
  induction s as [|x s IH]; intros k Hno.
  - cbn [find_from].
    destruct (startswith sub []) eqn:E; [|reflexivity].
    exfalso. apply (Hno 0%nat). apply occurs_at_0. exact E.
  - cbn [find_from].
    destruct (startswith sub (x :: s)) eqn:E.
    + exfalso. apply (Hno 0%nat). apply occurs_at_0. exact E.
    + apply IH. intros i Hi. apply (Hno (S i)). apply occurs_at_S. exact Hi.
Qed.

Lemma offsets_ge (sep : bytes) (rs : list bytes) :
  forall (o j : nat), In j (offsets sep o rs) -> (o <= j)%nat.
Proof.
  induction rs as [|r rs IH]; intros o j H; cbn [offsets In] in H.
  - contradiction.
  - destruct H as [<-|H]; [lia|]. apply IH in H. lia.
Qed.

Lemma offsets_shift (sep : bytes) (c : nat) (rs : list bytes) :
  forall (o i : nat),
    In (c + i)%nat (offsets sep (c + o) rs) -> In i (offsets sep o rs).
Proof.
  induction rs as [|r rs IH]; intros o i H; cbn [offsets In] in *.
  - contradiction.
  - destruct H as [E|H]; [left; lia|]. right.
    apply IH. replace (c + (o + length sep + length r))%nat
      with (c + o + length sep + length r)%nat by lia. exact H.
Qed.

Lemma occurs_at_skip (sep pre s : bytes) (i : nat) :
  occurs_at sep s i -> occurs_at sep (pre ++ s) (length pre + i).
Proof.
  unfold occurs_at. intros H.
  rewrite skipn_app.
  replace (length pre + i - length pre)%nat with i by lia.
  rewrite skipn_all2 by lia. cbn [app]. exact H.
Qed.

Lemma occurs_at_here (sep pre s : bytes) :
  occurs_at sep (pre ++ sep ++ s) (length pre).
Proof.
  unfold occurs_at.
  rewrite skipn_app, Nat.sub_diag, skipn_all. cbn [app skipn].
  rewrite firstn_app, Nat.sub_diag, firstn_all. cbn [firstn]. apply app_nil_r.
Qed.

Lemma find_nil (sep : bytes) : sep <> [] -> find sep [] = None.
Proof. destruct sep; [congruence|reflexivity]. Qed.

(** The fuel of [split] is enough: any fuel from the length of the input on
    gives the same parts. *)
Lemma split_fuel_more (sep : bytes) :
  sep <> [] ->
  forall (n m : nat) (s : bytes),
    (length s <= n)%nat -> (length s <= m)%nat ->
    split_fuel n sep s = split_fuel m sep s.
Proof.
  intros Hsep. induction n as [|n IH]; intros m s Hn Hm.
  - destruct s; [|cbn [length] in Hn; lia].
    destruct m; cbn [split_fuel]; [reflexivity|].
    rewrite (find_nil sep Hsep). reflexivity.
  - destruct m as [|m].
    + destruct s; [|cbn [length] in Hm; lia].
      cbn [split_fuel]. rewrite (find_nil sep Hsep). reflexivity.
    + cbn [split_fuel]. destruct (find sep s) as [i|] eqn:Ef; [|reflexivity].
      destruct s as [|x s]; [rewrite (find_nil sep Hsep) in Ef; discriminate|].
      assert (Hlen : (1 <= length sep)%nat).
      { destruct sep; [congruence|cbn [length]; lia]. }
      apply (f_equal (cons (firstn i (x :: s)))). apply IH.
      * rewrite length_skipn. cbn [length] in *. lia.
      * rewrite length_skipn. cbn [length] in *. lia.
Qed.

(** Splitting the concatenation of [r0] and the frames [sep ++ r], in which
    [sep] occurs at the beginning of the frames only, gives [r0] and the
    rests [r] of the frames in their order. *)
Lemma split_fuel_frames (sep : bytes) (rs : list bytes) :
  sep <> [] ->
  forall (r0 : bytes) (fuel : nat),
    (length (r0 ++ concat (map (app sep) rs)) <= fuel)%nat ->
    (forall i, occurs_at sep (r0 ++ concat (map (app sep) rs)) i ->
               In i (offsets sep (length r0) rs)) ->
    split_fuel fuel sep (r0 ++ concat (map (app sep) rs)) = r0 :: rs.
Proof.
  intros Hsep. induction rs as [|r rs IH]; intros r0 fuel Hfuel Hocc.
  - cbn [map concat] in *. rewrite app_nil_r in *.
    assert (Hnone : find sep r0 = None).
    { apply find_from_none. intros i Hi. apply (Hocc i Hi). }
    destruct fuel; cbn [split_fuel]; [reflexivity|].
    rewrite Hnone. reflexivity.
  - cbn [map concat] in *.
    rewrite <- (app_assoc sep r) in *.
    assert (Hlen : (1 <= length sep)%nat).
    { destruct sep; [congruence|cbn [length]; lia]. }
    assert (Hfind : find sep (r0 ++ sep ++ r ++ concat (map (app sep) rs))
                    = Some (length r0)).
    { unfold find.
      rewrite (find_from_first sep (length r0)); [reflexivity| |].
      - apply occurs_at_here.
      - intros j Hj Hoj.
        apply Hocc in Hoj. cbn [offsets In] in Hoj.
        destruct Hoj as [E|Hin]; [lia|]. apply offsets_ge in Hin. lia. }
    destruct fuel as [|fuel].
    { repeat rewrite length_app in Hfuel. lia. }
    cbn [split_fuel]. rewrite Hfind.
    rewrite firstn_app, Nat.sub_diag, firstn_all. cbn [firstn].
    rewrite app_nil_r.
    replace (skipn (length r0 + length sep)
               (r0 ++ sep ++ r ++ concat (map (app sep) rs)))
      with (r ++ concat (map (app sep) rs)).
    2:{ rewrite (app_assoc r0 sep).
        replace (length r0 + length sep)%nat with (length (r0 ++ sep))
          by apply length_app.
        rewrite skipn_app, Nat.sub_diag, skipn_all. reflexivity. }
    apply (f_equal (cons r0)). apply IH.
    + repeat rewrite length_app in *. lia.
    + intros i Hi.
      apply (occurs_at_skip sep (r0 ++ sep)) in Hi.
      rewrite <- (app_assoc r0 sep) in Hi.
      apply Hocc in Hi. cbn [offsets In] in Hi. rewrite length_app in Hi.
      destruct Hi as [E|Hin]; [lia|].
      apply (offsets_shift sep (length r0 + length sep)).
      exact Hin.
Qed.

Lemma occurrences_from_complete (sep : bytes) (i : nat) :
  sep <> [] ->
  forall (s : bytes) (k : nat),
    occurs_at sep s i -> In (k + i)%nat (occurrences_from sep s k).
Proof.
  intros Hsep. induction i as [|i IH]; intros s k H.
  - apply occurs_at_0 in H.
    destruct s; cbn [occurrences_from]; rewrite H, Nat.add_0_r;
      apply in_or_app; left; left; reflexivity.
  - destruct s as [|x s].
    + exfalso. apply occurs_at_nil in H. unfold occurs_at in H.
      cbn [skipn] in H. rewrite firstn_nil in H. congruence.
    + cbn [occurrences_from]. apply in_or_app. right.
      replace (k + S i)%nat with (S k + i)%nat by lia.
      apply IH. apply (occurs_at_S sep s x i). exact H.
Qed.

Lemma occurrences_complete (sep s : bytes) (i : nat) :
  sep <> [] -> occurs_at sep s i -> In i (occurrences sep s).
Proof.
  intros Hsep H. apply (occurrences_from_complete sep i Hsep s 0%nat H).
Qed.

(* ================================================================== *)
(** ** Properties of [send] *)

Lemma PURPacket_init_msg (frame : bytes) (p : PURPacket) :
  frame <> [] -> decodes_to frame p -> PURPacket_init [] [] frame = Ok p.
Proof.
  intros Hne [Hparse Hmsg]. unfold PURPacket_init. cbn [truthy].
  destruct frame as [|b frame]; [congruence|]. cbn [truthy].
  rewrite Hparse. cbn [bind]. rewrite <- Hmsg. destruct p; reflexivity.
Qed.

Lemma mapM_decode (start : bytes) (rs : list bytes) (pkts : list PURPacket) :
  start <> [] ->
  Forall2 (fun r p => decodes_to (start ++ r) p) rs pkts ->
  mapM (fun part => PURPacket_init [] [] (start ++ part)) rs = Ok pkts.
Proof.
  intros Hne. induction 1 as [|r p rs pkts Hd _ IH]; cbn [mapM].
  - reflexivity.
  - rewrite (PURPacket_init_msg _ p); [|destruct start; [congruence|discriminate]|exact Hd].
    cbn [bind]. rewrite IH. reflexivity.
Qed.

Lemma forM_checkResp_ok (pkts : list PURPacket) :
  Forall (fun p => checkResp p = Ok tt) pkts -> forM_ checkResp pkts = Ok tt.
Proof.
  induction 1 as [|p pkts Hp _ IH]; cbn [forM_].
  - reflexivity.
  - rewrite Hp. cbn [bind]. exact IH.
Qed.

Lemma split_nonempty (sep s : bytes) :
  sep <> [] -> split sep s = Ok (split_fuel (length s) sep s).
Proof. destruct sep; [congruence|reflexivity]. Qed.

(** The delimiter of [send] for a packet made from a 2-byte command: start
    marker, command marker and the command bytes. *)
Lemma sent_prefix (cmd pld : bytes) (pkg : PURPacket) :
  length cmd = 2%nat ->
  PURPacket_init cmd pld [] = Ok pkg ->
  upto 6 (msgBytes pkg) = RFE01 ++ cmd.
Proof.
  intros Hc. destruct cmd as [|c1 [|c2 [|? ?]]]; try discriminate Hc.
  unfold PURPacket_init, createMsg. cbn [truthy].
  destruct (bytes1 (len pld)) as [lenByte|]; [|discriminate]. cbn [bind].
  destruct (calcChecksum _) as [ck|]; [|discriminate]. cbn [bind].
  destruct (bytes1 ck) as [ckb|]; [|discriminate]. cbn [bind].
  intros H. injection H as <-. destruct pld; reflexivity.
Qed.

(** The packets that [send] makes of a buffer of frames. *)
Lemma respPkgs_of_frames (pkg : PURPacket) (rs : list bytes)
      (pkts : list PURPacket) :
  upto 6 (msgBytes pkg) <> [] ->
  (forall i, occurs_at (upto 6 (msgBytes pkg))
                       (concat (map (app (upto 6 (msgBytes pkg))) rs)) i ->
             In i (offsets (upto 6 (msgBytes pkg)) 0 rs)) ->
  Forall2 (fun r p => decodes_to (upto 6 (msgBytes pkg) ++ r) p) rs pkts ->
  respPkgs_of pkg (concat (map (app (upto 6 (msgBytes pkg))) rs)) = Ok pkts.
Proof.
  intros Hne Hocc Hdec. unfold respPkgs_of.
  rewrite (split_nonempty _ _ Hne). cbn [bind].
  pose proof (split_fuel_frames (upto 6 (msgBytes pkg)) rs Hne []
                (length (concat (map (app (upto 6 (msgBytes pkg))) rs)))
                (Nat.le_refl _) Hocc) as Hsplit.
  cbn [app] in Hsplit. rewrite Hsplit.
  cbn [skipn]. apply mapM_decode; assumption.
Qed.

(** C7: when the received bytes are the concatenation of n >= 1 frames,
    each beginning with the first 6 bytes of the sent message and each
    parsing to a packet, and those 6 bytes occur in the buffer only where
    the frames begin, [send] makes exactly the n packets of the frames in
    their order, and returns the packet itself for n = 1 and the list of
    packets for n > 1 (with [check] set, provided no packet carries an error
    return code). *)
Theorem send_splits (pkg : PURPacket) (rs : list bytes)
        (pkts : list PURPacket) (check : bool) :
  upto 6 (msgBytes pkg) <> [] ->
  rs <> [] ->
  (forall i, occurs_at (upto 6 (msgBytes pkg))
                       (concat (map (app (upto 6 (msgBytes pkg))) rs)) i ->
             In i (offsets (upto 6 (msgBytes pkg)) 0 rs)) ->
  Forall2 (fun r p => decodes_to (upto 6 (msgBytes pkg) ++ r) p) rs pkts ->
  (check = true -> Forall (fun p => checkResp p = Ok tt) pkts) ->
  respPkgs_of pkg (concat (map (app (upto 6 (msgBytes pkg))) rs)) = Ok pkts
  /\ length pkts = length rs
  /\ (length rs = 1%nat ->
      exists p, pkts = [p]
                /\ send pkg (concat (map (app (upto 6 (msgBytes pkg))) rs)) check
                   = Ok (One p))
  /\ ((1 < length rs)%nat ->
      send pkg (concat (map (app (upto 6 (msgBytes pkg))) rs)) check
      = Ok (Many pkts)).
Proof.
  intros Hne Hrs Hocc Hdec Hchk.
  pose proof (respPkgs_of_frames pkg rs pkts Hne Hocc Hdec) as Hresp.
  pose proof (Forall2_length Hdec) as Hlen.
  assert (Hsend : send pkg (concat (map (app (upto 6 (msgBytes pkg))) rs)) check
                  = Ok (response_of pkts)).
  { unfold send. rewrite Hresp. cbn [bind].
    replace (if check then forM_ checkResp pkts else Ok tt) with (Ok tt).
    2:{ destruct check; [|reflexivity].
        symmetry. apply forM_checkResp_ok. apply Hchk. reflexivity. }
    cbn [bind].
    destruct pkts as [|p [|q pkts]]; reflexivity. }
  split; [exact Hresp|]. split; [symmetry; exact Hlen|]. split.
  - intros H1. pose proof (eq_trans (eq_sym Hlen) H1) as Hp.
    destruct pkts as [|p [|q pkts]]; try discriminate Hp.
    exists p. split; [reflexivity|exact Hsend].
  - intros H1. rewrite Hsend.
    assert (Hp : (1 < length pkts)%nat).
    { exact (eq_ind _ (fun n => (1 < n)%nat) H1 _ Hlen). }
    destruct pkts as [|p [|q pkts]]; cbn [length] in Hp; try lia. reflexivity.
Qed.

Lemma send_splits_witness :
  send inventory_pkg
       (concat (map (app (upto 6 (msgBytes inventory_pkg)))
                    [inventory_rest1; inventory_rest2])) false
  = Ok (Many [inventory_pkt1; inventory_pkt2]).
Proof.
  refine (proj2 (proj2 (proj2
           (send_splits inventory_pkg [inventory_rest1; inventory_rest2]
              [inventory_pkt1; inventory_pkt2] false _ _ _ _ _))) _).
  - vm_compute. discriminate.
  - discriminate.
  - intros i H. apply occurrences_complete in H.
    + exact H.
    + vm_compute. discriminate.
  - constructor; [split; reflexivity|].
    constructor; [split; reflexivity|]. constructor.
  - intros H. discriminate H.
  - simpl. lia.
Defined.

(* ================================================================== *)
(** ** The return-code convention *)

Lemma retCodeDescr_some (code : Z) (descr : string) :
  retCodeDescr code = Some descr -> code = 0 \/ error_code code.
Proof.
  unfold retCodeDescr, retCodeDescr_table, lookupZ, error_code.
  repeat (destruct (code =? _) eqn:?E;
          [apply Z.eqb_eq in E; intros _; lia|clear E]).
  discriminate.
Qed.

Lemma retCodeDescr_error (code : Z) :
  error_code code -> exists descr, retCodeDescr code = Some descr.
Proof.
  unfold error_code. intros H.
  assert (Hc : code = 0x01 \/ code = 0x50 \/ code = 0x51 \/ code = 0x52
               \/ code = 0x53 \/ code = 0x54 \/ code = 0x55 \/ code = 0xA0
               \/ code = 0xA1 \/ code = 0xA2 \/ code = 0xA3 \/ code = 0xA4)
    by lia.
  repeat (destruct Hc as [->|Hc]; [eexists; reflexivity|]).
  subst code. eexists. reflexivity.
Qed.

Lemma checkResp_raise (pkt : PURPacket) (e : exn) :
  checkResp pkt = Raise e <->
  exists code rest descr,
    pldBytes pkt = code :: rest /\ error_code code
    /\ retCodeDescr code = Some descr
    /\ e = IOError (problem_msg pkt descr).
Proof.
  unfold checkResp, problem_msg. split.
  - destruct (pldBytes pkt) as [|code rest] eqn:Ep; cbn [truthy head bind];
      [discriminate|].
    destruct (code =? 0) eqn:E0; cbn [negb]; [discriminate|].
    destruct (retCodeDescr code) as [descr|] eqn:Ed; [|discriminate].
    intros H. injection H as <-.
    exists code, rest, descr. repeat split; try assumption.
    destruct (retCodeDescr_some code descr Ed) as [->|He];
      [discriminate E0|exact He].
  - intros (code & rest & descr & Ep & He & Ed & ->).
    rewrite Ep. cbn [truthy head bind].
    replace (code =? 0) with false.
    2:{ symmetry. apply Z.eqb_neq. unfold error_code in He. lia. }
    cbn [negb]. rewrite Ed. reflexivity.
Qed.

Lemma checkResp_cases (pkt : PURPacket) :
  checkResp pkt = Ok tt \/ exists e, checkResp pkt = Raise e.
Proof.
  destruct (checkResp pkt) as [[]|e]; [left; reflexivity|right; eauto].
Qed.

Lemma forM_checkResp_raise (ps : list PURPacket) (e : exn) :
  forM_ checkResp ps = Raise e -> exists p, In p ps /\ checkResp p = Raise e.
Proof.
  induction ps as [|p ps IH]; cbn [forM_]; [discriminate|].
  destruct (checkResp p) as [[]|e'] eqn:E; cbn [bind].
  - intros H. destruct (IH H) as (q & Hq & Hr). exists q. split; [right|]; assumption.
  - intros H. injection H as <-. exists p. split; [left; reflexivity|exact E].
Qed.

Lemma forM_checkResp_first (ps1 : list PURPacket) (p : PURPacket)
      (ps2 : list PURPacket) (e : exn) :
  Forall (fun q => checkResp q = Ok tt) ps1 ->
  checkResp p = Raise e ->
  forM_ checkResp (ps1 ++ p :: ps2) = Raise e.
Proof.
  intros H1 Hp. induction H1 as [|q ps1 Hq _ IH]; cbn [app forM_].
  - rewrite Hp. reflexivity.
  - rewrite Hq. cbn [bind]. exact IH.
Qed.

Lemma forM_checkResp_all (ps : list PURPacket) :
  forM_ checkResp ps = Ok tt -> Forall (fun p => checkResp p = Ok tt) ps.
Proof.
  induction ps as [|p ps IH]; cbn [forM_]; [constructor|].
  destruct (checkResp p) as [[]|e] eqn:E; cbn [bind]; [|discriminate].
  intros H. constructor; [exact E|apply IH; exact H].
Qed.

Lemma forM_checkResp_some (ps : list PURPacket) :
  Exists (fun p => exists e, checkResp p = Raise e) ps ->
  exists e, forM_ checkResp ps = Raise e.
Proof.
  induction ps as [|p ps IH]; intros Hex; [inversion Hex|].
  cbn [forM_]. destruct (checkResp p) as [[]|e] eqn:E; cbn [bind].
  - apply IH. inversion Hex as [? ? [e He]|? ? Hrest]; subst; [|exact Hrest].
    rewrite E in He. discriminate He.
  - exists e. reflexivity.
Qed.

(** The packet carries an error code: its payload is not empty and begins
    with a code of the catalog other than 0. *)
Lemma checkResp_raises_iff (p : PURPacket) :
  (exists e, checkResp p = Raise e)
  <-> exists code rest, pldBytes p = code :: rest /\ error_code code.
Proof.
  split.
  - intros [e He]. apply checkResp_raise in He.
    destruct He as (code & rest & descr & Hp & Hc & _). eauto.
  - intros (code & rest & Hp & Hc).
    destruct (retCodeDescr_error code Hc) as [descr Hd].
    exists (IOError (problem_msg p descr)). apply checkResp_raise.
    exists code, rest, descr. tauto.
Qed.

(** C3, as the code has it: with [check] set, [send] raises the [IOError]
    of [checkResp] exactly for a response with a packet whose payload is not
    empty and begins with a code of the catalog other than 0, that is 0x01,
    0x50..0x55 or 0xA0..0xA4, and the message carries the description of
    that code (for 0x52 "The operation could not be executed."); a first
    payload byte that is 0 or not in the catalog passes; without [check] no
    packet raises whatever its payload begins with. *)
Theorem return_code_gating :
  (forall (pkt : PURPacket) (e : exn),
      checkResp pkt = Raise e <->
      exists code rest descr,
        pldBytes pkt = code :: rest /\ error_code code
        /\ retCodeDescr code = Some descr
        /\ e = IOError (problem_msg pkt descr))
  /\ (forall code : Z,
         error_code code <->
         code <> 0 /\ exists descr, retCodeDescr code = Some descr)
  /\ retCodeDescr 0x52 = Some "The operation could not be executed."%string
  /\ (forall (pkg : PURPacket) (respBytes : bytes) (ps : list PURPacket),
         respPkgs_of pkg respBytes = Ok ps ->
         send pkg respBytes false = Ok (response_of ps)
         /\ (Forall (fun p => checkResp p = Ok tt) ps <->
             send pkg respBytes true = Ok (response_of ps))
         /\ (forall e, send pkg respBytes true = Raise e ->
                       exists p, In p ps /\ checkResp p = Raise e)
         /\ ((exists e, send pkg respBytes true = Raise e) <->
             Exists (fun p => exists code rest,
                         pldBytes p = code :: rest /\ error_code code) ps)
         /\ (forall (ps1 : list PURPacket) (p : PURPacket)
                    (ps2 : list PURPacket) (code : Z) (rest : bytes)
                    (descr : string),
                ps = ps1 ++ p :: ps2 ->
                Forall (fun q => checkResp q = Ok tt) ps1 ->
                pldBytes p = code :: rest ->
                error_code code ->
                retCodeDescr code = Some descr ->
                send pkg respBytes true
                = Raise (IOError (problem_msg p descr)))).
Proof.
  split; [exact checkResp_raise|]. split; [|split; [reflexivity|]].
  - intros code. split.
    + intros He. split; [unfold error_code in He; lia|].
      apply retCodeDescr_error. exact He.
    + intros [Hn [descr Hd]].
      destruct (retCodeDescr_some code descr Hd); [contradiction|assumption].
  - intros pkg respBytes ps Hps.
    assert (Hret : (if Nat.eqb (length ps) 1
                    then match ps with
                         | p :: _ => Ok (One p)
                         | [] => Raise IndexError
                         end
                    else Ok (Many ps)) = Ok (response_of ps)).
    { destruct ps as [|p [|q ps]]; reflexivity. }
    assert (Hsend : send pkg respBytes true
                    = (_ <- forM_ checkResp ps ;; Ok (response_of ps))).
    { unfold send. rewrite Hps. cbn [bind].
      destruct (forM_ checkResp ps); cbn [bind]; [exact Hret|reflexivity]. }
    split; [unfold send; rewrite Hps; cbn [bind]; exact Hret|].
    split; [|split; [|split]].
    + rewrite Hsend. split.
      * intros Hall. rewrite (forM_checkResp_ok ps Hall). reflexivity.
      * destruct (forM_ checkResp ps) as [[]|e'] eqn:Ef; cbn [bind];
          [|discriminate].
        intros _. apply forM_checkResp_all. exact Ef.
    + intros e. rewrite Hsend.
      destruct (forM_ checkResp ps) as [[]|e'] eqn:Ef; cbn [bind];
        [discriminate|].
      intros H. injection H as <-. apply forM_checkResp_raise. exact Ef.
    + rewrite Hsend. split.
      * intros [e He].
        destruct (forM_ checkResp ps) as [[]|e'] eqn:Ef; cbn [bind] in He;
          [discriminate He|].
        destruct (forM_checkResp_raise ps e' Ef) as (p & Hin & Hp).
        apply Exists_exists. exists p. split; [exact Hin|].
        apply checkResp_raises_iff. exists e'. exact Hp.
      * intros Hex.
        assert (Hex' : Exists (fun p => exists e, checkResp p = Raise e) ps).
        { apply Exists_exists in Hex. destruct Hex as (p & Hin & Hp).
          apply Exists_exists. exists p. split; [exact Hin|].
          apply checkResp_raises_iff. exact Hp. }
        destruct (forM_checkResp_some ps Hex') as [e He].
        exists e. rewrite He. reflexivity.
    + intros ps1 p ps2 code rest descr -> H1 Hp Hc Hd. rewrite Hsend.
      rewrite (forM_checkResp_first ps1 p ps2 (IOError (problem_msg p descr)) H1).
      * reflexivity.
      * apply checkResp_raise. exists code, rest, descr. tauto.
Qed.

Lemma return_code_gating_witness :
  send getparam_pkg (getparam_frame 0x52) false = Ok (One (getparam_pkt 0x52))
  /\ send getparam_pkg (getparam_frame 0x52) true
     = Raise (IOError (problem_msg (getparam_pkt 0x52)
                         "The operation could not be executed."))
  /\ (exists e, send getparam_pkg (getparam_frame 0x52) true = Raise e)
  /\ send getparam_pkg (getparam_frame 0x02) true
     = Ok (response_of [getparam_pkt 0x02]).
Proof.
  destruct return_code_gating as (_ & _ & _ & Hsend).
  destruct (Hsend getparam_pkg (getparam_frame 0x52) [getparam_pkt 0x52])
    as (Hoff & _ & _ & Hiff & Hfirst); [reflexivity|].
  destruct (Hsend getparam_pkg (getparam_frame 0x02) [getparam_pkt 0x02])
    as (_ & Hpass & _); [reflexivity|].
  split; [exact Hoff|]. split; [|split].
  - apply (Hfirst [] (getparam_pkt 0x52) [] 0x52 []).
    + reflexivity.
    + constructor.
    + reflexivity.
    + unfold error_code. lia.
    + reflexivity.
  - apply Hiff. constructor. exists 0x52, []. split; [reflexivity|].
    unfold error_code. lia.
  - apply Hpass. constructor; [reflexivity|constructor].
Defined.

(** C3 as stated fails for the return code 0x01, which is neither in
    0x50..0x55 nor in 0xA0..0xA4: a response whose payload begins with it
    makes [send] raise when [check] is set. *)
Lemma return_code_pending_raises :
  ~ (0x50 <= 0x01 <= 0x55 \/ 0xA0 <= 0x01 <= 0xA4)
  /\ 0x01 <> 0
  /\ send getparam_pkg (getparam_frame 0x01) true
     = Raise (IOError (problem_msg (getparam_pkt 0x01)
                "The operation is pending, the result will be sent later on.")).
Proof.
  split; [lia|]. split; [discriminate|reflexivity].
Qed.

(** C5 as stated fails on the 9-byte input 52 46 45 01 53 00 02 02 03: it
    declares two payload bytes, none follows the payload marker, and
    [parseMsg] returns the empty payload. *)
Lemma parseMsg_payload_shorter_than_declared :
  parseMsg [0x52; 0x46; 0x45; 0x01; 0x53; 0x00; 0x02; 0x02; 0x03]
  = Ok ([0x53; 0x00], [])
  /\ nth 7 [0x52; 0x46; 0x45; 0x01; 0x53; 0x00; 0x02; 0x02; 0x03] 0 = 2
  /\ len [] <> 2.
Proof. repeat split. discriminate. Qed.

(* ================================================================== *)
(** ** Reading a parameter *)

Lemma length_upto (n : Z) (s : bytes) :
  0 <= n -> len (upto n s) = Z.min n (len s).
Proof. intros H. unfold len, upto. rewrite length_firstn. lia. Qed.

(** C4, as the code has it: for a response of one packet whose payload is
    a return code byte, a length byte [n] and value bytes, [getParam]
    returns the first [n] value bytes, or all of them when there are fewer:
    exactly the declared number when the payload holds that many, and the
    shorter sequence, without an error, when it does not. *)
Theorem getParam_value (addr : Z) (respBytes : bytes) (pkg p : PURPacket)
        (rc n : Z) (value : bytes) :
  0 <= addr < 65536 ->
  PURPacket_init [0x03; 0x31] [addr / 256; addr mod 256] [] = Ok pkg ->
  send pkg respBytes true = Ok (One p) ->
  pldBytes p = rc :: n :: value ->
  0 <= n ->
  getParam addr respBytes = Ok (upto n value)
  /\ len (upto n value) = Z.min n (len value)
  /\ (n <= len value -> len (upto n value) = n)
  /\ (len value < n -> upto n value = value).
Proof.
  intros Ha Hpkg Hsend Hpld Hn. split; [|split; [|split]].
  - unfold getParam, pack_H.
    replace ((0 <=? addr) && (addr <? 65536)) with true.
    2:{ symmetry. apply andb_true_intro.
        split; [apply Z.leb_le|apply Z.ltb_lt]; lia. }
    cbn [bind]. rewrite Hpkg. cbn [bind]. rewrite Hsend. cbn [bind].
    unfold getParam_resp, index, slice. rewrite Hpld. cbn [nth_error bind].
    change (from 2 (rc :: n :: value)) with value.
    replace (2 + n - 2) with n by lia. reflexivity.
  - apply length_upto. exact Hn.
  - intros Hle. rewrite length_upto by exact Hn. lia.
  - intros Hlt. unfold upto. apply firstn_all2. unfold len in Hlt. lia.
Qed.

Lemma getParam_value_witness :
  getParam 0x0028
    [0x52; 0x46; 0x45; 0x01; 0x03; 0x31; 0x02; 0x03; 0x03; 0x00; 0x01; 0x02;
     0x04; 0x67]
  = Ok (upto 1 [0x02])
  /\ len (upto 1 [0x02]) = Z.min 1 (len [0x02])
  /\ (1 <= len [0x02] -> len (upto 1 [0x02]) = 1)
  /\ (len [0x02] < 1 -> upto 1 [0x02] = [0x02]).
Proof.
  apply (getParam_value 0x0028 _ getparam_pkg
           (mkPURPacket [0x03; 0x31] [0x00; 0x01; 0x02]
              [0x52; 0x46; 0x45; 0x01; 0x03; 0x31; 0x02; 0x03; 0x03; 0x00;
               0x01; 0x02; 0x04; 0x67])
           0x00 1 [0x02]).
  - lia.
  - reflexivity.
  - reflexivity.
  - reflexivity.
  - lia.
Defined.

(** C4 as stated fails on the response 52 46 45 01 03 31 02 04 03 00 05 07
    08 04 69: its payload 00 05 07 08 declares five value bytes and holds
    two, and [getParam] returns the two bytes. *)
Lemma getParam_returns_shorter :
  send getparam_pkg
    [0x52; 0x46; 0x45; 0x01; 0x03; 0x31; 0x02; 0x04; 0x03; 0x00; 0x05; 0x07;
     0x08; 0x04; 0x69] true
  = Ok (One (mkPURPacket [0x03; 0x31] [0x00; 0x05; 0x07; 0x08]
               [0x52; 0x46; 0x45; 0x01; 0x03; 0x31; 0x02; 0x04; 0x03; 0x00;
                0x05; 0x07; 0x08; 0x04; 0x69]))
  /\ getParam 0x0028
       [0x52; 0x46; 0x45; 0x01; 0x03; 0x31; 0x02; 0x04; 0x03; 0x00; 0x05;
        0x07; 0x08; 0x04; 0x69]
     = Ok [0x07; 0x08]
  /\ len [0x07; 0x08] < 0x05.
Proof. repeat split. Qed.

(* ================================================================== *)
(** ** Tag reports *)

Lemma find_byte_skip (b : Z) (skip rest : bytes) :
  ~ In b skip -> find_byte b (skip ++ b :: rest) = len skip.
Proof.
  induction skip as [|x skip IH]; intros Hni; cbn [app find_byte].
  - rewrite Z.eqb_refl. reflexivity.
  - replace (x =? b) with false.
    2:{ symmetry. apply Z.eqb_neq. intros ->. apply Hni. left. reflexivity. }
    rewrite IH by (intros Hin; apply Hni; right; exact Hin).
    replace (len skip <? 0) with false.
    2:{ symmetry. apply Z.ltb_ge. unfold len. lia. }
    unfold len. cbn [length]. lia.
Qed.

Lemma from_len_app (a s : bytes) : from (len a) (a ++ s) = s.
Proof.
  unfold from, len. rewrite Nat2Z.id.
  rewrite skipn_app, Nat.sub_diag, skipn_all. reflexivity.
Qed.

Lemma from_len_succ_app (a s : bytes) (x : Z) :
  from (len a + 1) (a ++ x :: s) = s.
Proof.
  replace (len a + 1) with (len (a ++ [x])).
  2:{ unfold len. rewrite length_app. cbn [length]. lia. }
  change (a ++ x :: s) with (a ++ [x] ++ s).
  rewrite app_assoc. apply from_len_app.
Qed.

Lemma from_1 (x : Z) (s : bytes) : from 1 (x :: s) = s.
Proof. reflexivity. Qed.

Lemma from_2 (x y : Z) (s : bytes) : from 2 (x :: y :: s) = s.
Proof. reflexivity. Qed.

Lemma upto_2 (x y : Z) (s : bytes) : upto 2 (x :: y :: s) = [x; y].
Proof. reflexivity. Qed.

(** One pass of the inner loop reads one tag structure. *)
Lemma parseTag_struct (t : tagStruct) (rest : bytes) :
  ~ In 0x01 (ts_skip t) ->
  parseTag (tagStruct_bytes t ++ rest) = Ok (tagStruct_entry t, rest).
Proof.
  intros Hskip. unfold parseTag, tagStruct_bytes, tagStruct_entry.
  repeat rewrite <- app_assoc. cbn [app].
  rewrite (find_byte_skip _ _ _ Hskip), from_len_succ_app.
  cbn [head bind]. rewrite from_1, upto_len_app, from_len_app.
  cbn [head bind Z.eqb Pos.eqb negb].
  rewrite from_1, upto_2, from_2. reflexivity.
Qed.

Lemma parseTags_structs (ts : list tagStruct) :
  Forall (fun t => ~ In 0x01 (ts_skip t)) ts ->
  forall (acc : list tagData) (rest : bytes),
    parseTags (length ts) acc (concat (map tagStruct_bytes ts) ++ rest)
    = Ok (acc ++ map tagStruct_entry ts).
Proof.
  induction 1 as [|t ts Ht _ IH]; intros acc rest; cbn [length parseTags map concat].
  - rewrite app_nil_r. reflexivity.
  - rewrite <- app_assoc, (parseTag_struct t _ Ht). cbn [bind].
    rewrite IH, <- app_assoc. reflexivity.
Qed.

Lemma last_total_cons (m : invMsg) (ms : list invMsg) :
  last_total (m :: ms) = match ms with [] => im_total m | _ :: _ => last_total ms end.
Proof. destruct ms; reflexivity. Qed.

Lemma parsePkgs_msgs (ms : list invMsg) (pkts : list PURPacket) :
  Forall invMsg_wf ms ->
  Forall2 (fun m p => pldBytes p = invMsg_payload m) ms pkts ->
  forall st : tagState,
    parsePkgs pkts st
    = Ok (mkTagState (tags st ++ concat (map invMsg_entries ms))
            (collectedIds st + sum_counts ms)
            (match ms with [] => idCount st | _ :: _ => last_total ms end)).
Proof.
  intros Hwf H2. induction H2 as [|m p ms pkts Hp _ IH]; intros st.
  - cbn [parsePkgs map concat sum_counts fold_right].
    rewrite app_nil_r, Z.add_0_r. destruct st; reflexivity.
  - inversion Hwf as [|? ? Hm Hms]; subst.
    cbn [parsePkgs]. rewrite Hp. unfold invMsg_payload, slice.
    cbn [app]. rewrite from_1.
    replace (3 - 1) with 2 by lia. rewrite upto_2. cbn [unpack_BB bind].
    change (from 3 (im_code m :: im_total m :: Z.of_nat (length (im_structs m))
                    :: concat (map tagStruct_bytes (im_structs m)) ++ im_rest m))
      with (concat (map tagStruct_bytes (im_structs m)) ++ im_rest m).
    rewrite Nat2Z.id, (parseTags_structs _ Hm). cbn [bind].
    rewrite (IH Hms). cbn [tags collectedIds idCount map concat].
    rewrite last_total_cons. unfold invMsg_entries at 2.
    rewrite <- app_assoc.
    replace (collectedIds st + Z.of_nat (length (im_structs m)) + sum_counts ms)
      with (collectedIds st + sum_counts (m :: ms))
      by (cbn [sum_counts fold_right]; fold (sum_counts ms); lia).
    reflexivity.
Qed.

Lemma entries_count (ms : list invMsg) :
  Z.of_nat (length (concat (map invMsg_entries ms))) = sum_counts ms.
Proof.
  induction ms as [|m ms IH]; cbn [map concat sum_counts fold_right].
  - reflexivity.
  - fold (sum_counts ms). rewrite length_app, Nat2Z.inj_add, IH.
    unfold invMsg_entries. rewrite length_map. reflexivity.
Qed.

(** C2, as the code has it: for a response of one or more inventory
    messages whose tag structures are well formed, [parseTagreports] raises
    the [IOError] naming the collected and the expected count exactly when
    the sum of the packet tag counts of all messages differs from the total
    tag count declared in the LAST message; otherwise it returns the entries
    of all tag structures, one each, in the order of the input. *)
Theorem parseTagreports_accounting (ms : list invMsg) (resp : response) :
  ms <> [] ->
  Forall invMsg_wf ms ->
  Forall2 (fun m p => pldBytes p = invMsg_payload m) ms (packets_of resp) ->
  parseTagreports resp
  = (if sum_counts ms =? last_total ms
     then Ok (concat (map invMsg_entries ms))
     else Raise (IOError (incomplete_msg (sum_counts ms) (last_total ms))))
  /\ ((exists e, parseTagreports resp = Raise e)
      <-> sum_counts ms <> last_total ms)
  /\ Z.of_nat (length (concat (map invMsg_entries ms))) = sum_counts ms.
Proof.
  intros Hne Hwf H2.
  assert (E : parseTagreports resp
              = (if sum_counts ms =? last_total ms
                 then Ok (concat (map invMsg_entries ms))
                 else Raise (IOError (incomplete_msg (sum_counts ms)
                                        (last_total ms))))).
  { unfold parseTagreports. fold (packets_of resp).
    rewrite (parsePkgs_msgs ms _ Hwf H2). cbn [bind tags collectedIds idCount].
    destruct ms as [|m ms]; [congruence|].
    rewrite Z.add_0_l. cbn [app].
    destruct (sum_counts (m :: ms) =? last_total (m :: ms)); reflexivity. }
  split; [exact E|]. split; [|apply entries_count].
  rewrite E. destruct (sum_counts ms =? last_total ms) eqn:Q.
  - apply Z.eqb_eq in Q. split; [intros [e He]; discriminate He|contradiction].
  - apply Z.eqb_neq in Q. split; [intros _; exact Q|intros _; eauto].
Qed.

Lemma parseTagreports_accounting_witness :
  (parseTagreports (One (inventory_pkt_of (inventory_msg_two 0x02)))
   = Ok [("ABCD"%string, mkRssi 0x06 0x05); ("EF"%string, mkRssi 0x08 0x07)])
  /\ (parseTagreports (One (inventory_pkt_of (inventory_msg_two 0x03)))
      = Raise (IOError "Only packets for 2 out of 3 tags where received")).
Proof.
  split.
  - refine (proj1 (parseTagreports_accounting [inventory_msg_two 0x02]
                     (One (inventory_pkt_of (inventory_msg_two 0x02))) _ _ _)).
    + discriminate.
    + repeat constructor; simpl; tauto.
    + repeat constructor.
  - refine (proj1 (parseTagreports_accounting [inventory_msg_two 0x03]
                     (One (inventory_pkt_of (inventory_msg_two 0x03))) _ _ _)).
    + discriminate.
    + repeat constructor; simpl; tauto.
    + repeat constructor.
Defined.

(** C2 as stated fails on two messages of one tag each, the first declaring
    a total of two tags and the second a total of three: the packet counts
    sum up to the total of the first message, and [parseTagreports] raises,
    naming the total of the second; with the messages in the other order the
    sum differs from the total of the first and the tags are returned. *)
Lemma parseTagreports_counts_against_last :
  sum_counts [inventory_msg1; inventory_msg2]
  = first_total [inventory_msg1; inventory_msg2]
  /\ parseTagreports (Many [inventory_pkt_of inventory_msg1;
                            inventory_pkt_of inventory_msg2])
     = Raise (IOError "Only packets for 2 out of 3 tags where received")
  /\ sum_counts [inventory_msg2; inventory_msg1]
     <> first_total [inventory_msg2; inventory_msg1]
  /\ parseTagreports (Many [inventory_pkt_of inventory_msg2;
                            inventory_pkt_of inventory_msg1])
     = Ok [("EF"%string, mkRssi 0x08 0x07); ("ABCD"%string, mkRssi 0x06 0x05)].
Proof.
  split; [reflexivity|]. split; [reflexivity|]. split; [discriminate|reflexivity].
Qed.

(* ================================================================== *)
(** ** More on the message codec *)

Lemma createMsg_inv (cmd pld frame : bytes) :
  createMsg cmd pld = Ok frame ->
  frame = frame_body cmd pld ++ [0x04; xor_all (frame_body cmd pld ++ [0x04])]
  /\ is_byteb (len pld) = true.
Proof.
  unfold createMsg, bytes1.
  destruct (is_byteb (len pld)); [|discriminate]. cbn [bind].
  assert (E : (if truthy pld
               then (((((RFE ++ [0x01]) ++ cmd) ++ [0x02]) ++ [len pld]) ++ [0x03])
                    ++ pld
               else (((RFE ++ [0x01]) ++ cmd) ++ [0x02]) ++ [len pld])
              = frame_body cmd pld).
  { unfold frame_body. destruct pld; cbn [truthy];
      repeat rewrite <- app_assoc; reflexivity. }
  rewrite E. rewrite calcChecksum_xor.
  2:{ rewrite frame_body_cons. discriminate. }
  cbn [bind]. destruct (is_byteb _); [|discriminate]. cbn [bind].
  intros H. injection H as <-. rewrite <- app_assoc. split; reflexivity.
Qed.

Lemma is_byteb_len (s : bytes) :
  is_byteb (len s) = true <-> (length s <= 255)%nat.
Proof.
  unfold is_byteb, len. rewrite andb_true_iff, Z.leb_le, Z.ltb_lt. lia.
Qed.

(** [createMsg] on bytes succeeds exactly for a payload of at most 255
    bytes; a longer payload raises the [ValueError] of [bytes([len(...)])]. *)
Theorem createMsg_payload_limit (cmd pld : bytes) :
  is_bytes cmd -> is_bytes pld ->
  ((exists frame, createMsg cmd pld = Ok frame) <-> (length pld <= 255)%nat)
  /\ ((255 < length pld)%nat ->
      createMsg cmd pld = Raise (ValueError "bytes must be in range(0, 256)")).
Proof.
  intros Hc Hp. split; [split|].
  - intros [frame H]. apply createMsg_inv in H. apply is_byteb_len. tauto.
  - intros Hl. eexists. apply createMsg_ok; assumption.
  - intros Hl. unfold createMsg, bytes1.
    destruct (is_byteb (len pld)) eqn:E; [|reflexivity].
    apply is_byteb_len in E. lia.
Qed.

Lemma createMsg_payload_limit_witness :
  ((exists frame, createMsg [0x02; 0x81] (repeat 0x00 256) = Ok frame)
   <-> Nat.le (length (repeat 0x00 256)) 255)
  /\ (Nat.lt 255 (length (repeat 0x00 256)) ->
      createMsg [0x02; 0x81] (repeat 0x00 256)
      = Raise (ValueError "bytes must be in range(0, 256)")).
Proof.
  apply createMsg_payload_limit; apply byte_list_ok; reflexivity.
Defined.

(** The checksum byte of a message is determined by the bytes before it:
    a sequence that is not empty, followed by one more byte, has checksum 0
    exactly when that byte is the checksum of the sequence.  The checksum of
    the empty sequence is an [IndexError]. *)
Theorem calcChecksum_last_byte :
  calcChecksum [] = Raise IndexError
  /\ forall (s : bytes) (c : Z),
      s <> [] ->
      (calcChecksum (s ++ [c]) = Ok 0 <-> calcChecksum s = Ok c).
Proof.
  split; [reflexivity|]. intros s c Hs.
  rewrite (calcChecksum_xor s Hs), calcChecksum_xor.
  2:{ destruct s; discriminate. }
  rewrite xor_all_app. cbn [xor_all fold_right]. rewrite Z.lxor_0_r.
  split; intros H; injection H as H; f_equal.
  - apply Z.lxor_eq. exact H.
  - rewrite H. apply Z.lxor_nilpotent.
Qed.

Lemma calcChecksum_last_byte_witness :
  calcChecksum ([0x52; 0x46; 0x45] ++ [0x51]) = Ok 0
  <-> calcChecksum [0x52; 0x46; 0x45] = Ok 0x51.
Proof. apply (proj2 calcChecksum_last_byte). discriminate. Defined.

Lemma lxor_cancel_r (x y b : Z) : Z.lxor x b = Z.lxor y b -> x = y.
Proof.
  intros H. apply (f_equal (fun t => Z.lxor t b)) in H.
  rewrite !Z.lxor_assoc, !Z.lxor_nilpotent, !Z.lxor_0_r in H. exact H.
Qed.

Lemma parseMsg_wrong_checksum (msg : bytes) :
  (8 <= length msg)%nat -> xor_all msg <> 0 ->
  parseMsg msg = Raise (ValueError "Wrong checksum").
Proof.
  intros Hl Hx. destruct (long_inv msg Hl) as (b0&b1&b2&b3&b4&b5&b6&b7&r&->).
  rewrite parseMsg_long. apply Z.eqb_neq in Hx. rewrite Hx. reflexivity.
Qed.

(** Tampering: when one byte of a message of 8 bytes or more whose XOR is 0
    is replaced by another value, at any position, [parseMsg] raises "Wrong
    checksum". *)
Theorem parseMsg_detects_changed_byte (before after : bytes) (x y : Z) :
  (8 <= length (before ++ x :: after))%nat ->
  xor_all (before ++ x :: after) = 0 ->
  x <> y ->
  parseMsg (before ++ y :: after) = Raise (ValueError "Wrong checksum").
Proof.
  intros Hl Hx Hxy. apply parseMsg_wrong_checksum.
  - rewrite length_app in *. cbn [length] in *. exact Hl.
  - intros Hy. apply Hxy.
    rewrite xor_all_app in Hx, Hy. cbn [xor_all fold_right] in Hx, Hy.
    fold (xor_all after) in Hx, Hy.
    apply Z.lxor_eq in Hx, Hy. rewrite Hx in Hy.
    apply (lxor_cancel_r x y (xor_all after)). exact Hy.
Qed.

Lemma parseMsg_detects_changed_byte_witness :
  parseMsg ([0x52; 0x46; 0x45; 0x01; 0x01] ++ 0x02 :: [0x02; 0x00; 0x04; 0x56])
  = Raise (ValueError "Wrong checksum").
Proof.
  apply (parseMsg_detects_changed_byte _ _ 0x01 0x02).
  - simpl. lia.
  - reflexivity.
  - discriminate.
Defined.

(** Bytes behind a complete frame are not rejected as such: a frame of
    [createMsg] followed by any bytes parses to the command and payload of
    the frame when the XOR of the added bytes is 0, and is a "Wrong
    checksum" when it is not. *)
Theorem parseMsg_trailing_bytes (cmd pld frame extra : bytes) :
  length cmd = 2%nat ->
  createMsg cmd pld = Ok frame ->
  parseMsg (frame ++ extra)
  = if xor_all extra =? 0 then Ok (cmd, pld)
    else Raise (ValueError "Wrong checksum").
Proof.
  intros Hc Hf. apply createMsg_inv in Hf. destruct Hf as [-> _].
  assert (Hx : xor_all ((frame_body cmd pld
                          ++ [0x04; xor_all (frame_body cmd pld ++ [0x04])])
                         ++ extra) = xor_all extra).
  { rewrite xor_all_app.
    change [0x04; xor_all (frame_body cmd pld ++ [0x04])]
      with ([0x04] ++ [xor_all (frame_body cmd pld ++ [0x04])]).
    rewrite app_assoc, xor_all_closed. apply Z.lxor_0_l. }
  destruct (xor_all extra =? 0) eqn:E.
  - apply Z.eqb_eq in E. rewrite <- app_assoc.
    apply parseMsg_body; [exact Hc|].
    rewrite app_assoc, Hx. exact E.
  - apply Z.eqb_neq in E. apply parseMsg_wrong_checksum.
    + rewrite !length_app, frame_body_cons. cbn [length].
      rewrite length_app. cbn [length]. lia.
    + rewrite Hx. exact E.
Qed.

Lemma parseMsg_trailing_bytes_witness :
  parseMsg ([0x52; 0x46; 0x45; 0x01; 0x01; 0x01; 0x02; 0x00; 0x04; 0x56]
            ++ [0x07; 0x07])
  = if xor_all [0x07; 0x07] =? 0 then Ok ([0x01; 0x01], [])
    else Raise (ValueError "Wrong checksum").
Proof.
  apply parseMsg_trailing_bytes; reflexivity.
Defined.

Lemma createMsg_then_parseMsg (cmd pld : bytes) :
  is_bytes cmd -> length cmd = 2%nat ->
  is_bytes pld -> (length pld <= 255)%nat ->
  exists frame, createMsg cmd pld = Ok frame /\ parseMsg frame = Ok (cmd, pld).
Proof.
  intros Hc H2 Hp Hl. eexists. split; [apply createMsg_ok; assumption|].
  apply parseMsg_body; [assumption|].
  change [0x04; xor_all (frame_body cmd pld ++ [0x04])]
    with ([0x04] ++ [xor_all (frame_body cmd pld ++ [0x04])]).
  rewrite app_assoc. apply xor_all_closed.
Qed.

Lemma is_bytes_upto (n : Z) (s : bytes) : is_bytes s -> is_bytes (upto n s).
Proof.
  unfold is_bytes, upto. intros H.
  rewrite <- (firstn_skipn (Z.to_nat n) s) in H.
  apply Forall_app in H. tauto.
Qed.

(** What [parseMsg] accepts can be sent again: the command it returns has
    exactly 2 bytes and the payload at most 255, [createMsg] makes a frame
    of them, and that frame parses to the same pair; when the payload has
    the declared length, the input begins with the body of that frame. *)
Theorem parseMsg_reencode (msg cmd pld : bytes) :
  is_bytes msg ->
  parseMsg msg = Ok (cmd, pld) ->
  length cmd = 2%nat
  /\ (length pld <= 255)%nat
  /\ is_bytes cmd /\ is_bytes pld
  /\ (exists frame, createMsg cmd pld = Ok frame
                    /\ parseMsg frame = Ok (cmd, pld))
  /\ (len pld = nth 7 msg 0 -> exists rest, msg = frame_body cmd pld ++ rest).
Proof.
  intros Hb H.
  assert (Hl : (8 <= length msg)%nat).
  { destruct (Nat.lt_ge_cases (length msg) 8) as [Hs|Hl]; [|exact Hl].
    rewrite (parseMsg_short msg Hs) in H. discriminate H. }
  destruct (long_inv msg Hl) as (b0&b1&b2&b3&b4&b5&b6&b7&r&->).
  rewrite parseMsg_long in H.
  destruct (negb (xor_all _ =? 0)); [discriminate H|].
  destruct (bytes_eqb [b0; b1; b2; b3] RFE01) eqn:Hst; cbn [negb] in H;
    [|discriminate H].
  apply bytes_eqb_eq in Hst. injection Hst as -> -> -> ->.
  destruct (b6 =? 2) eqn:H6; cbn [negb] in H; [|discriminate H].
  apply Z.eqb_eq in H6. subst b6.
  unfold is_bytes in Hb.
  repeat (apply Forall_cons_iff in Hb; destruct Hb as [? Hb]).
  assert (Hcmd : is_bytes [b4; b5]).
  { constructor; [assumption|]. constructor; [assumption|constructor]. }
  assert (Hfacts : cmd = [b4; b5] /\ is_bytes pld /\ (length pld <= 255)%nat
                   /\ (len pld = b7 ->
                       exists rest,
                         0x52 :: 0x46 :: 0x45 :: 0x01 :: b4 :: b5 :: 0x02 :: b7 :: r
                         = frame_body [b4; b5] pld ++ rest)).
  { destruct (b7 >? 0) eqn:G.
    - destruct r as [|m r]; [discriminate H|].
      destruct (m =? 3) eqn:Hm; cbn [negb] in H; [|discriminate H].
      apply Z.eqb_eq in Hm. subst m. injection H as <- <-.
      apply Forall_cons_iff in Hb. destruct Hb as [_ Hb].
      split; [reflexivity|]. split; [apply is_bytes_upto; exact Hb|]. split.
      + unfold upto. rewrite length_firstn. unfold is_byte in *. lia.
      + intros E. exists (from b7 r).
        rewrite frame_body_cons. rewrite E.
        destruct (upto b7 r) as [|p0 pl] eqn:Eu.
        * unfold len in E. cbn [length] in E. apply Z.gtb_lt in G. lia.
        * rewrite <- Eu. cbn [app]. do 9 f_equal.
          unfold upto, from. symmetry. apply firstn_skipn.
    - injection H as <- <-. rewrite Z.gtb_ltb, Z.ltb_ge in G.
      split; [reflexivity|]. split; [constructor|]. split; [cbn [length]; lia|].
      intros E. exists r. rewrite frame_body_cons. rewrite E. reflexivity. }
  destruct Hfacts as (-> & Hp & Hlen & Hpre).
  split; [reflexivity|]. split; [exact Hlen|]. split; [exact Hcmd|].
  split; [exact Hp|]. split; [|exact Hpre].
  apply createMsg_then_parseMsg; try assumption. reflexivity.
Qed.

Lemma parseMsg_reencode_witness :
  length [0x50; 0x01] = 2%nat
  /\ Nat.le (length [0x00; 0x07]) 255
  /\ is_bytes [0x50; 0x01] /\ is_bytes [0x00; 0x07]
  /\ (exists frame, createMsg [0x50; 0x01] [0x00; 0x07] = Ok frame
                    /\ parseMsg frame = Ok ([0x50; 0x01], [0x00; 0x07]))
  /\ (len [0x00; 0x07]
      = nth 7 [0x52; 0x46; 0x45; 0x01; 0x50; 0x01; 0x02; 0x02; 0x03; 0x00;
               0x07; 0x04; 0x01] 0 ->
      exists rest,
        [0x52; 0x46; 0x45; 0x01; 0x50; 0x01; 0x02; 0x02; 0x03; 0x00; 0x07;
         0x04; 0x01]
        = frame_body [0x50; 0x01] [0x00; 0x07] ++ rest).
Proof.
  apply parseMsg_reencode.
  - apply byte_list_ok. reflexivity.
  - reflexivity.
Defined.

(** A packet made from a 2-byte command and a payload (whatever message
    bytes are passed along) keeps both and holds their frame, and the packet
    made from that frame alone is the same packet; without command bytes and
    without message bytes the constructor raises [AttributeError], also when
    a payload is given. *)
Theorem PURPacket_init_roundtrip :
  (forall cmd pld msg : bytes,
      is_bytes cmd -> length cmd = 2%nat ->
      is_bytes pld -> (length pld <= 255)%nat ->
      exists p, PURPacket_init cmd pld msg = Ok p
                /\ cmdBytes p = cmd /\ pldBytes p = pld
                /\ createMsg cmd pld = Ok (msgBytes p)
                /\ PURPacket_init [] [] (msgBytes p) = Ok p)
  /\ (forall pld : bytes,
         PURPacket_init [] pld []
         = Raise (AttributeError
                    "Either command bytes or message bytes must be passed")).
Proof.
  split; [|reflexivity].
  intros cmd pld msg Hc H2 Hp Hl.
  destruct (createMsg_then_parseMsg cmd pld Hc H2 Hp Hl) as (frame & Hf & Hparse).
  exists (mkPURPacket cmd pld frame).
  assert (Ht : truthy cmd = true) by (destruct cmd; [discriminate H2|reflexivity]).
  unfold PURPacket_init. rewrite Ht, Hf. cbn [bind cmdBytes pldBytes msgBytes truthy].
  repeat split.
  assert (Hne : truthy frame = true).
  { apply createMsg_inv in Hf. destruct Hf as [-> _].
    rewrite frame_body_cons. reflexivity. }
  rewrite Hne, Hparse. reflexivity.
Qed.

Lemma PURPacket_init_roundtrip_witness :
  exists p, PURPacket_init [0x03; 0x31] [0x00; 0x28] [0xFF] = Ok p
            /\ cmdBytes p = [0x03; 0x31] /\ pldBytes p = [0x00; 0x28]
            /\ createMsg [0x03; 0x31] [0x00; 0x28] = Ok (msgBytes p)
            /\ PURPacket_init [] [] (msgBytes p) = Ok p.
Proof.
  apply (proj1 PURPacket_init_roundtrip).
  - apply byte_list_ok. reflexivity.
  - reflexivity.
  - apply byte_list_ok. reflexivity.
  - simpl. lia.
Defined.

(** Framing is unambiguous: two calls of [createMsg] with 2-byte commands
    that give the same frame were given the same command and payload. *)
Theorem createMsg_injective (cmd1 pld1 cmd2 pld2 frame : bytes) :
  length cmd1 = 2%nat -> length cmd2 = 2%nat ->
  createMsg cmd1 pld1 = Ok frame ->
  createMsg cmd2 pld2 = Ok frame ->
  cmd1 = cmd2 /\ pld1 = pld2.
Proof.
  intros H1 H2 E1 E2.
  apply createMsg_inv in E1, E2. destruct E1 as [E1 _], E2 as [E2 _].
  assert (P1 : parseMsg frame = Ok (cmd1, pld1)).
  { rewrite E1. apply parseMsg_body; [exact H1|].
    change [0x04; xor_all (frame_body cmd1 pld1 ++ [0x04])]
      with ([0x04] ++ [xor_all (frame_body cmd1 pld1 ++ [0x04])]).
    rewrite app_assoc. apply xor_all_closed. }
  assert (P2 : parseMsg frame = Ok (cmd2, pld2)).
  { rewrite E2. apply parseMsg_body; [exact H2|].
    change [0x04; xor_all (frame_body cmd2 pld2 ++ [0x04])]
      with ([0x04] ++ [xor_all (frame_body cmd2 pld2 ++ [0x04])]).
    rewrite app_assoc. apply xor_all_closed. }
  rewrite P1 in P2. injection P2 as -> ->. split; reflexivity.
Qed.

Lemma createMsg_injective_witness :
  [0x01; 0x10] = [0x01; 0x10] /\ ([] : bytes) = [].
Proof.
  apply (createMsg_injective [0x01; 0x10] [] [0x01; 0x10] []
           [0x52; 0x46; 0x45; 0x01; 0x01; 0x10; 0x02; 0x00; 0x04; 0x47]);
    reflexivity.
Defined.

(* ================================================================== *)
(** ** More on [send] *)

(** The packets of a buffer in which bytes that hold no delimiter precede
    the frames. *)
Lemma respPkgs_of_junk_frames (pkg : PURPacket) (junk : bytes)
      (rs : list bytes) (pkts : list PURPacket) :
  upto 6 (msgBytes pkg) <> [] ->
  (forall i, occurs_at (upto 6 (msgBytes pkg))
               (junk ++ concat (map (app (upto 6 (msgBytes pkg))) rs)) i ->
             In i (offsets (upto 6 (msgBytes pkg)) (length junk) rs)) ->
  Forall2 (fun r p => decodes_to (upto 6 (msgBytes pkg) ++ r) p) rs pkts ->
  respPkgs_of pkg (junk ++ concat (map (app (upto 6 (msgBytes pkg))) rs))
  = Ok pkts.
Proof.
  intros Hne Hocc Hdec. unfold respPkgs_of.
  rewrite (split_nonempty _ _ Hne). cbn [bind].
  rewrite (split_fuel_frames (upto 6 (msgBytes pkg)) rs Hne junk _
             (Nat.le_refl _) Hocc).
  cbn [skipn]. apply mapM_decode; assumption.
Qed.

Lemma send_of_respPkgs (pkg : PURPacket) (respBytes : bytes)
      (ps : list PURPacket) (check : bool) :
  respPkgs_of pkg respBytes = Ok ps ->
  (check = true -> Forall (fun p => checkResp p = Ok tt) ps) ->
  send pkg respBytes check = Ok (response_of ps).
Proof.
  intros Hps Hchk. unfold send. rewrite Hps. cbn [bind].
  replace (if check then forM_ checkResp ps else Ok tt) with (Ok tt).
  2:{ destruct check; [|reflexivity].
      symmetry. apply forM_checkResp_ok. apply Hchk. reflexivity. }
  cbn [bind]. destruct ps as [|p [|q ps]]; reflexivity.
Qed.

(** When the first 6 bytes of the sent message occur nowhere in the
    received bytes (nothing was received, or only frames of other commands),
    [send] raises nothing and returns the empty list, with and without
    [check]. *)
Theorem send_without_echo (pkg : PURPacket) (respBytes : bytes) (check : bool) :
  upto 6 (msgBytes pkg) <> [] ->
  (forall i, ~ occurs_at (upto 6 (msgBytes pkg)) respBytes i) ->
  send pkg respBytes check = Ok (Many []).
Proof.
  intros Hne Hno.
  apply (send_of_respPkgs pkg respBytes [] check).
  - pose proof (respPkgs_of_junk_frames pkg respBytes [] [] Hne) as H.
    cbn [map concat] in H. rewrite app_nil_r in H. apply H.
    + intros i Hi. exact (Hno i Hi).
    + constructor.
  - intros _. constructor.
Qed.

Lemma occurs_at_nil_inv (sep : bytes) (i : nat) :
  sep <> [] -> ~ occurs_at sep [] i.
Proof.
  intros Hne H. apply occurs_at_nil in H. unfold occurs_at in H.
  cbn [skipn] in H. rewrite firstn_nil in H. congruence.
Qed.

Lemma send_without_echo_witness :
  send inventory_pkg [] true = Ok (Many []).
Proof.
  apply send_without_echo.
  - vm_compute. discriminate.
  - intros i. apply occurs_at_nil_inv. vm_compute. discriminate.
Defined.

(** Bytes in front of the first frame are dropped: when the first 6 bytes
    of the sent message occur in the received bytes only where the frames
    begin, behind any leading bytes, [send] returns the packets of the
    frames as if the leading bytes were not there. *)
Theorem send_skips_leading_bytes (pkg : PURPacket) (junk : bytes)
        (rs : list bytes) (pkts : list PURPacket) (check : bool) :
  upto 6 (msgBytes pkg) <> [] ->
  (forall i, occurs_at (upto 6 (msgBytes pkg))
               (junk ++ concat (map (app (upto 6 (msgBytes pkg))) rs)) i ->
             In i (offsets (upto 6 (msgBytes pkg)) (length junk) rs)) ->
  Forall2 (fun r p => decodes_to (upto 6 (msgBytes pkg) ++ r) p) rs pkts ->
  (check = true -> Forall (fun p => checkResp p = Ok tt) pkts) ->
  send pkg (junk ++ concat (map (app (upto 6 (msgBytes pkg))) rs)) check
  = Ok (response_of pkts).
Proof.
  intros Hne Hocc Hdec Hchk.
  apply send_of_respPkgs; [|exact Hchk].
  apply respPkgs_of_junk_frames; assumption.
Qed.

Lemma send_skips_leading_bytes_witness :
  send inventory_pkg
       ([0x00; 0x52; 0x46]
        ++ concat (map (app (upto 6 (msgBytes inventory_pkg)))
                       [inventory_rest1])) true
  = Ok (response_of [inventory_pkt1]).
Proof.
  apply send_skips_leading_bytes.
  - vm_compute. discriminate.
  - intros i H. apply occurrences_complete in H.
    + exact H.
    + vm_compute. discriminate.
  - constructor; [split; reflexivity|constructor].
  - intros _. constructor; [reflexivity|constructor].
Defined.

Lemma PURPacket_init_msg_raise (frame : bytes) (e : exn) :
  frame <> [] -> parseMsg frame = Raise e ->
  PURPacket_init [] [] frame = Raise e.
Proof.
  intros Hne H. unfold PURPacket_init. cbn [truthy].
  destruct frame; [congruence|]. cbn [truthy]. rewrite H. reflexivity.
Qed.

Lemma mapM_decode_raise (start : bytes) (rs1 : list bytes)
      (pkts1 : list PURPacket) (r : bytes) (rs2 : list bytes) (e : exn) :
  start <> [] ->
  Forall2 (fun r p => decodes_to (start ++ r) p) rs1 pkts1 ->
  parseMsg (start ++ r) = Raise e ->
  mapM (fun part => PURPacket_init [] [] (start ++ part)) (rs1 ++ r :: rs2)
  = Raise e.
Proof.
  intros Hne H2 He. induction H2 as [|r1 p1 rs1 pkts1 Hd _ IH]; cbn [app mapM].
  - rewrite (PURPacket_init_msg_raise _ e); [reflexivity| |exact He].
    destruct start; [congruence|discriminate].
  - rewrite (PURPacket_init_msg _ p1);
      [|destruct start; [congruence|discriminate]|exact Hd].
    cbn [bind]. rewrite IH. reflexivity.
Qed.

(** One bad frame fails the whole exchange, and before any return code is
    looked at: when the frames in front of it parse and the frame itself
    makes [parseMsg] raise, [send] raises that exception, with and without
    [check] and whatever the return codes of the other frames are. *)
Theorem send_bad_frame (pkg : PURPacket) (rs1 : list bytes)
        (pkts1 : list PURPacket) (r : bytes) (rs2 : list bytes)
        (e : exn) (check : bool) :
  upto 6 (msgBytes pkg) <> [] ->
  (forall i, occurs_at (upto 6 (msgBytes pkg))
               (concat (map (app (upto 6 (msgBytes pkg))) (rs1 ++ r :: rs2))) i ->
             In i (offsets (upto 6 (msgBytes pkg)) 0 (rs1 ++ r :: rs2))) ->
  Forall2 (fun r p => decodes_to (upto 6 (msgBytes pkg) ++ r) p) rs1 pkts1 ->
  parseMsg (upto 6 (msgBytes pkg) ++ r) = Raise e ->
  send pkg (concat (map (app (upto 6 (msgBytes pkg))) (rs1 ++ r :: rs2))) check
  = Raise e.
Proof.
  intros Hne Hocc Hdec He. unfold send, respPkgs_of.
  rewrite (split_nonempty _ _ Hne). cbn [bind].
  pose proof (split_fuel_frames (upto 6 (msgBytes pkg)) (rs1 ++ r :: rs2) Hne []
                (length (concat (map (app (upto 6 (msgBytes pkg)))
                                     (rs1 ++ r :: rs2))))
                (Nat.le_refl _) Hocc) as Hsplit.
  cbn [app] in Hsplit. rewrite Hsplit. cbn [skipn].
  rewrite (mapM_decode_raise _ rs1 pkts1 r rs2 e Hne Hdec He). reflexivity.
Qed.

Lemma send_bad_frame_witness :
  send getparam_pkg
       (concat (map (app (upto 6 (msgBytes getparam_pkg)))
                    ([[0x02; 0x01; 0x03; 0x52; 0x04; 0x34]]
                     ++ [0x02; 0x01; 0x03; 0x00; 0x04; 0x67] :: []))) true
  = Raise (ValueError "Wrong checksum").
Proof.
  apply (send_bad_frame getparam_pkg _ [getparam_pkt 0x52]).
  - vm_compute. discriminate.
  - intros i H. apply occurrences_complete in H.
    + exact H.
    + vm_compute. discriminate.
  - constructor; [split; reflexivity|constructor].
  - reflexivity.
Defined.

(** With [check], the exception of [send] is that of the first packet, in
    the order of the buffer, whose payload begins with an error code: its
    message names that packet and the description of its code, and the
    packets behind it are not looked at. *)
Theorem send_reports_first_error (pkg : PURPacket) (respBytes : bytes)
        (ps1 : list PURPacket) (p : PURPacket) (ps2 : list PURPacket)
        (code : Z) (rest : bytes) :
  respPkgs_of pkg respBytes = Ok (ps1 ++ p :: ps2) ->
  Forall (fun q => checkResp q = Ok tt) ps1 ->
  pldBytes p = code :: rest ->
  error_code code ->
  exists descr,
    retCodeDescr code = Some descr
    /\ send pkg respBytes true = Raise (IOError (problem_msg p descr)).
Proof.
  intros Hps H1 Hpld Hcode.
  destruct (retCodeDescr_error code Hcode) as [descr Hd].
  exists descr. split; [exact Hd|].
  unfold send. rewrite Hps. cbn [bind].
  rewrite (forM_checkResp_first ps1 p ps2 (IOError (problem_msg p descr)) H1).
  - reflexivity.
  - apply checkResp_raise. exists code, rest, descr. tauto.
Qed.

Lemma send_reports_first_error_witness :
  exists descr,
    retCodeDescr 0xA3 = Some descr
    /\ send getparam_pkg (getparam_frame 0x00 ++ getparam_frame 0xA3
                          ++ getparam_frame 0x52) true
       = Raise (IOError (problem_msg (getparam_pkt 0xA3) descr)).
Proof.
  apply (send_reports_first_error getparam_pkg _ [getparam_pkt 0x00]
           (getparam_pkt 0xA3) [getparam_pkt 0x52] 0xA3 []).
  - reflexivity.
  - constructor; [reflexivity|constructor].
  - reflexivity.
  - unfold error_code. lia.
Defined.

(** The failures of [getParam]: an address outside 0..65535 raises
    [struct.error] whatever the device answers; a response of no packet or
    of several packets raises [AttributeError], since [send] returned a
    list; a single packet whose payload has fewer than 2 bytes raises
    [IndexError]. *)
Theorem getParam_failures (addr : Z) (respBytes : bytes) :
  ((addr < 0 \/ 65536 <= addr) ->
   Reader.getParam addr respBytes = Raise StructError)
  /\ (forall pkg ps,
         0 <= addr < 65536 ->
         PURPacket_init [0x03; 0x31] [addr / 256; addr mod 256] [] = Ok pkg ->
         send pkg respBytes true = Ok (Many ps) ->
         Reader.getParam addr respBytes
         = Raise (AttributeError "'list' object has no attribute 'pldBytes'"))
  /\ (forall pkg p,
         0 <= addr < 65536 ->
         PURPacket_init [0x03; 0x31] [addr / 256; addr mod 256] [] = Ok pkg ->
         send pkg respBytes true = Ok (One p) ->
         (length (pldBytes p) < 2)%nat ->
         Reader.getParam addr respBytes = Raise IndexError).
Proof.
  assert (Hin : 0 <= addr < 65536 -> (0 <=? addr) && (addr <? 65536) = true).
  { intros H. apply andb_true_intro.
    split; [apply Z.leb_le|apply Z.ltb_lt]; lia. }
  split; [|split].
  - intros H. unfold Reader.getParam, pack_H.
    replace ((0 <=? addr) && (addr <? 65536)) with false; [reflexivity|].
    symmetry. apply andb_false_iff.
    destruct H; [left; apply Z.leb_gt|right; apply Z.ltb_ge]; lia.
  - intros pkg ps Ha Hpkg Hsend. unfold Reader.getParam, pack_H.
    rewrite (Hin Ha). cbn [bind]. rewrite Hpkg. cbn [bind].
    rewrite Hsend. reflexivity.
  - intros pkg p Ha Hpkg Hsend Hlen. unfold Reader.getParam, pack_H.
    rewrite (Hin Ha). cbn [bind]. rewrite Hpkg. cbn [bind].
    rewrite Hsend. cbn [bind getParam_resp]. unfold index.
    destruct (pldBytes p) as [|a [|b l]]; cbn [length] in Hlen;
      [reflexivity|reflexivity|lia].
Qed.

Lemma getParam_failures_witness :
  Reader.getParam 0x10000 [] = Raise StructError
  /\ Reader.getParam 0x0028 []
     = Raise (AttributeError "'list' object has no attribute 'pldBytes'")
  /\ Reader.getParam 0x0028 (getparam_frame 0x00) = Raise IndexError.
Proof.
  destruct (getParam_failures 0x10000 []) as (H1 & _ & _).
  destruct (getParam_failures 0x0028 []) as (_ & H2 & _).
  destruct (getParam_failures 0x0028 (getparam_frame 0x00)) as (_ & _ & H3).
  split; [|split].
  - apply H1. right. lia.
  - apply (H2 getparam_pkg []); [lia|reflexivity|reflexivity].
  - apply (H3 getparam_pkg (getparam_pkt 0x00));
      [lia|reflexivity|reflexivity|simpl; lia].
Defined.

(* ================================================================== *)
(** ** More on the tag reports *)

Lemma parseTags_structs_then (ts : list tagStruct) (k : nat) :
  Forall (fun t => ~ In 0x01 (ts_skip t)) ts ->
  forall (acc : list tagData) (rest : bytes),
    parseTags (length ts + k) acc (concat (map tagStruct_bytes ts) ++ rest)
    = parseTags k (acc ++ map tagStruct_entry ts) rest.
Proof.
  induction 1 as [|t ts Ht _ IH]; intros acc rest;
    cbn [length Nat.add parseTags map concat].
  - rewrite app_nil_r. reflexivity.
  - rewrite <- app_assoc, (parseTag_struct t _ Ht). cbn [bind].
    rewrite IH, <- app_assoc. reflexivity.
Qed.

Lemma parsePkgs_app (a b : list PURPacket) :
  forall st : tagState,
    parsePkgs (a ++ b) st = (st' <- parsePkgs a st ;; parsePkgs b st').
Proof.
  induction a as [|p a IH]; intros st; cbn [app parsePkgs bind].
  - reflexivity.
  - destruct (unpack_BB _) as [[t c]|e]; cbn [bind]; [|reflexivity].
    destruct (parseTags _ _ _) as [tg|e]; cbn [bind]; [|reflexivity].
    apply IH.
Qed.

(** The packets [pkts] of well-formed messages, then a packet on which one
    pass of the outer loop raises [e]: the exception of
    [parseTagreports]. *)
Lemma parseTagreports_raise_at (ms : list invMsg) (pkts : list PURPacket)
      (p : PURPacket) (ps2 : list PURPacket) (resp : response) (e : exn) :
  Forall invMsg_wf ms ->
  Forall2 (fun m q => pldBytes q = invMsg_payload m) ms pkts ->
  packets_of resp = pkts ++ p :: ps2 ->
  (forall st, parsePkgs [p] st = Raise e) ->
  parseTagreports resp = Raise e.
Proof.
  intros Hwf H2 Hresp Hp. unfold parseTagreports. fold (packets_of resp).
  rewrite Hresp, parsePkgs_app, (parsePkgs_msgs ms pkts Hwf H2). cbn [bind].
  change (p :: ps2) with ([p] ++ ps2). rewrite parsePkgs_app, Hp. reflexivity.
Qed.

(** A packet whose payload has fewer than 3 bytes, behind any number of
    well-formed inventory messages, makes [parseTagreports] raise
    [struct.error]; the tags read before are not returned. *)
Theorem parseTagreports_short_payload (ms : list invMsg)
        (pkts : list PURPacket) (p : PURPacket) (ps2 : list PURPacket)
        (resp : response) :
  Forall invMsg_wf ms ->
  Forall2 (fun m q => pldBytes q = invMsg_payload m) ms pkts ->
  packets_of resp = pkts ++ p :: ps2 ->
  (length (pldBytes p) < 3)%nat ->
  parseTagreports resp = Raise StructError.
Proof.
  intros Hwf H2 Hresp Hlen.
  apply (parseTagreports_raise_at ms pkts p ps2 resp _ Hwf H2 Hresp).
  intros st. cbn [parsePkgs].
  destruct (pldBytes p) as [|a [|b [|c l]]]; cbn [length] in Hlen;
    try reflexivity. lia.
Qed.

Lemma parseTagreports_short_payload_witness :
  parseTagreports (Many ([inventory_pkt_of inventory_msg1]
                         ++ getparam_pkt 0x00 :: []))
  = Raise StructError.
Proof.
  apply (parseTagreports_short_payload [inventory_msg1]
           [inventory_pkt_of inventory_msg1] (getparam_pkt 0x00) []).
  - repeat constructor; simpl; tauto.
  - repeat constructor.
  - reflexivity.
  - simpl. lia.
Defined.

(** A tag structure whose byte behind the id is not the RSSI marker 0x02,
    behind well-formed structures of a packet that announces it, makes
    [parseTagreports] raise "Wrong RSSI start". *)
Theorem parseTagreports_wrong_rssi_marker (ms : list invMsg)
        (pkts : list PURPacket) (p : PURPacket) (ps2 : list PURPacket)
        (resp : response) (rc total count : Z) (ts : list tagStruct)
        (skip id rest : bytes) (marker : Z) :
  Forall invMsg_wf ms ->
  Forall2 (fun m q => pldBytes q = invMsg_payload m) ms pkts ->
  packets_of resp = pkts ++ p :: ps2 ->
  pldBytes p = [rc; total; count] ++ concat (map tagStruct_bytes ts)
               ++ skip ++ [0x01; len id] ++ id ++ marker :: rest ->
  Forall (fun t => ~ In 0x01 (ts_skip t)) ts ->
  ~ In 0x01 skip ->
  Z.of_nat (length ts) < count ->
  marker <> 0x02 ->
  parseTagreports resp = Raise (SyntaxError "Wrong RSSI start").
Proof.
  intros Hwf H2 Hresp Hpld Hts Hskip Hcount Hm.
  apply (parseTagreports_raise_at ms pkts p ps2 resp _ Hwf H2 Hresp).
  intros st. cbn [parsePkgs]. rewrite Hpld. unfold slice.
  cbn [app]. rewrite from_1.
  replace (3 - 1) with 2 by lia. rewrite upto_2. cbn [unpack_BB bind].
  change (from 3 (rc :: total :: count
                  :: concat (map tagStruct_bytes ts)
                     ++ skip ++ 0x01 :: len id :: id ++ marker :: rest))
    with (concat (map tagStruct_bytes ts)
          ++ skip ++ 0x01 :: len id :: id ++ marker :: rest).
  replace (Z.to_nat count)
    with (length ts + S (Z.to_nat count - length ts - 1))%nat by lia.
  rewrite (parseTags_structs_then ts _ Hts). cbn [parseTags].
  unfold parseTag.
  rewrite (find_byte_skip _ _ _ Hskip), from_len_succ_app.
  cbn [head bind]. rewrite from_1, from_len_app.
  cbn [head bind]. apply Z.eqb_neq in Hm. rewrite Hm. reflexivity.
Qed.

Lemma parseTagreports_wrong_rssi_marker_witness :
  parseTagreports
    (One (mkPURPacket [0x50; 0x01]
            ([0x00; 0x01; 0x01] ++ concat (map tagStruct_bytes [])
             ++ [] ++ [0x01; len [0xAB; 0xCD]] ++ [0xAB; 0xCD]
             ++ 0x03 :: [0x05; 0x06]) []))
  = Raise (SyntaxError "Wrong RSSI start").
Proof.
  apply (parseTagreports_wrong_rssi_marker [] []
           (mkPURPacket [0x50; 0x01]
              ([0x00; 0x01; 0x01] ++ concat (map tagStruct_bytes [])
               ++ [] ++ [0x01; len [0xAB; 0xCD]] ++ [0xAB; 0xCD]
               ++ 0x03 :: [0x05; 0x06]) [])
           [] _ 0x00 0x01 0x01 [] [] [0xAB; 0xCD] [0x05; 0x06] 0x03).
  - constructor.
  - constructor.
  - reflexivity.
  - reflexivity.
  - constructor.
  - simpl. tauto.
  - simpl. lia.
  - discriminate.
Defined.

(** A packet that announces more tag structures than its payload holds (the
    payload ends behind the last structure) makes [parseTagreports] raise
    [IndexError], not the [IOError] of an incomplete inventory. *)
Theorem parseTagreports_count_too_large (ms : list invMsg)
        (pkts : list PURPacket) (p : PURPacket) (ps2 : list PURPacket)
        (resp : response) (rc total count : Z) (ts : list tagStruct) :
  Forall invMsg_wf ms ->
  Forall2 (fun m q => pldBytes q = invMsg_payload m) ms pkts ->
  packets_of resp = pkts ++ p :: ps2 ->
  pldBytes p = [rc; total; count] ++ concat (map tagStruct_bytes ts) ->
  Forall (fun t => ~ In 0x01 (ts_skip t)) ts ->
  Z.of_nat (length ts) < count ->
  parseTagreports resp = Raise IndexError.
Proof.
  intros Hwf H2 Hresp Hpld Hts Hcount.
  apply (parseTagreports_raise_at ms pkts p ps2 resp _ Hwf H2 Hresp).
  intros st. cbn [parsePkgs]. rewrite Hpld. unfold slice.
  cbn [app]. rewrite from_1.
  replace (3 - 1) with 2 by lia. rewrite upto_2. cbn [unpack_BB bind].
  change (from 3 (rc :: total :: count :: concat (map tagStruct_bytes ts)))
    with (concat (map tagStruct_bytes ts)).
  replace (Z.to_nat count)
    with (length ts + S (Z.to_nat count - length ts - 1))%nat by lia.
  rewrite <- (app_nil_r (concat (map tagStruct_bytes ts))).
  rewrite (parseTags_structs_then ts _ Hts). reflexivity.
Qed.

Lemma parseTagreports_count_too_large_witness :
  parseTagreports
    (One (mkPURPacket [0x50; 0x01]
            ([0x00; 0x03; 0x03]
             ++ concat (map tagStruct_bytes
                            (im_structs (inventory_msg_two 0x03)))) []))
  = Raise IndexError.
Proof.
  apply (parseTagreports_count_too_large [] []
           (mkPURPacket [0x50; 0x01]
              ([0x00; 0x03; 0x03]
               ++ concat (map tagStruct_bytes
                              (im_structs (inventory_msg_two 0x03)))) [])
           [] _ 0x00 0x03 0x03 (im_structs (inventory_msg_two 0x03))).
  - constructor.
  - constructor.
  - reflexivity.
  - reflexivity.
  - repeat constructor; simpl; tauto.
  - simpl. lia.
Defined.

(* ================================================================== *)
(** ** The methods of the reader on a device *)

Lemma in_range_true (lo n hi : Z) : lo <= n < hi -> in_range lo n hi = true.
Proof.
  intros H. unfold in_range. apply andb_true_intro.
  split; [apply Z.leb_le|apply Z.ltb_lt]; lia.
Qed.

Lemma in_range_false (lo n hi : Z) : n < lo \/ hi <= n -> in_range lo n hi = false.
Proof.
  intros H. unfold in_range. apply andb_false_iff.
  destruct H; [left; apply Z.leb_gt|right; apply Z.ltb_ge]; lia.
Qed.

Lemma packet_request (cmd pld : bytes) :
  is_bytes cmd -> cmd <> [] -> is_bytes pld -> (length pld <= 255)%nat ->
  PURPacket_init cmd pld [] = Ok (request cmd pld).
Proof.
  intros Hc Hne Hp Hl. unfold PURPacket_init.
  destruct cmd as [|c cmd]; [congruence|]. cbn [truthy].
  rewrite createMsg_ok by assumption. reflexivity.
Qed.

Lemma packet_too_large (cmd pld : bytes) :
  cmd <> [] -> (255 < length pld)%nat ->
  PURPacket_init cmd pld []
  = Raise (ValueError "bytes must be in range(0, 256)").
Proof.
  intros Hne Hl. unfold PURPacket_init.
  destruct cmd as [|c cmd]; [congruence|]. cbn [truthy].
  unfold createMsg, bytes1.
  destruct (is_byteb (len pld)) eqn:E; [|reflexivity].
  apply is_byteb_len in E. lia.
Qed.

Lemma parseMsg_frame_of (cmd pld : bytes) :
  length cmd = 2%nat -> parseMsg (frame_of cmd pld) = Ok (cmd, pld).
Proof.
  intros Hc. unfold frame_of. apply parseMsg_body; [exact Hc|].
  change [0x04; xor_all (frame_body cmd pld ++ [0x04])]
    with ([0x04] ++ [xor_all (frame_body cmd pld ++ [0x04])]).
  rewrite app_assoc. apply xor_all_closed.
Qed.

(** One exchange: the frame of the packet is written, the next bytes are
    read, and [send] decides the outcome. *)
Lemma dev_send_run (pkg : PURPacket) (check : bool) (dev : Dev.device) :
  Dev.send pkg check dev
  = (outcome (send pkg (next_rx dev) check), exchanged dev (msgBytes pkg)).
Proof.
  unfold Dev.send, Dev.lift, outcome, exchanged, next_rx.
  cbn [Dev.rx Dev.tx]. destruct (send pkg (hd [] (Dev.rx dev)) check); reflexivity.
Qed.

(** A method that makes a packet of [cmd] and [pld], sends it with [check]
    and returns nothing. *)
Lemma dev_command_run (cmd pld : bytes) (dev : Dev.device) :
  is_bytes cmd -> cmd <> [] -> is_bytes pld -> (length pld <= 255)%nat ->
  Dev.bind (Dev.packet cmd pld)
    (fun pkg => Dev.bind (Dev.send pkg true) (fun _ => Dev.ret tt)) dev
  = (outcome (_ <- send (request cmd pld) (next_rx dev) true ;; Ok tt),
     exchanged dev (frame_of cmd pld)).
Proof.
  intros Hc Hne Hp Hl. unfold Dev.bind at 1, Dev.packet.
  rewrite (packet_request cmd pld Hc Hne Hp Hl). cbn [Dev.lift Dev.ret].
  unfold Dev.bind. rewrite dev_send_run. cbn [msgBytes request].
  destruct (send (request cmd pld) (next_rx dev) true); reflexivity.
Qed.

Lemma div_mod_bytes (n : Z) :
  0 <= n < 65536 -> is_byte (n / 256) /\ is_byte (n mod 256).
Proof.
  intros H. unfold is_byte. split.
  - split; [apply Z.div_pos; lia|apply Z.div_lt_upper_bound; lia].
  - apply Z.mod_pos_bound. lia.
Qed.

Lemma setParam_run (addr : Z) (valBytes : bytes) (dev : Dev.device) :
  0 <= addr < 65536 -> is_bytes valBytes -> (length valBytes <= 252)%nat ->
  Dev.setParam addr valBytes dev
  = (outcome (_ <- send (request [0x03; 0x30]
                           ([addr / 256; addr mod 256; len valBytes] ++ valBytes))
                        (next_rx dev) true ;; Ok tt),
     exchanged dev (frame_of [0x03; 0x30]
                      ([addr / 256; addr mod 256; len valBytes] ++ valBytes))).
Proof.
  intros Ha Hv Hl.
  unfold Dev.setParam. unfold Dev.bind at 1. unfold pack_HB.
  rewrite (in_range_true 0 addr 65536 Ha).
  rewrite (in_range_true 0 (len valBytes) 256) by (unfold len; lia).
  cbn [andb Dev.lift Dev.ret].
  apply dev_command_run.
  - apply byte_list_ok. reflexivity.
  - discriminate.
  - destruct (div_mod_bytes addr Ha) as [H1 H0].
    constructor; [exact H1|]. constructor; [exact H0|].
    constructor; [unfold is_byte, len; lia|exact Hv].
  - cbn [app length]. lia.
Qed.

(** [setParam] with an address in 0..65535 and a value of at most 252
    bytes writes one frame, that of the command 03 30 with the payload
    address (big-endian), length of the value, value, and consumes one
    response; it returns when [send] accepts the response and raises what
    [send] raises. *)
Theorem setParam_writes (addr : Z) (valBytes : bytes) (dev : Dev.device) :
  0 <= addr < 65536 -> is_bytes valBytes -> (length valBytes <= 252)%nat ->
  Dev.setParam addr valBytes dev
  = (outcome (_ <- send (request [0x03; 0x30]
                           ([addr / 256; addr mod 256; len valBytes] ++ valBytes))
                        (next_rx dev) true ;; Ok tt),
     exchanged dev (frame_of [0x03; 0x30]
                      ([addr / 256; addr mod 256; len valBytes] ++ valBytes)))
  /\ parseMsg (frame_of [0x03; 0x30]
                 ([addr / 256; addr mod 256; len valBytes] ++ valBytes))
     = Ok ([0x03; 0x30], [addr / 256; addr mod 256; len valBytes] ++ valBytes).
Proof.
  intros Ha Hv Hl. split; [|apply parseMsg_frame_of; reflexivity].
  apply setParam_run; assumption.
Qed.

Lemma setParam_writes_witness :
  Dev.setParam 0x0028 [0x02] Dev.silent
  = (outcome (_ <- send (request [0x03; 0x30]
                           ([0x0028 / 256; 0x0028 mod 256; len [0x02]] ++ [0x02]))
                        (next_rx Dev.silent) true ;; Ok tt),
     exchanged Dev.silent
       (frame_of [0x03; 0x30]
          ([0x0028 / 256; 0x0028 mod 256; len [0x02]] ++ [0x02])))
  /\ parseMsg (frame_of [0x03; 0x30]
                 ([0x0028 / 256; 0x0028 mod 256; len [0x02]] ++ [0x02]))
     = Ok ([0x03; 0x30], [0x0028 / 256; 0x0028 mod 256; len [0x02]] ++ [0x02]).
Proof.
  apply setParam_writes.
  - lia.
  - apply byte_list_ok. reflexivity.
  - simpl. lia.
Defined.

(** [setParam] writes nothing and reads nothing when its arguments cannot
    be framed: an address outside 0..65535 or a value of more than 255 bytes
    raises [struct.error], and a value of 253 to 255 bytes, whose payload
    would exceed 255 bytes, raises the [ValueError] of the length byte. *)
Theorem setParam_rejects (addr : Z) (valBytes : bytes) (dev : Dev.device) :
  ((addr < 0 \/ 65536 <= addr \/ (255 < length valBytes)%nat) ->
   Dev.setParam addr valBytes dev = (inr (Dev.Exn StructError), dev))
  /\ (0 <= addr < 65536 -> (252 < length valBytes <= 255)%nat ->
      Dev.setParam addr valBytes dev
      = (inr (Dev.Exn (ValueError "bytes must be in range(0, 256)")), dev)).
Proof.
  split.
  - intros H. unfold Dev.setParam. unfold Dev.bind at 1. unfold pack_HB.
    replace (in_range 0 addr 65536 && in_range 0 (len valBytes) 256) with false;
      [reflexivity|].
    symmetry. apply andb_false_iff.
    destruct H as [H|[H|H]].
    + left. apply in_range_false. lia.
    + left. apply in_range_false. lia.
    + right. apply in_range_false. unfold len. lia.
  - intros Ha Hl. unfold Dev.setParam. unfold Dev.bind at 1. unfold pack_HB.
    rewrite (in_range_true 0 addr 65536 Ha).
    rewrite (in_range_true 0 (len valBytes) 256) by (unfold len; lia).
    cbn [andb Dev.lift Dev.ret].
    unfold Dev.bind at 1, Dev.packet.
    rewrite packet_too_large; [reflexivity|discriminate|].
    cbn [app length]. lia.
Qed.

Lemma setParam_rejects_witness :
  Dev.setParam 0x10000 [0x01] Dev.silent
  = (inr (Dev.Exn StructError), Dev.silent)
  /\ Dev.setParam 0x0028 (repeat 0x00 253) Dev.silent
     = (inr (Dev.Exn (ValueError "bytes must be in range(0, 256)")), Dev.silent).
Proof.
  split.
  - apply (proj1 (setParam_rejects 0x10000 [0x01] Dev.silent)). lia.
  - apply (proj2 (setParam_rejects 0x0028 (repeat 0x00 253) Dev.silent)).
    + lia.
    + simpl. lia.
Defined.

Lemma getParam_run (addr : Z) (dev : Dev.device) :
  0 <= addr < 65536 ->
  Dev.getParam addr dev
  = (outcome (resp <- send (request [0x03; 0x31] [addr / 256; addr mod 256])
                        (next_rx dev) true ;;
              getParam_resp resp),
     exchanged dev (frame_of [0x03; 0x31] [addr / 256; addr mod 256])).
Proof.
  intros Ha. unfold Dev.getParam. unfold Dev.bind at 1. unfold pack_H.
  replace ((0 <=? addr) && (addr <? 65536)) with true
    by (symmetry; apply (in_range_true 0 addr 65536 Ha)).
  cbn [Dev.lift Dev.ret]. unfold Dev.bind at 1, Dev.packet.
  rewrite packet_request.
  - cbn [Dev.lift Dev.ret]. unfold Dev.bind. rewrite dev_send_run.
    cbn [msgBytes request].
    destruct (send _ (next_rx dev) true) as [resp|e]; cbn [outcome bind];
      [|reflexivity].
    unfold Dev.lift. destruct (getParam_resp resp); reflexivity.
  - apply byte_list_ok. reflexivity.
  - discriminate.
  - destruct (div_mod_bytes addr Ha) as [H1 H0].
    constructor; [exact H1|]. constructor; [exact H0|constructor].
  - cbn [length]. lia.
Qed.

Lemma request_prefix (cmd pld : bytes) :
  length cmd = 2%nat -> upto 6 (msgBytes (request cmd pld)) = RFE01 ++ cmd.
Proof.
  intros Hc. destruct cmd as [|c1 [|c2 [|? ?]]]; try discriminate Hc.
  reflexivity.
Qed.

Lemma send_request_without_echo (cmd pld respBytes : bytes) (check : bool) :
  length cmd = 2%nat ->
  (forall i, ~ occurs_at (RFE01 ++ cmd) respBytes i) ->
  send (request cmd pld) respBytes check = Ok (Many []).
Proof.
  intros Hc Hno.
  pose proof (respPkgs_of_junk_frames (request cmd pld) respBytes [] []) as H.
  rewrite (request_prefix cmd pld Hc) in H.
  cbn [map concat] in H. rewrite app_nil_r in H.
  apply (send_of_respPkgs _ _ [] check).
  - apply H; [discriminate| |constructor].
    intros i Hi. exact (Hno i Hi).
  - intros _. constructor.
Qed.

(** A device that does not answer the command (it stays silent, or what it
    sends does not hold the echo of the command) is not noticed by
    [setParam], which returns as after a success, while [getParam] raises
    [AttributeError] because [send] returned an empty list. *)
Theorem param_unanswered (addr : Z) (valBytes : bytes) (dev : Dev.device) :
  0 <= addr < 65536 -> is_bytes valBytes -> (length valBytes <= 252)%nat ->
  ((forall i, ~ occurs_at (RFE01 ++ [0x03; 0x30]) (next_rx dev) i) ->
   fst (Dev.setParam addr valBytes dev) = inl tt)
  /\ ((forall i, ~ occurs_at (RFE01 ++ [0x03; 0x31]) (next_rx dev) i) ->
      fst (Dev.getParam addr dev)
      = inr (Dev.Exn (AttributeError
                        "'list' object has no attribute 'pldBytes'"))).
Proof.
  intros Ha Hv Hl. split; intros Hno.
  - rewrite (setParam_run addr valBytes dev Ha Hv Hl). cbn [fst].
    rewrite send_request_without_echo; [reflexivity|reflexivity|exact Hno].
  - rewrite (getParam_run addr dev Ha). cbn [fst].
    rewrite send_request_without_echo; [reflexivity|reflexivity|exact Hno].
Qed.

Lemma param_unanswered_witness :
  fst (Dev.setParam 0x0028 [0x02] Dev.silent) = inl tt
  /\ fst (Dev.getParam 0x0028 Dev.silent)
     = inr (Dev.Exn (AttributeError
                       "'list' object has no attribute 'pldBytes'")).
Proof.
  destruct (param_unanswered 0x0028 [0x02] Dev.silent) as [Hset Hget].
  - lia.
  - apply byte_list_ok. reflexivity.
  - simpl. lia.
  - split.
    + apply Hset. intros i. apply occurs_at_nil_inv. discriminate.
    + apply Hget. intros i. apply occurs_at_nil_inv. discriminate.
Defined.

(** [singleInventory] on a device that answers neither the parameter
    command nor the inventory command returns the empty list of tags, as
    if no tag had been in the field; it has written the frame that sets
    parameter 0x0002 to 1 and the frame of Inventory-Single. *)
Theorem singleInventory_unanswered (r1 r2 : bytes) (more sent : list bytes) :
  (forall i, ~ occurs_at (RFE01 ++ [0x03; 0x30]) r1 i) ->
  (forall i, ~ occurs_at (RFE01 ++ [0x50; 0x01]) r2 i) ->
  Dev.singleInventory (Dev.mkDevice (r1 :: r2 :: more) sent)
  = (inl [],
     Dev.mkDevice more
       (sent ++ [frame_of [0x03; 0x30] [0x00; 0x02; 0x01; 0x01];
                 frame_of [0x50; 0x01] []]))
  /\ Dev.singleInventory (Dev.mkDevice [] sent)
     = (inl [],
        Dev.mkDevice []
          (sent ++ [frame_of [0x03; 0x30] [0x00; 0x02; 0x01; 0x01];
                    frame_of [0x50; 0x01] []])).
Proof.
  intros H1 H2.
  assert (Hgen : forall dev,
             (forall i, ~ occurs_at (RFE01 ++ [0x03; 0x30]) (next_rx dev) i) ->
             (forall i, ~ occurs_at (RFE01 ++ [0x50; 0x01])
                          (hd [] (tl (Dev.rx dev))) i) ->
             Dev.singleInventory dev
             = (inl [],
                Dev.mkDevice (tl (tl (Dev.rx dev)))
                  (Dev.tx dev ++ [frame_of [0x03; 0x30] [0x00; 0x02; 0x01; 0x01];
                                  frame_of [0x50; 0x01] []]))).
  { intros dev Ha Hb.
    unfold Dev.singleInventory, Dev.reportRSSI.
    unfold Dev.bind at 1. unfold Dev.bind at 1.
    cbn [pack_B in_range Z.leb Z.ltb Z.compare Pos.compare Pos.compare_cont
         andb Dev.lift Dev.ret].
    rewrite (setParam_run 0x0002 [0x01] dev);
      [|lia|apply byte_list_ok; reflexivity|simpl; lia].
    rewrite send_request_without_echo; [|reflexivity|exact Ha].
    cbn [bind outcome].
    unfold Dev.bind at 1, Dev.packet.
    change (PURPacket_init [0x50; 0x01] [] [])
      with (Ok (request [0x50; 0x01] [])).
    cbn [Dev.lift Dev.ret]. unfold Dev.bind. rewrite dev_send_run.
    unfold next_rx at 1. cbn [exchanged Dev.rx Dev.tx].
    rewrite send_request_without_echo; [|reflexivity|exact Hb].
    cbn [outcome msgBytes request].
    change (parseTagreports (Many [])) with (@Ok (list tagData) []).
    unfold exchanged. cbn [Dev.lift Dev.ret Dev.rx Dev.tx].
    rewrite <- app_assoc. reflexivity. }
  split.
  - apply (Hgen (Dev.mkDevice (r1 :: r2 :: more) sent)); assumption.
  - apply (Hgen (Dev.mkDevice [] sent));
      intros i; apply occurs_at_nil_inv; discriminate.
Qed.

Lemma singleInventory_unanswered_witness :
  Dev.singleInventory (Dev.mkDevice [[0x00]; getparam_frame 0x00] [])
  = (inl [],
     Dev.mkDevice []
       ([] ++ [frame_of [0x03; 0x30] [0x00; 0x02; 0x01; 0x01];
               frame_of [0x50; 0x01] []])).
Proof.
  refine (proj1 (singleInventory_unanswered [0x00] (getparam_frame 0x00)
                   [] [] _ _)).
  - intros i H. apply occurrences_complete in H; [exact H|discriminate].
  - intros i H. apply occurrences_complete in H; [exact H|discriminate].
Defined.

(** A method that makes a packet of [cmd] without payload, sends it and
    goes on with the response. *)
Lemma dev_query_run {A : Type} (cmd : bytes) (check : bool)
      (k : response -> Dev.io A) (dev : Dev.device) :
  is_bytes cmd -> cmd <> [] ->
  Dev.bind (Dev.packet cmd []) (fun pkg => Dev.bind (Dev.send pkg check) k) dev
  = match send (request cmd []) (next_rx dev) check with
    | Ok resp => k resp (exchanged dev (frame_of cmd []))
    | Raise e => (inr (Dev.Exn e), exchanged dev (frame_of cmd []))
    end.
Proof.
  intros Hc Hne. unfold Dev.bind at 1, Dev.packet.
  rewrite (packet_request cmd [] Hc Hne); [|constructor|cbn [length]; lia].
  cbn [Dev.lift Dev.ret]. unfold Dev.bind. rewrite dev_send_run.
  cbn [msgBytes request].
  destruct (send (request cmd []) (next_rx dev) check); reflexivity.
Qed.

Lemma checkResp_ok (p : PURPacket) (rc : Z) (rest : bytes) :
  pldBytes p = rc :: rest -> ~ error_code rc -> checkResp p = Ok tt.
Proof.
  intros Hp Hrc. destruct (checkResp_cases p) as [H|[e H]]; [exact H|].
  apply checkResp_raise in H. destruct H as (code & r & d & E & Hc & _).
  rewrite Hp in E. injection E as -> _. contradiction.
Qed.

Lemma send_single (pkg p : PURPacket) (respBytes : bytes) (check : bool) :
  respPkgs_of pkg respBytes = Ok [p] ->
  (check = true -> checkResp p = Ok tt) ->
  send pkg respBytes check = Ok (One p).
Proof.
  intros Hps Hchk.
  apply (send_of_respPkgs pkg respBytes [p] check Hps).
  intros Hc. constructor; [apply Hchk; exact Hc|constructor].
Qed.

Lemma send_single_error (pkg p : PURPacket) (respBytes : bytes)
      (rc : Z) (rest : bytes) :
  respPkgs_of pkg respBytes = Ok [p] ->
  pldBytes p = rc :: rest -> error_code rc ->
  exists descr, send pkg respBytes true = Raise (IOError (problem_msg p descr)).
Proof.
  intros Hps Hp Hrc. destruct (retCodeDescr_error rc Hrc) as [descr Hd].
  exists descr. unfold send. rewrite Hps. cbn [bind forM_].
  replace (checkResp p) with (@Raise unit (IOError (problem_msg p descr))).
  - reflexivity.
  - symmetry. apply checkResp_raise. exists rc, rest, descr. tauto.
Qed.

(** [antCount] sends without [check]: for a response of one packet it
    returns the second payload byte whatever the first is, an error code
    included, while [attnDB], which sends with [check], raises the
    [IOError] of that code for a response that begins with it. *)
Theorem antCount_unchecked (dev : Dev.device) :
  (forall (p : PURPacket) (rc n : Z) (rest : bytes),
      respPkgs_of (request [0x01; 0x10] []) (next_rx dev) = Ok [p] ->
      pldBytes p = rc :: n :: rest ->
      Dev.antCount dev = (inl n, exchanged dev (frame_of [0x01; 0x10] [])))
  /\ (forall (p : PURPacket) (rc : Z) (rest : bytes),
         respPkgs_of (request [0x02; 0x01] []) (next_rx dev) = Ok [p] ->
         pldBytes p = rc :: rest ->
         error_code rc ->
         exists descr,
           Dev.attnDB dev
           = (inr (Dev.Exn (IOError (problem_msg p descr))),
              exchanged dev (frame_of [0x02; 0x01] []))).
Proof.
  split.
  - intros p rc n rest Hps Hp. unfold Dev.antCount.
    rewrite dev_query_run; [|apply byte_list_ok; reflexivity|discriminate].
    rewrite (send_single _ p _ false Hps) by discriminate.
    unfold Dev.bind. cbn [Dev.pldBytes_of Dev.lift Dev.ret].
    rewrite Hp. reflexivity.
  - intros p rc rest Hps Hp Hrc. unfold Dev.attnDB.
    rewrite dev_query_run; [|apply byte_list_ok; reflexivity|discriminate].
    destruct (send_single_error _ p _ rc rest Hps Hp Hrc) as [descr Hs].
    exists descr. rewrite Hs. reflexivity.
Qed.

Lemma antCount_unchecked_witness :
  Dev.antCount (Dev.mkDevice [frame_of [0x01; 0x10] [0x52; 0x04]] [])
  = (inl 0x04,
     exchanged (Dev.mkDevice [frame_of [0x01; 0x10] [0x52; 0x04]] [])
       (frame_of [0x01; 0x10] [])).
Proof.
  refine (proj1 (antCount_unchecked _)
            (request [0x01; 0x10] [0x52; 0x04]) 0x52 0x04 [] _ _).
  - reflexivity.
  - reflexivity.
Defined.

Lemma be16 (v : Z) : v / 256 * 256 + v mod 256 = v.
Proof. pose proof (Z.div_mod v 256). lia. Qed.

(** Attenuation: the setter writes the frame of command 02 81 with the
    value as two big-endian bytes, and raises [struct.error] without
    writing for a value outside 0..65535; the getter returns the current
    attenuation of a 5-byte payload (return code, maximum, current), so it
    reads back the two bytes the setter writes, and it raises
    [struct.error] for a payload of another length. *)
Theorem attnDB_accessors (dev : Dev.device) :
  (forall v : Z,
      0 <= v < 65536 ->
      Dev.attnDB_set v dev
      = (outcome (_ <- send (request [0x02; 0x81] [v / 256; v mod 256])
                            (next_rx dev) true ;; Ok tt),
         exchanged dev (frame_of [0x02; 0x81] [v / 256; v mod 256])))
  /\ (forall v : Z,
         v < 0 \/ 65536 <= v ->
         Dev.attnDB_set v dev = (inr (Dev.Exn StructError), dev))
  /\ (forall (v : Z) (p : PURPacket) (rc m1 m0 : Z),
         respPkgs_of (request [0x02; 0x01] []) (next_rx dev) = Ok [p] ->
         pldBytes p = [rc; m1; m0; v / 256; v mod 256] ->
         ~ error_code rc ->
         fst (Dev.attnDB dev) = inl v)
  /\ (forall (p : PURPacket) (rc : Z) (rest : bytes),
         respPkgs_of (request [0x02; 0x01] []) (next_rx dev) = Ok [p] ->
         pldBytes p = rc :: rest ->
         ~ error_code rc ->
         length rest <> 4%nat ->
         fst (Dev.attnDB dev) = inr (Dev.Exn StructError)).
Proof.
  split; [|split; [|split]].
  - intros v Hv. unfold Dev.attnDB_set. unfold Dev.bind at 1. unfold pack_H.
    replace ((0 <=? v) && (v <? 65536)) with true
      by (symmetry; apply (in_range_true 0 v 65536 Hv)).
    cbn [Dev.lift Dev.ret]. apply dev_command_run.
    + apply byte_list_ok. reflexivity.
    + discriminate.
    + destruct (div_mod_bytes v Hv) as [H1 H0].
      constructor; [exact H1|]. constructor; [exact H0|constructor].
    + cbn [length]. lia.
  - intros v Hv. unfold Dev.attnDB_set. unfold Dev.bind at 1. unfold pack_H.
    replace ((0 <=? v) && (v <? 65536)) with false; [reflexivity|].
    symmetry. apply (in_range_false 0 v 65536). lia.
  - intros v p rc m1 m0 Hps Hp Hrc. unfold Dev.attnDB.
    rewrite dev_query_run; [|apply byte_list_ok; reflexivity|discriminate].
    rewrite (send_single _ p _ true Hps)
      by (intros _; apply (checkResp_ok p rc _ Hp Hrc)).
    unfold Dev.bind. cbn [Dev.pldBytes_of Dev.lift Dev.ret]. rewrite Hp.
    rewrite from_1. cbn [unpack_HH Dev.lift Dev.ret snd fst].
    rewrite be16. reflexivity.
  - intros p rc rest Hps Hp Hrc Hlen. unfold Dev.attnDB.
    rewrite dev_query_run; [|apply byte_list_ok; reflexivity|discriminate].
    rewrite (send_single _ p _ true Hps)
      by (intros _; apply (checkResp_ok p rc _ Hp Hrc)).
    unfold Dev.bind. cbn [Dev.pldBytes_of Dev.lift Dev.ret]. rewrite Hp.
    rewrite from_1.
    destruct rest as [|a [|b [|c [|d [|x rest]]]]]; cbn [length] in Hlen;
      try reflexivity. congruence.
Qed.

Lemma attnDB_accessors_witness :
  Dev.attnDB_set 300 Dev.silent
  = (outcome (_ <- send (request [0x02; 0x81] [300 / 256; 300 mod 256])
                        (next_rx Dev.silent) true ;; Ok tt),
     exchanged Dev.silent (frame_of [0x02; 0x81] [300 / 256; 300 mod 256]))
  /\ Dev.attnDB_set 70000 Dev.silent = (inr (Dev.Exn StructError), Dev.silent)
  /\ fst (Dev.attnDB
            (Dev.mkDevice [frame_of [0x02; 0x01]
                             [0x00; 0x01; 0xF4; 300 / 256; 300 mod 256]] []))
     = inl 300
  /\ fst (Dev.attnDB (Dev.mkDevice [frame_of [0x02; 0x01] [0x00; 0x01]] []))
     = inr (Dev.Exn StructError).
Proof.
  split; [|split; [|split]].
  - apply (proj1 (attnDB_accessors Dev.silent)). lia.
  - apply (proj1 (proj2 (attnDB_accessors Dev.silent))). lia.
  - refine (proj1 (proj2 (proj2 (attnDB_accessors _))) 300
              (request [0x02; 0x01] [0x00; 0x01; 0xF4; 300 / 256; 300 mod 256])
              0x00 0x01 0xF4 _ _ _).
    + reflexivity.
    + reflexivity.
    + unfold error_code. lia.
  - refine (proj2 (proj2 (proj2 (attnDB_accessors _)))
              (request [0x02; 0x01] [0x00; 0x01]) 0x00 [0x01] _ _ _ _).
    + reflexivity.
    + reflexivity.
    + unfold error_code. lia.
    + discriminate.
Defined.

Lemma signed16_pack (v : Z) :
  -32768 <= v < 32768 ->
  signed16 ((v mod 65536) / 256) ((v mod 65536) mod 256) = v.
Proof.
  intros Hv. unfold signed16. rewrite be16.
  pose proof (Z.div_mod v 65536 ltac:(lia)) as Hd.
  pose proof (Z.mod_pos_bound v 65536 ltac:(lia)) as Hb.
  destruct (v mod 65536 <? 32768) eqn:E.
  - apply Z.ltb_lt in E. lia.
  - apply Z.ltb_ge in E. lia.
Qed.

(** Sensitivity: the setter writes the frame of command 02 83 with the
    value as a signed 16-bit big-endian integer and raises [struct.error]
    without writing for a value outside -32768..32767; the getter returns
    the third signed 16-bit integer of a 7-byte payload (return code,
    maximum, minimum, current), so it reads back, negative values included,
    the two bytes the setter writes. *)
Theorem sensDBm_accessors (dev : Dev.device) :
  (forall v : Z,
      -32768 <= v < 32768 ->
      Dev.sensDBm_set v dev
      = (outcome (_ <- send (request [0x02; 0x83]
                               [(v mod 65536) / 256; (v mod 65536) mod 256])
                            (next_rx dev) true ;; Ok tt),
         exchanged dev (frame_of [0x02; 0x83]
                          [(v mod 65536) / 256; (v mod 65536) mod 256])))
  /\ (forall v : Z,
         v < -32768 \/ 32768 <= v ->
         Dev.sensDBm_set v dev = (inr (Dev.Exn StructError), dev))
  /\ (forall (v : Z) (p : PURPacket) (rc a1 a0 b1 b0 : Z),
         -32768 <= v < 32768 ->
         respPkgs_of (request [0x02; 0x03] []) (next_rx dev) = Ok [p] ->
         pldBytes p = [rc; a1; a0; b1; b0;
                       (v mod 65536) / 256; (v mod 65536) mod 256] ->
         ~ error_code rc ->
         fst (Dev.sensDBm dev) = inl v).
Proof.
  split; [|split].
  - intros v Hv. unfold Dev.sensDBm_set. unfold Dev.bind at 1. unfold pack_h.
    rewrite (in_range_true _ _ _ Hv).
    cbn [Dev.lift Dev.ret]. apply dev_command_run.
    + apply byte_list_ok. reflexivity.
    + discriminate.
    + assert (Hu : 0 <= v mod 65536 < 65536) by (apply Z.mod_pos_bound; lia).
      destruct (div_mod_bytes _ Hu) as [H1 H0].
      constructor; [exact H1|]. constructor; [exact H0|constructor].
    + cbn [length]. lia.
  - intros v Hv. unfold Dev.sensDBm_set. unfold Dev.bind at 1. unfold pack_h.
    rewrite (in_range_false _ _ _ Hv). reflexivity.
  - intros v p rc a1 a0 b1 b0 Hv Hps Hp Hrc. unfold Dev.sensDBm.
    rewrite dev_query_run; [|apply byte_list_ok; reflexivity|discriminate].
    rewrite (send_single _ p _ true Hps)
      by (intros _; apply (checkResp_ok p rc _ Hp Hrc)).
    unfold Dev.bind. cbn [Dev.pldBytes_of Dev.lift Dev.ret]. rewrite Hp.
    rewrite from_1. cbn [unpack_hhh Dev.lift Dev.ret snd fst].
    rewrite (signed16_pack v Hv). reflexivity.
Qed.

Lemma sensDBm_accessors_witness :
  Dev.sensDBm_set (-70) Dev.silent
  = (outcome (_ <- send (request [0x02; 0x83]
                           [((-70) mod 65536) / 256; ((-70) mod 65536) mod 256])
                        (next_rx Dev.silent) true ;; Ok tt),
     exchanged Dev.silent
       (frame_of [0x02; 0x83]
          [((-70) mod 65536) / 256; ((-70) mod 65536) mod 256]))
  /\ Dev.sensDBm_set 32768 Dev.silent = (inr (Dev.Exn StructError), Dev.silent)
  /\ fst (Dev.sensDBm
            (Dev.mkDevice
               [frame_of [0x02; 0x03]
                  [0x00; 0x00; 0x00; 0xFF; 0xA6;
                   ((-70) mod 65536) / 256; ((-70) mod 65536) mod 256]] []))
     = inl (-70).
Proof.
  split; [|split].
  - apply (proj1 (sensDBm_accessors Dev.silent)). lia.
  - apply (proj1 (proj2 (sensDBm_accessors Dev.silent))). lia.
  - refine (proj2 (proj2 (sensDBm_accessors _)) (-70)
              (request [0x02; 0x03]
                 [0x00; 0x00; 0x00; 0xFF; 0xA6;
                  ((-70) mod 65536) / 256; ((-70) mod 65536) mod 256])
              0x00 0x00 0x00 0xFF 0xA6 _ _ _ _).
    + lia.
    + reflexivity.
    + reflexivity.
    + unfold error_code. lia.
Defined.

(* ================================================================== *)
(** ** Frequencies *)

Lemma freq_bytes_bytes (f : Z) : is_bytes (freq_bytes f).
Proof.
  unfold freq_bytes.
  repeat (constructor; [apply Z.mod_pos_bound; lia|]). constructor.
Qed.

Lemma freq_value_bytes (f : Z) :
  0 <= f ->
  freq_value ((f / 65536) mod 256) ((f / 256) mod 256) (f mod 256)
  = f mod 16777216.
Proof.
  intros Hf. unfold freq_value.
  pose proof (Z.div_mod f 256 ltac:(lia)) as E0.
  pose proof (Z.mod_pos_bound f 256 ltac:(lia)) as B0.
  pose proof (Z.div_mod (f / 256) 256 ltac:(lia)) as E1.
  pose proof (Z.mod_pos_bound (f / 256) 256 ltac:(lia)) as B1.
  assert (D : f / 256 / 256 = f / 65536).
  { rewrite Z.div_div by lia. reflexivity. }
  rewrite D in E1.
  pose proof (Z.div_mod (f / 65536) 256 ltac:(lia)) as E2.
  pose proof (Z.mod_pos_bound (f / 65536) 256 ltac:(lia)) as B2.
  apply (Z.mod_unique f 16777216 (f / 65536 / 256)); lia.
Qed.

Lemma unpack_I_freq_bytes (f : Z) :
  0 <= f -> unpack_I (0x00 :: freq_bytes f) = Ok (f mod 16777216).
Proof.
  intros Hf. unfold freq_bytes, unpack_I.
  rewrite <- (freq_value_bytes f Hf). unfold freq_value. reflexivity.
Qed.

Lemma add_freqs_ok (fs : list Z) :
  Forall (fun f => 0 <= f < 4294967296) fs ->
  forall payload : bytes,
    Dev.add_freqs payload fs = Ok (payload ++ concat (map freq_bytes fs)).
Proof.
  induction 1 as [|f fs Hf _ IH]; intros payload; cbn [Dev.add_freqs map concat].
  - rewrite app_nil_r. reflexivity.
  - unfold pack_I. rewrite (in_range_true _ _ _ Hf). cbn [bind].
    rewrite IH, <- app_assoc. reflexivity.
Qed.

Lemma add_freqs_raise (fs : list Z) :
  Exists (fun f => f < 0 \/ 4294967296 <= f) fs ->
  forall payload : bytes, Dev.add_freqs payload fs = Raise StructError.
Proof.
  induction fs as [|f fs IH]; intros Hex payload.
  - inversion Hex.
  - cbn [Dev.add_freqs]. unfold pack_I.
    destruct (in_range 0 f 4294967296) eqn:E; cbn [bind]; [|reflexivity].
    apply IH. inversion Hex as [? ? Hbad|? ? Hrest]; subst; [|exact Hrest].
    rewrite (in_range_false _ _ _ Hbad) in E. discriminate E.
Qed.

Lemma concat_freq_bytes_length (fs : list Z) :
  length (concat (map freq_bytes fs)) = (3 * length fs)%nat.
Proof.
  induction fs as [|f fs IH]; cbn [map concat length]; [reflexivity|].
  rewrite length_app, IH. cbn [freq_bytes length]. lia.
Qed.

Lemma concat_freq_bytes_bytes (fs : list Z) :
  is_bytes (concat (map freq_bytes fs)).
Proof.
  induction fs as [|f fs IH]; cbn [map concat]; [constructor|].
  apply is_bytes_app; [apply freq_bytes_bytes|exact IH].
Qed.

Lemma freq_payload_ok (f : Z) :
  0 <= f < 4294967296 ->
  Dev.freq_payload f = Ok ([0x00; 0x01] ++ freq_bytes f).
Proof.
  intros Hf. unfold Dev.freq_payload, pack_BB.
  rewrite (in_range_true 0 0 256) by lia.
  rewrite (in_range_true 0 1 256) by lia. cbn [andb bind].
  unfold pack_I. rewrite (in_range_true _ _ _ Hf). reflexivity.
Qed.

Lemma freq_payload_raise (f : Z) :
  f < 0 \/ 4294967296 <= f -> Dev.freq_payload f = Raise StructError.
Proof.
  intros Hf. unfold Dev.freq_payload, pack_BB.
  rewrite (in_range_true 0 0 256) by lia.
  rewrite (in_range_true 0 1 256) by lia. cbn [andb bind].
  unfold pack_I. rewrite (in_range_false _ _ _ Hf). reflexivity.
Qed.

Lemma freqs_payload_ok (fs : list Z) :
  Forall (fun f => 0 <= f < 4294967296) fs -> (length fs <= 255)%nat ->
  Dev.freqs_payload fs = Ok ([0x01; len fs] ++ concat (map freq_bytes fs)).
Proof.
  intros Hfs Hl. unfold Dev.freqs_payload, pack_BB.
  rewrite (in_range_true 0 1 256) by lia.
  rewrite (in_range_true 0 (len fs) 256) by (unfold len; lia).
  cbn [andb bind]. apply (add_freqs_ok fs Hfs).
Qed.

Lemma freqs_payload_raise (fs : list Z) :
  (255 < length fs)%nat \/ Exists (fun f => f < 0 \/ 4294967296 <= f) fs ->
  Dev.freqs_payload fs = Raise StructError.
Proof.
  intros Hfs. unfold Dev.freqs_payload, pack_BB.
  destruct (in_range 0 1 256 && in_range 0 (len fs) 256) eqn:E;
    cbn [bind]; [|reflexivity].
  destruct Hfs as [Hl|Hex].
  - apply andb_true_iff in E. destruct E as [_ E].
    rewrite in_range_false in E by (unfold len; lia). discriminate E.
  - apply (add_freqs_raise fs Hex).
Qed.

(** The frequency setter writes the frame of command 02 82: for one
    frequency the payload 00 01 and the three low bytes of the frequency,
    for a list of up to 84 frequencies the payload 01, their number and
    three bytes for each.  What the getter makes of such three bytes is the
    frequency modulo 2^24: a frequency of 2^24 kHz or more is cut without an
    error. *)
Theorem freqKHz_set_writes (dev : Dev.device) :
  (forall f : Z,
      0 <= f < 4294967296 ->
      Dev.freqKHz_set (Dev.FreqOne f) dev
      = (outcome (_ <- send (request [0x02; 0x82] ([0x00; 0x01] ++ freq_bytes f))
                            (next_rx dev) true ;; Ok tt),
         exchanged dev (frame_of [0x02; 0x82] ([0x00; 0x01] ++ freq_bytes f))))
  /\ (forall fs : list Z,
         Forall (fun f => 0 <= f < 4294967296) fs ->
         (length fs <= 84)%nat ->
         Dev.freqKHz_set (Dev.FreqList fs) dev
         = (outcome (_ <- send (request [0x02; 0x82]
                                  ([0x01; len fs] ++ concat (map freq_bytes fs)))
                               (next_rx dev) true ;; Ok tt),
            exchanged dev (frame_of [0x02; 0x82]
                             ([0x01; len fs] ++ concat (map freq_bytes fs)))))
  /\ (forall f : Z,
         0 <= f < 4294967296 ->
         unpack_I (0x00 :: freq_bytes f) = Ok (f mod 16777216)).
Proof.
  split; [|split].
  - intros f Hf. unfold Dev.freqKHz_set. unfold Dev.bind at 1.
    rewrite (freq_payload_ok f Hf).
    cbn [Dev.lift Dev.ret]. apply dev_command_run.
    + apply byte_list_ok. reflexivity.
    + discriminate.
    + apply is_bytes_app; [apply byte_list_ok; reflexivity|apply freq_bytes_bytes].
    + cbn [app length freq_bytes]. lia.
  - intros fs Hfs Hl. unfold Dev.freqKHz_set. unfold Dev.bind at 1.
    rewrite (freqs_payload_ok fs Hfs) by lia.
    cbn [Dev.lift Dev.ret]. apply dev_command_run.
    + apply byte_list_ok. reflexivity.
    + discriminate.
    + apply is_bytes_app; [|apply concat_freq_bytes_bytes].
      constructor; [unfold is_byte; lia|].
      constructor; [unfold is_byte, len; lia|constructor].
    + rewrite length_app, concat_freq_bytes_length. cbn [length]. lia.
  - intros f Hf. apply unpack_I_freq_bytes. lia.
Qed.

Lemma freqKHz_set_writes_witness :
  Dev.freqKHz_set (Dev.FreqOne 866000) Dev.silent
  = (outcome (_ <- send (request [0x02; 0x82]
                           ([0x00; 0x01] ++ freq_bytes 866000))
                        (next_rx Dev.silent) true ;; Ok tt),
     exchanged Dev.silent
       (frame_of [0x02; 0x82] ([0x00; 0x01] ++ freq_bytes 866000)))
  /\ Dev.freqKHz_set (Dev.FreqList [865700; 866900]) Dev.silent
     = (outcome (_ <- send (request [0x02; 0x82]
                              ([0x01; len [865700; 866900]]
                               ++ concat (map freq_bytes [865700; 866900])))
                           (next_rx Dev.silent) true ;; Ok tt),
        exchanged Dev.silent
          (frame_of [0x02; 0x82]
             ([0x01; len [865700; 866900]]
              ++ concat (map freq_bytes [865700; 866900]))))
  /\ unpack_I (0x00 :: freq_bytes 16777217) = Ok (16777217 mod 16777216).
Proof.
  split; [|split].
  - apply (proj1 (freqKHz_set_writes Dev.silent)). lia.
  - apply (proj1 (proj2 (freqKHz_set_writes Dev.silent))).
    + repeat constructor; lia.
    + simpl. lia.
  - apply (proj2 (proj2 (freqKHz_set_writes Dev.silent))). lia.
Defined.

(** [int] on a list of numbers none of which is an infinity or NaN. *)
Lemma ints_values (ns : list Dev.number) (fs : list Z) (dev : Dev.device) :
  Forall2 (fun n f => int_value n = Some f) ns fs ->
  Dev.ints ns dev = (inl fs, dev).
Proof.
  induction 1 as [|n f ns fs Hn _ IH]; cbn [Dev.ints]; [reflexivity|].
  unfold Dev.bind at 1.
  assert (Hint : Dev.int n dev = (inl f, dev)).
  { destruct n as [z|[num den|neg|]]; cbn [int_value] in Hn;
      try discriminate Hn; injection Hn as <-; reflexivity. }
  rewrite Hint. unfold Dev.bind at 1. rewrite IH. reflexivity.
Qed.

(** When the frequency setter writes nothing.  An integer frequency outside
    0..2^32-1, or a list of more than 255 integer frequencies or with such a
    frequency in it, raises [struct.error]; a list of 85 to 255 frequencies,
    whose payload would exceed 255 bytes, raises the [ValueError] of the
    length byte; an argument that is neither a list nor a number raises the
    [SyntaxError] of the method.  A float is converted with [int] first: an
    infinity raises [OverflowError] and NaN [ValueError], and a finite
    float, alone or in a list, is treated as the integer left when its
    fraction is cut off toward zero, so that -0.5 is not rejected but
    written as the frequency 0. *)
Theorem freqKHz_set_rejects (dev : Dev.device) :
  (forall f : Z,
      f < 0 \/ 4294967296 <= f ->
      Dev.freqKHz_set (Dev.FreqOne f) dev = (inr (Dev.Exn StructError), dev))
  /\ (forall fs : list Z,
         (255 < length fs)%nat
         \/ Exists (fun f => f < 0 \/ 4294967296 <= f) fs ->
         Dev.freqKHz_set (Dev.FreqList fs) dev
         = (inr (Dev.Exn StructError), dev))
  /\ (forall fs : list Z,
         Forall (fun f => 0 <= f < 4294967296) fs ->
         (84 < length fs <= 255)%nat ->
         Dev.freqKHz_set (Dev.FreqList fs) dev
         = (inr (Dev.Exn (ValueError "bytes must be in range(0, 256)")), dev))
  /\ Dev.freqKHz_set Dev.FreqOther dev
     = (inr (Dev.Exn (SyntaxError
          "freqKHz must be either a single frequency or a list of frequencies")),
        dev)
  /\ (forall (num : Z) (den : positive),
         Dev.freqKHz_set (Dev.FreqOneFloat (Dev.Finite num den)) dev
         = Dev.freqKHz_set (Dev.FreqOne (Z.quot num (Z.pos den))) dev)
  /\ (forall (ns : list Dev.number) (fs : list Z),
         Forall2 (fun n f => int_value n = Some f) ns fs ->
         Dev.freqKHz_set (Dev.FreqNums ns) dev
         = Dev.freqKHz_set (Dev.FreqList fs) dev)
  /\ (forall negative : bool,
         Dev.freqKHz_set (Dev.FreqOneFloat (Dev.Infinity negative)) dev
         = (inr (Dev.OverflowError "cannot convert float infinity to integer"),
            dev))
  /\ Dev.freqKHz_set (Dev.FreqOneFloat Dev.NaN) dev
     = (inr (Dev.Exn (ValueError "cannot convert float NaN to integer")), dev)
  /\ Dev.freqKHz_set (Dev.FreqOneFloat (Dev.Finite (-1) 2)) dev
     = (outcome (_ <- send (request [0x02; 0x82] ([0x00; 0x01] ++ freq_bytes 0))
                           (next_rx dev) true ;; Ok tt),
        exchanged dev (frame_of [0x02; 0x82] ([0x00; 0x01] ++ freq_bytes 0))).
Proof.
  split; [|split; [|split; [|split; [reflexivity|]]]].
  - intros f Hf. unfold Dev.freqKHz_set. unfold Dev.bind at 1.
    rewrite (freq_payload_raise f Hf). reflexivity.
  - intros fs Hfs. unfold Dev.freqKHz_set. unfold Dev.bind at 1.
    rewrite (freqs_payload_raise fs Hfs). reflexivity.
  - intros fs Hfs Hl. unfold Dev.freqKHz_set. unfold Dev.bind at 1.
    rewrite (freqs_payload_ok fs Hfs) by lia.
    cbn [Dev.lift Dev.ret]. unfold Dev.bind at 1, Dev.packet.
    rewrite packet_too_large; [reflexivity|discriminate|].
    rewrite length_app, concat_freq_bytes_length. cbn [length]. lia.
  - split; [reflexivity|]. split; [|split; [reflexivity|split; [reflexivity|]]].
    + intros ns fs Hns. unfold Dev.freqKHz_set.
      unfold Dev.bind at 1. unfold Dev.bind at 1.
      rewrite (ints_values ns fs dev Hns).
      unfold Dev.bind at 2. reflexivity.
    + unfold Dev.freqKHz_set. unfold Dev.bind at 1. unfold Dev.bind at 1.
      cbn [Dev.int_of_float Dev.ret].
      change (Z.quot (-1) (Z.pos 2)) with 0.
      rewrite (freq_payload_ok 0) by lia.
      cbn [Dev.lift Dev.ret]. apply dev_command_run.
      * apply byte_list_ok. reflexivity.
      * discriminate.
      * apply byte_list_ok. reflexivity.
      * cbn [app length freq_bytes]. lia.
Qed.

Lemma freqKHz_set_rejects_witness :
  Dev.freqKHz_set (Dev.FreqOne (-1)) Dev.silent
  = (inr (Dev.Exn StructError), Dev.silent)
  /\ Dev.freqKHz_set (Dev.FreqList [866000; 4294967296]) Dev.silent
     = (inr (Dev.Exn StructError), Dev.silent)
  /\ Dev.freqKHz_set (Dev.FreqList (repeat 866000 85)) Dev.silent
     = (inr (Dev.Exn (ValueError "bytes must be in range(0, 256)")), Dev.silent)
  /\ Dev.freqKHz_set
       (Dev.FreqNums [Dev.PyInt 865700; Dev.PyFloat (Dev.Finite 8669005 10)])
       Dev.silent
     = Dev.freqKHz_set (Dev.FreqList [865700; 866900]) Dev.silent.
Proof.
  split; [|split; [|split]].
  - apply (proj1 (freqKHz_set_rejects Dev.silent)). lia.
  - apply (proj1 (proj2 (freqKHz_set_rejects Dev.silent))). right.
    apply Exists_cons_tl. apply Exists_cons_hd. lia.
  - apply (proj1 (proj2 (proj2 (freqKHz_set_rejects Dev.silent)))).
    + apply Forall_forall. intros f Hf. apply repeat_spec in Hf. subst f. lia.
    + simpl. lia.
  - apply (proj1 (proj2 (proj2 (proj2 (proj2 (proj2
             (freqKHz_set_rejects Dev.silent))))))).
    constructor; [reflexivity|]. constructor; [reflexivity|constructor].
Defined.

Lemma bind_ret_r {A : Type} (m : result A) : (x <- m ;; Ok x) = m.
Proof. destruct m; reflexivity. Qed.

Lemma slice_at (pre mid post : bytes) (a b : Z) :
  a = len pre -> b - a = len mid -> slice a b (pre ++ mid ++ post) = mid.
Proof.
  intros Ha Hb. subst a. unfold slice. rewrite Hb, from_len_app.
  apply upto_len_app.
Qed.

(** The comprehension of the frequency getter on a payload that holds the
    frequencies [fs] from offset 4 + 3k on. *)
Lemma freq_mapM (fs : list Z) :
  Forall (fun f => 0 <= f < 16777216) fs ->
  forall (pld pre extra : bytes) (k m : nat),
    pld = pre ++ concat (map freq_bytes fs) ++ extra ->
    len pre = 4 + Z.of_nat k * 3 ->
    mapM (fun iF => unpack_I (0x00 :: slice (4 + iF * 3) (4 + iF * 3 + 3) pld))
         (map Z.of_nat (seq k (length fs + m)))
    = (rest <- mapM (fun iF =>
                       unpack_I (0x00 :: slice (4 + iF * 3) (4 + iF * 3 + 3) pld))
                    (map Z.of_nat (seq (k + length fs) m)) ;;
       Ok (fs ++ rest)).
Proof.
  induction 1 as [|f fs Hf _ IH]; intros pld pre extra k m Hpld Hpre.
  - cbn [length Nat.add app]. rewrite Nat.add_0_r. symmetry. apply bind_ret_r.
  - cbn [length Nat.add seq map mapM].
    assert (Hslice : slice (4 + Z.of_nat k * 3) (4 + Z.of_nat k * 3 + 3) pld
                     = freq_bytes f).
    { rewrite Hpld. cbn [map concat]. rewrite <- app_assoc.
      apply slice_at; [symmetry; exact Hpre|].
      unfold len. cbn [freq_bytes length]. lia. }
    rewrite Hslice, unpack_I_freq_bytes by lia.
    rewrite Z.mod_small by lia. cbn [bind].
    rewrite (IH pld (pre ++ freq_bytes f) extra (S k) m).
    + replace (S k + length fs)%nat with (k + S (length fs))%nat by lia.
      destruct (mapM _ (map Z.of_nat (seq (k + S (length fs)) m)));
        reflexivity.
    + rewrite Hpld. cbn [map concat]. rewrite <- !app_assoc. reflexivity.
    + unfold len in *. rewrite length_app. cbn [freq_bytes length]. lia.
Qed.

(** The frequency getter, for a response of one packet whose payload holds
    a return code, the mode, the maximum count, the count of frequencies and
    three bytes for each: it returns the list of the frequencies when there
    are two or more, the frequency itself when there is one, and raises
    [IndexError] when the count is 0. *)
Theorem freqKHz_get (dev : Dev.device) (p : PURPacket) (rc mode maxCount : Z)
        (fs : list Z) (extra : bytes) :
  respPkgs_of (request [0x02; 0x02] []) (next_rx dev) = Ok [p] ->
  pldBytes p = [rc; mode; maxCount; len fs]
               ++ concat (map freq_bytes fs) ++ extra ->
  ~ error_code rc ->
  Forall (fun f => 0 <= f < 16777216) fs ->
  fst (Dev.freqKHz dev)
  = match fs with
    | [] => inr (Dev.Exn IndexError)
    | [f] => inl (Dev.OneFreq f)
    | _ :: _ :: _ => inl (Dev.ManyFreqs fs)
    end.
Proof.
  intros Hps Hp Hrc Hfs. unfold Dev.freqKHz.
  rewrite dev_query_run; [|apply byte_list_ok; reflexivity|discriminate].
  rewrite (send_single _ p _ true Hps)
    by (intros _; apply (checkResp_ok p rc _ Hp Hrc)).
  unfold Dev.bind at 1. cbn [Dev.pldBytes_of Dev.lift Dev.ret].
  unfold Dev.bind at 1.
  assert (Hhdr : unpack_BBB (slice 1 4 (pldBytes p)) = Ok (mode, maxCount, len fs)).
  { rewrite Hp. reflexivity. }
  rewrite Hhdr. cbn [Dev.lift Dev.ret snd]. unfold Dev.bind at 1.
  unfold Dev.range, len at 1. rewrite Nat2Z.id.
  replace (seq 0 (length fs)) with (seq 0 (length fs + 0))
    by (rewrite Nat.add_0_r; reflexivity).
  rewrite (freq_mapM fs Hfs (pldBytes p) [rc; mode; maxCount; len fs] extra 0 0
             Hp eq_refl).
  cbn [seq map mapM bind]. rewrite app_nil_r. cbn [Dev.lift Dev.ret].
  destruct fs as [|f [|g fs]].
  - reflexivity.
  - reflexivity.
  - replace (len (f :: g :: fs) >? 1) with true; [reflexivity|].
    symmetry. apply Z.gtb_lt. unfold len. cbn [length]. lia.
Qed.

Lemma freqKHz_get_witness :
  fst (Dev.freqKHz
         (Dev.mkDevice
            [frame_of [0x02; 0x02]
               ([0x00; 0x00; 0x08; len [865700; 866900]]
                ++ concat (map freq_bytes [865700; 866900]) ++ [])] []))
  = inl (Dev.ManyFreqs [865700; 866900]).
Proof.
  refine (freqKHz_get _
            (request [0x02; 0x02]
               ([0x00; 0x00; 0x08; len [865700; 866900]]
                ++ concat (map freq_bytes [865700; 866900]) ++ []))
            0x00 0x00 0x08 [865700; 866900] [] _ _ _ _).
  - reflexivity.
  - reflexivity.
  - unfold error_code. lia.
  - repeat constructor; lia.
Defined.

(** The frequency getter raises [struct.error] when the payload is too
    short for what it announces: fewer than 3 bytes behind the return code,
    or fewer than 3 bytes left for one of the announced frequencies. *)
Theorem freqKHz_get_short (dev : Dev.device) (p : PURPacket) :
  respPkgs_of (request [0x02; 0x02] []) (next_rx dev) = Ok [p] ->
  (forall (rc : Z) (rest : bytes),
      pldBytes p = rc :: rest -> ~ error_code rc -> (length rest < 3)%nat ->
      fst (Dev.freqKHz dev) = inr (Dev.Exn StructError))
  /\ (forall (rc mode maxCount count : Z) (fs : list Z) (rest : bytes),
         pldBytes p = [rc; mode; maxCount; count]
                      ++ concat (map freq_bytes fs) ++ rest ->
         ~ error_code rc ->
         Forall (fun f => 0 <= f < 16777216) fs ->
         len fs < count -> (length rest < 3)%nat ->
         fst (Dev.freqKHz dev) = inr (Dev.Exn StructError)).
Proof.
  intros Hps. split.
  - intros rc rest Hp Hrc Hlen. unfold Dev.freqKHz.
    rewrite dev_query_run; [|apply byte_list_ok; reflexivity|discriminate].
    rewrite (send_single _ p _ true Hps)
      by (intros _; apply (checkResp_ok p rc _ Hp Hrc)).
    unfold Dev.bind at 1. cbn [Dev.pldBytes_of Dev.lift Dev.ret].
    unfold Dev.bind at 1. rewrite Hp.
    destruct rest as [|a [|b [|c rest]]]; cbn [length] in Hlen;
      try reflexivity. lia.
  - intros rc mode maxCount count fs rest Hp Hrc Hfs Hcount Hlen.
    unfold Dev.freqKHz.
    rewrite dev_query_run; [|apply byte_list_ok; reflexivity|discriminate].
    rewrite (send_single _ p _ true Hps)
      by (intros _; apply (checkResp_ok p rc _ Hp Hrc)).
    unfold Dev.bind at 1. cbn [Dev.pldBytes_of Dev.lift Dev.ret].
    unfold Dev.bind at 1.
    assert (Hhdr : unpack_BBB (slice 1 4 (pldBytes p)) = Ok (mode, maxCount, count)).
    { rewrite Hp. reflexivity. }
    rewrite Hhdr. cbn [Dev.lift Dev.ret snd]. unfold Dev.bind at 1.
    unfold Dev.range.
    replace (Z.to_nat count)
      with (length fs + S (Z.to_nat count - length fs - 1))%nat
      by (unfold len in Hcount; lia).
    rewrite (freq_mapM fs Hfs (pldBytes p) [rc; mode; maxCount; count] rest 0 _
               Hp eq_refl).
    cbn [Nat.add seq map mapM].
    assert (Hslice : slice (4 + Z.of_nat (length fs) * 3)
                           (4 + Z.of_nat (length fs) * 3 + 3) (pldBytes p)
                     = rest).
    { rewrite Hp, app_assoc. unfold slice.
      replace (4 + Z.of_nat (length fs) * 3)
        with (len ([rc; mode; maxCount; count] ++ concat (map freq_bytes fs))).
      - rewrite from_len_app. unfold upto. apply firstn_all2. lia.
      - unfold len. rewrite length_app, concat_freq_bytes_length.
        cbn [length]. lia. }
    rewrite Hslice.
    destruct rest as [|a [|b [|c rest]]]; cbn [length] in Hlen;
      try reflexivity. lia.
Qed.

Lemma freqKHz_get_short_witness :
  fst (Dev.freqKHz
         (Dev.mkDevice
            [frame_of [0x02; 0x02]
               ([0x00; 0x00; 0x08; 0x02]
                ++ concat (map freq_bytes [865700]) ++ [0x0D; 0x3A])] []))
  = inr (Dev.Exn StructError).
Proof.
  refine (proj2 (freqKHz_get_short _
                   (request [0x02; 0x02]
                      ([0x00; 0x00; 0x08; 0x02]
                       ++ concat (map freq_bytes [865700]) ++ [0x0D; 0x3A])) _)
            0x00 0x00 0x08 0x02 [865700] [0x0D; 0x3A] _ _ _ _ _).
  - reflexivity.
  - reflexivity.
  - unfold error_code. lia.
  - repeat constructor; lia.
  - reflexivity.
  - simpl. lia.
Defined.

(* ================================================================== *)
(** ** Parameters with a table or a single byte *)

Lemma getParam_single (addr : Z) (dev : Dev.device) (p : PURPacket)
      (rc n : Z) (value : bytes) :
  0 <= addr < 65536 ->
  respPkgs_of (request [0x03; 0x31] [addr / 256; addr mod 256]) (next_rx dev)
  = Ok [p] ->
  pldBytes p = rc :: n :: value ->
  ~ error_code rc ->
  Dev.getParam addr dev
  = (inl (upto n value),
     exchanged dev (frame_of [0x03; 0x31] [addr / 256; addr mod 256])).
Proof.
  intros Ha Hps Hp Hrc. rewrite (getParam_run addr dev Ha).
  rewrite (send_single _ p _ true Hps)
    by (intros _; apply (checkResp_ok p rc _ Hp Hrc)).
  cbn [bind getParam_resp]. unfold index, slice. rewrite Hp.
  cbn [nth_error bind]. rewrite from_2.
  replace (2 + n - 2) with n by lia. reflexivity.
Qed.

Lemma head_upto (n k : Z) (rest : bytes) :
  0 < n -> head (upto n (k :: rest)) = Ok k.
Proof.
  intros Hn. unfold upto.
  destruct (Z.to_nat n) as [|m] eqn:E; [lia|]. reflexivity.
Qed.

Lemma pack_B_byte (v : Z) : 0 <= v < 256 -> pack_B v = Ok [v].
Proof. intros H. unfold pack_B. rewrite (in_range_true _ _ _ H). reflexivity. Qed.

(** Session and modulation depth are one byte of a parameter (0x0028 and
    0x0022).  The setters pass every value in 0..255 on to [setParam],
    without a check against the values the parameter allows, and raise
    [struct.error] without writing for any other; the getters return the
    first value byte of the response and raise [IndexError] when the
    response holds no value byte. *)
Theorem session_modDepth_accessors (dev : Dev.device) :
  (forall v : Z,
      0 <= v < 256 ->
      Dev.session_set v dev = Dev.setParam 0x0028 [v] dev
      /\ Dev.modDepth_set v dev = Dev.setParam 0x0022 [v] dev)
  /\ (forall v : Z,
         v < 0 \/ 256 <= v ->
         Dev.session_set v dev = (inr (Dev.Exn StructError), dev)
         /\ Dev.modDepth_set v dev = (inr (Dev.Exn StructError), dev))
  /\ (forall (p : PURPacket) (rc n : Z) (value : bytes),
         respPkgs_of (request [0x03; 0x31] [0x00; 0x28]) (next_rx dev) = Ok [p] ->
         pldBytes p = rc :: n :: value ->
         ~ error_code rc ->
         fst (Dev.session dev)
         = match upto n value with
           | [] => inr (Dev.Exn IndexError)
           | v :: _ => inl v
           end)
  /\ (forall (p : PURPacket) (rc n : Z) (value : bytes),
         respPkgs_of (request [0x03; 0x31] [0x00; 0x22]) (next_rx dev) = Ok [p] ->
         pldBytes p = rc :: n :: value ->
         ~ error_code rc ->
         fst (Dev.modDepth dev)
         = match upto n value with
           | [] => inr (Dev.Exn IndexError)
           | v :: _ => inl v
           end).
Proof.
  split; [|split; [|split]].
  - intros v Hv. unfold Dev.session_set, Dev.modDepth_set, Dev.bind.
    rewrite (pack_B_byte v Hv). split; reflexivity.
  - intros v Hv. unfold Dev.session_set, Dev.modDepth_set, Dev.bind, pack_B.
    rewrite (in_range_false _ _ _ Hv). split; reflexivity.
  - intros p rc n value Hps Hp Hrc. unfold Dev.session, Dev.bind.
    rewrite (getParam_single 0x0028 dev p rc n value);
      [|lia|exact Hps|exact Hp|exact Hrc].
    destruct (upto n value); reflexivity.
  - intros p rc n value Hps Hp Hrc. unfold Dev.modDepth, Dev.bind.
    rewrite (getParam_single 0x0022 dev p rc n value);
      [|lia|exact Hps|exact Hp|exact Hrc].
    destruct (upto n value); reflexivity.
Qed.

Lemma session_modDepth_accessors_witness :
  (Dev.session_set 200 Dev.silent = Dev.setParam 0x0028 [200] Dev.silent
   /\ Dev.modDepth_set 200 Dev.silent = Dev.setParam 0x0022 [200] Dev.silent)
  /\ (Dev.session_set 256 Dev.silent = (inr (Dev.Exn StructError), Dev.silent)
      /\ Dev.modDepth_set 256 Dev.silent
         = (inr (Dev.Exn StructError), Dev.silent))
  /\ fst (Dev.session
            (Dev.mkDevice [frame_of [0x03; 0x31] [0x00; 0x00]] []))
     = match upto 0x00 [] with
       | [] => inr (Dev.Exn IndexError)
       | v :: _ => inl v
       end.
Proof.
  split; [|split].
  - apply (proj1 (session_modDepth_accessors Dev.silent)). lia.
  - apply (proj1 (proj2 (session_modDepth_accessors Dev.silent))). lia.
  - refine (proj1 (proj2 (proj2 (session_modDepth_accessors _)))
              (request [0x03; 0x31] [0x00; 0x00]) 0x00 0x00 [] _ _ _).
    + reflexivity.
    + reflexivity.
    + unfold error_code. lia.
Defined.

Lemma int_run (n : Dev.number) (val : Z) (dev : Dev.device) :
  int_value n = Some val -> Dev.int n dev = (inl val, dev).
Proof.
  destruct n as [z|[num den|neg|]]; cbn [int_value]; intros H;
    try discriminate H; injection H as <-; reflexivity.
Qed.

(** Backscatter link frequency.  The setter converts its argument with
    [int], so a float counts as the integer left when its fraction is cut
    off toward zero (80.5 as 80), an infinity raises [OverflowError] and
    NaN [ValueError].  For a number whose integer is a frequency of the
    table the setter sets parameter 0x0020 to the key of that frequency, and
    the getter maps a response with that key back to the frequency; for a
    number whose integer is no frequency of the table it raises the
    [ValueError] that lists the six frequencies, and nothing is written; a
    key of the device that the table does not hold makes the getter raise
    [KeyError]. *)
Theorem blfKHz_accessors (dev : Dev.device) :
  (forall (key val : Z) (num : Dev.number),
      In (key, val) tagFreqsKHz ->
      int_value num = Some val ->
      Dev.blfKHz_set num dev = Dev.setParam 0x0020 [key] dev
      /\ (forall (dev' : Dev.device) (p : PURPacket) (rc n : Z) (rest : bytes),
             respPkgs_of (request [0x03; 0x31] [0x00; 0x20]) (next_rx dev')
             = Ok [p] ->
             pldBytes p = rc :: n :: key :: rest ->
             ~ error_code rc -> 0 < n ->
             fst (Dev.blfKHz dev') = inl val))
  /\ (forall (num : Dev.number) (val : Z),
         int_value num = Some val ->
         (forall key, ~ In (key, val) tagFreqsKHz) ->
         Dev.blfKHz_set num dev
         = (inr (Dev.Exn (ValueError
              "Invalid backscatter frequency. Can be: 40 kHz, 80 kHz, 160 kHz, 213 kHz, 256 kHz, 320 kHz")),
            dev))
  /\ (forall negative : bool,
         Dev.blfKHz_set (Dev.PyFloat (Dev.Infinity negative)) dev
         = (inr (Dev.OverflowError "cannot convert float infinity to integer"),
            dev))
  /\ Dev.blfKHz_set (Dev.PyFloat Dev.NaN) dev
     = (inr (Dev.Exn (ValueError "cannot convert float NaN to integer")), dev)
  /\ (forall (p : PURPacket) (rc n key : Z) (rest : bytes),
         respPkgs_of (request [0x03; 0x31] [0x00; 0x20]) (next_rx dev) = Ok [p] ->
         pldBytes p = rc :: n :: key :: rest ->
         ~ error_code rc -> 0 < n ->
         key < 0 \/ 5 < key ->
         fst (Dev.blfKHz dev) = inr (Dev.KeyError key)).
Proof.
  split; [|split; [|split; [reflexivity|split; [reflexivity|]]]].
  - intros key val num Hin Hnum. cbn [In tagFreqsKHz] in Hin.
    assert (Hset : Dev.blfKHz_set num dev
                   = Dev.blfKHz_loop val tagFreqsKHz
                       (Dev.throw (Dev.Exn (ValueError
                          ("Invalid backscatter frequency. Can be: "
                           ++ join ", " (map (fun kv => fmt_int (snd kv) ++ " kHz")
                                             tagFreqsKHz))%string))) dev).
    { unfold Dev.blfKHz_set, Dev.bind. rewrite (int_run num val dev Hnum).
      reflexivity. }
    assert (Hget : forall (dev' : Dev.device) (p : PURPacket) (rc n : Z)
                     (rest : bytes),
               lookupZ key tagFreqsKHz = Some val ->
               respPkgs_of (request [0x03; 0x31] [0x00; 0x20]) (next_rx dev')
               = Ok [p] ->
               pldBytes p = rc :: n :: key :: rest ->
               ~ error_code rc -> 0 < n ->
               fst (Dev.blfKHz dev') = inl val).
    { intros dev' p rc n rest Hlk Hps Hp Hrc Hn. unfold Dev.blfKHz, Dev.bind.
      rewrite (getParam_single 0x0020 dev' p rc n (key :: rest));
        [|lia|exact Hps|exact Hp|exact Hrc].
      rewrite (head_upto n key rest Hn). cbn [Dev.lift Dev.ret].
      unfold Dev.getitem. rewrite Hlk. reflexivity. }
    rewrite Hset. clear Hset Hnum.
    repeat (destruct Hin as [Hin|Hin];
            [injection Hin as <- <-; split;
             [reflexivity|intros dev' p rc n rest; apply Hget; reflexivity]|]).
    contradiction.
  - intros num val Hnum Hno.
    assert (H40 : (val =? 40) = false)
      by (apply Z.eqb_neq; intros ->; apply (Hno 0x00); cbn; tauto).
    assert (H80 : (val =? 80) = false)
      by (apply Z.eqb_neq; intros ->; apply (Hno 0x01); cbn; tauto).
    assert (H160 : (val =? 160) = false)
      by (apply Z.eqb_neq; intros ->; apply (Hno 0x02); cbn; tauto).
    assert (H213 : (val =? 213) = false)
      by (apply Z.eqb_neq; intros ->; apply (Hno 0x03); cbn; tauto).
    assert (H256 : (val =? 256) = false)
      by (apply Z.eqb_neq; intros ->; apply (Hno 0x04); cbn; tauto).
    assert (H320 : (val =? 320) = false)
      by (apply Z.eqb_neq; intros ->; apply (Hno 0x05); cbn; tauto).
    unfold Dev.blfKHz_set, Dev.bind. rewrite (int_run num val dev Hnum).
    unfold tagFreqsKHz at 1. cbn [Dev.blfKHz_loop].
    rewrite H40, H80, H160, H213, H256, H320. reflexivity.
  - intros p rc n key rest Hps Hp Hrc Hn Hkey. unfold Dev.blfKHz, Dev.bind.
    rewrite (getParam_single 0x0020 dev p rc n (key :: rest));
      [|lia|exact Hps|exact Hp|exact Hrc].
    rewrite (head_upto n key rest Hn). cbn [Dev.lift Dev.ret].
    unfold Dev.getitem, tagFreqsKHz, lookupZ.
    repeat (destruct (key =? _) eqn:?E; [apply Z.eqb_eq in E; lia|clear E]).
    reflexivity.
Qed.

Lemma blfKHz_accessors_witness :
  (Dev.blfKHz_set (Dev.PyFloat (Dev.Finite 161 2)) Dev.silent
   = Dev.setParam 0x0020 [0x01] Dev.silent
   /\ fst (Dev.blfKHz
             (Dev.mkDevice [frame_of [0x03; 0x31] [0x00; 0x01; 0x01]] []))
      = inl 80)
  /\ Dev.blfKHz_set (Dev.PyInt 100) Dev.silent
     = (inr (Dev.Exn (ValueError
          "Invalid backscatter frequency. Can be: 40 kHz, 80 kHz, 160 kHz, 213 kHz, 256 kHz, 320 kHz")),
        Dev.silent)
  /\ fst (Dev.blfKHz
            (Dev.mkDevice [frame_of [0x03; 0x31] [0x00; 0x01; 0x06]] []))
     = inr (Dev.KeyError 0x06).
Proof.
  split; [|split].
  - destruct (proj1 (blfKHz_accessors Dev.silent) 0x01 80
                (Dev.PyFloat (Dev.Finite 161 2))) as [Hset Hget].
    + cbn. tauto.
    + reflexivity.
    + split; [exact Hset|].
      apply (Hget _ (request [0x03; 0x31] [0x00; 0x01; 0x01]) 0x00 0x01 []).
      * reflexivity.
      * reflexivity.
      * unfold error_code. lia.
      * lia.
  - apply (proj1 (proj2 (blfKHz_accessors Dev.silent)) (Dev.PyInt 100) 100).
    + reflexivity.
    + intros key Hin. cbn in Hin.
      repeat (destruct Hin as [Hin|Hin]; [discriminate Hin|]). exact Hin.
  - refine (proj2 (proj2 (proj2 (proj2 (blfKHz_accessors _))))
              (request [0x03; 0x31] [0x00; 0x01; 0x06]) 0x00 0x01 0x06 []
              _ _ _ _ _).
    + reflexivity.
    + reflexivity.
    + unfold error_code. lia.
    + lia.
    + lia.
Defined.

(** Backscatter encoding: for "FM0", "M2", "M4" or "M8" the setter sets
    parameter 0x0021 to the key of the encoding, and the getter maps a
    response with that key back to the name; any other string raises the
    [ValueError] that lists the four names, and nothing is written; a key
    outside 0..3 makes the getter raise [KeyError]. *)
Theorem encoding_accessors (dev : Dev.device) :
  (forall (key : Z) (val : string),
      In (key, val) tagEncodings ->
      Dev.encoding_set val dev = Dev.setParam 0x0021 [key] dev
      /\ (forall (dev' : Dev.device) (p : PURPacket) (rc n : Z) (rest : bytes),
             respPkgs_of (request [0x03; 0x31] [0x00; 0x21]) (next_rx dev')
             = Ok [p] ->
             pldBytes p = rc :: n :: key :: rest ->
             ~ error_code rc -> 0 < n ->
             fst (Dev.encoding dev') = inl val))
  /\ (forall val : string,
         (forall key, ~ In (key, val) tagEncodings) ->
         Dev.encoding_set val dev
         = (inr (Dev.Exn (ValueError
              "Invalid backscatter encoding. Can be: FM0, M2, M4, M8")),
            dev))
  /\ (forall (p : PURPacket) (rc n key : Z) (rest : bytes),
         respPkgs_of (request [0x03; 0x31] [0x00; 0x21]) (next_rx dev) = Ok [p] ->
         pldBytes p = rc :: n :: key :: rest ->
         ~ error_code rc -> 0 < n ->
         key < 0 \/ 3 < key ->
         fst (Dev.encoding dev) = inr (Dev.KeyError key)).
Proof.
  split; [|split].
  - intros key val Hin. cbn [In tagEncodings] in Hin.
    assert (Hget : forall (dev' : Dev.device) (p : PURPacket) (rc n : Z)
                     (rest : bytes),
               lookupZ key tagEncodings = Some val ->
               respPkgs_of (request [0x03; 0x31] [0x00; 0x21]) (next_rx dev')
               = Ok [p] ->
               pldBytes p = rc :: n :: key :: rest ->
               ~ error_code rc -> 0 < n ->
               fst (Dev.encoding dev') = inl val).
    { intros dev' p rc n rest Hlk Hps Hp Hrc Hn. unfold Dev.encoding, Dev.bind.
      rewrite (getParam_single 0x0021 dev' p rc n (key :: rest));
        [|lia|exact Hps|exact Hp|exact Hrc].
      rewrite (head_upto n key rest Hn). cbn [Dev.lift Dev.ret].
      unfold Dev.getitem. rewrite Hlk. reflexivity. }
    repeat (destruct Hin as [Hin|Hin];
            [injection Hin as <- <-; split;
             [reflexivity|intros dev' p rc n rest; apply Hget; reflexivity]|]).
    contradiction.
  - intros val Hno.
    assert (H0 : String.eqb val "FM0" = false)
      by (apply String.eqb_neq; intros ->; apply (Hno 0x00); cbn; tauto).
    assert (H1 : String.eqb val "M2" = false)
      by (apply String.eqb_neq; intros ->; apply (Hno 0x01); cbn; tauto).
    assert (H2 : String.eqb val "M4" = false)
      by (apply String.eqb_neq; intros ->; apply (Hno 0x02); cbn; tauto).
    assert (H3 : String.eqb val "M8" = false)
      by (apply String.eqb_neq; intros ->; apply (Hno 0x03); cbn; tauto).
    unfold Dev.encoding_set. unfold tagEncodings at 1. cbn [Dev.encoding_loop].
    rewrite H0, H1, H2, H3. reflexivity.
  - intros p rc n key rest Hps Hp Hrc Hn Hkey. unfold Dev.encoding, Dev.bind.
    rewrite (getParam_single 0x0021 dev p rc n (key :: rest));
      [|lia|exact Hps|exact Hp|exact Hrc].
    rewrite (head_upto n key rest Hn). cbn [Dev.lift Dev.ret].
    unfold Dev.getitem, tagEncodings, lookupZ.
    repeat (destruct (key =? _) eqn:?E; [apply Z.eqb_eq in E; lia|clear E]).
    reflexivity.
Qed.

Lemma encoding_accessors_witness :
  (Dev.encoding_set "M4" Dev.silent = Dev.setParam 0x0021 [0x02] Dev.silent
   /\ fst (Dev.encoding
             (Dev.mkDevice [frame_of [0x03; 0x31] [0x00; 0x01; 0x02]] []))
      = inl "M4"%string)
  /\ Dev.encoding_set "fm0" Dev.silent
     = (inr (Dev.Exn (ValueError
          "Invalid backscatter encoding. Can be: FM0, M2, M4, M8")),
        Dev.silent).
Proof.
  split.
  - destruct (proj1 (encoding_accessors Dev.silent) 0x02 "M4"%string)
      as [Hset Hget].
    + cbn. tauto.
    + split; [exact Hset|].
      apply (Hget _ (request [0x03; 0x31] [0x00; 0x01; 0x02]) 0x00 0x01 []).
      * reflexivity.
      * reflexivity.
      * unfold error_code. lia.
      * lia.
  - apply (proj1 (proj2 (encoding_accessors Dev.silent))).
    intros key Hin. cbn in Hin.
    repeat (destruct Hin as [Hin|Hin]; [discriminate Hin|]). exact Hin.
Defined.

(* ================================================================== *)
(** ** A single inventory *)

Lemma packets_of_response_of (ps : list PURPacket) :
  packets_of (response_of ps) = ps.
Proof. destruct ps as [|p [|q ps]]; reflexivity. Qed.

Lemma parseTagreports_msgs (ms : list invMsg) (resp : response) :
  ms <> [] ->
  Forall invMsg_wf ms ->
  Forall2 (fun m p => pldBytes p = invMsg_payload m) ms (packets_of resp) ->
  sum_counts ms = last_total ms ->
  parseTagreports resp = Ok (concat (map invMsg_entries ms)).
Proof.
  intros Hne Hwf H2 Hsum. unfold parseTagreports. fold (packets_of resp).
  rewrite (parsePkgs_msgs ms _ Hwf H2). cbn [bind tags collectedIds idCount].
  destruct ms as [|m ms]; [congruence|].
  rewrite Z.add_0_l, Hsum, Z.eqb_refl. reflexivity.
Qed.

Lemma singleInventory_run (dev : Dev.device) :
  Dev.singleInventory dev
  = match send (request [0x03; 0x30] [0x00; 0x02; 0x01; 0x01]) (next_rx dev) true with
    | Raise e =>
        (inr (Dev.Exn e),
         exchanged dev (frame_of [0x03; 0x30] [0x00; 0x02; 0x01; 0x01]))
    | Ok _ =>
        (outcome (resp <- send (request [0x50; 0x01] [])
                            (hd [] (tl (Dev.rx dev))) true ;;
                  parseTagreports resp),
         exchanged
           (exchanged dev (frame_of [0x03; 0x30] [0x00; 0x02; 0x01; 0x01]))
           (frame_of [0x50; 0x01] []))
    end.
Proof.
  unfold Dev.singleInventory, Dev.reportRSSI.
  unfold Dev.bind at 1. unfold Dev.bind at 1.
  cbn [pack_B in_range Z.leb Z.ltb Z.compare Pos.compare Pos.compare_cont
       andb Dev.lift Dev.ret].
  rewrite (setParam_run 0x0002 [0x01] dev);
    [|lia|apply byte_list_ok; reflexivity|simpl; lia].
  change ([0x0002 / 256; 0x0002 mod 256; len [0x01]] ++ [0x01])
    with [0x00; 0x02; 0x01; 0x01].
  destruct (send (request [0x03; 0x30] [0x00; 0x02; 0x01; 0x01])
              (next_rx dev) true) as [ack|e]; cbn [bind outcome];
    [|reflexivity].
  unfold Dev.bind at 1, Dev.packet.
  change (PURPacket_init [0x50; 0x01] [] [])
    with (Ok (request [0x50; 0x01] [])).
  cbn [Dev.lift Dev.ret]. unfold Dev.bind. rewrite dev_send_run.
  unfold next_rx at 1. cbn [exchanged Dev.rx Dev.tx msgBytes request].
  destruct (send (request [0x50; 0x01] []) (hd [] (tl (Dev.rx dev))) true)
    as [resp|e]; cbn [outcome bind]; [|reflexivity].
  unfold Dev.lift. destruct (parseTagreports resp); reflexivity.
Qed.

(** [singleInventory] in two exchanges: when the device accepts the
    parameter command and answers the inventory command with well-formed
    inventory messages without error code whose packet counts add up to the
    total of the last, the tags of all messages are returned in their
    order; when the response to the parameter command makes [send] raise,
    that exception is raised and the inventory command is never written. *)
Theorem singleInventory_reports (more sent : list bytes) :
  (forall (r1 r2 : bytes) (ack : response) (ms : list invMsg)
          (pkts : list PURPacket),
      send (request [0x03; 0x30] [0x00; 0x02; 0x01; 0x01]) r1 true = Ok ack ->
      respPkgs_of (request [0x50; 0x01] []) r2 = Ok pkts ->
      Forall (fun p => checkResp p = Ok tt) pkts ->
      ms <> [] ->
      Forall invMsg_wf ms ->
      Forall2 (fun m p => pldBytes p = invMsg_payload m) ms pkts ->
      sum_counts ms = last_total ms ->
      Dev.singleInventory (Dev.mkDevice (r1 :: r2 :: more) sent)
      = (inl (concat (map invMsg_entries ms)),
         Dev.mkDevice more
           (sent ++ [frame_of [0x03; 0x30] [0x00; 0x02; 0x01; 0x01];
                     frame_of [0x50; 0x01] []])))
  /\ (forall (r1 : bytes) (e : exn),
         send (request [0x03; 0x30] [0x00; 0x02; 0x01; 0x01]) r1 true = Raise e ->
         Dev.singleInventory (Dev.mkDevice (r1 :: more) sent)
         = (inr (Dev.Exn e),
            Dev.mkDevice more
              (sent ++ [frame_of [0x03; 0x30] [0x00; 0x02; 0x01; 0x01]]))).
Proof.
  split.
  - intros r1 r2 ack ms pkts Hack Hps Hchk Hne Hwf H2 Hsum.
    rewrite singleInventory_run. unfold next_rx. cbn [Dev.rx Dev.tx hd tl].
    rewrite Hack.
    rewrite (send_of_respPkgs _ r2 pkts true Hps (fun _ => Hchk)).
    cbn [bind].
    rewrite (parseTagreports_msgs ms (response_of pkts) Hne Hwf);
      [| rewrite packets_of_response_of; exact H2 | exact Hsum].
    unfold exchanged. cbn [outcome Dev.rx Dev.tx tl].
    rewrite <- app_assoc. reflexivity.
  - intros r1 e He.
    rewrite singleInventory_run. unfold next_rx. cbn [Dev.rx Dev.tx hd tl].
    rewrite He. reflexivity.
Qed.

Lemma singleInventory_reports_witness :
  Dev.singleInventory
    (Dev.mkDevice
       (frame_of [0x03; 0x30] [0x00]
        :: frame_of [0x50; 0x01] (invMsg_payload (inventory_msg_two 0x02))
        :: []) [])
  = (inl (concat (map invMsg_entries [inventory_msg_two 0x02])),
     Dev.mkDevice []
       ([] ++ [frame_of [0x03; 0x30] [0x00; 0x02; 0x01; 0x01];
               frame_of [0x50; 0x01] []]))
  /\ Dev.singleInventory
       (Dev.mkDevice (frame_of [0x03; 0x30] [0x52] :: []) [])
     = (inr (Dev.Exn (IOError (problem_msg (request [0x03; 0x30] [0x52])
                                 "The operation could not be executed."))),
        Dev.mkDevice []
          ([] ++ [frame_of [0x03; 0x30] [0x00; 0x02; 0x01; 0x01]])).
Proof.
  split.
  - refine (proj1 (singleInventory_reports [] [])
              (frame_of [0x03; 0x30] [0x00])
              (frame_of [0x50; 0x01] (invMsg_payload (inventory_msg_two 0x02)))
              (One (request [0x03; 0x30] [0x00]))
              [inventory_msg_two 0x02]
              [request [0x50; 0x01] (invMsg_payload (inventory_msg_two 0x02))]
              _ _ _ _ _ _ _).
    + reflexivity.
    + reflexivity.
    + constructor; [reflexivity|constructor].
    + discriminate.
    + repeat constructor; simpl; tauto.
    + repeat constructor.
    + reflexivity.
  - refine (proj2 (singleInventory_reports [] [])
              (frame_of [0x03; 0x30] [0x52]) _ _).
    reflexivity.
Defined.
